(** * Browser performance metrics instrumentation

    A shallow embedding of [packages/tracing/src/browser/metrics.ts]:
    the [MetricsInstrumentation] class (first-hidden timestamp, LCP and
    FID observers, the performance-timeline cursor) and the span
    synthesis helpers ([_startChild], [addResourceSpans],
    [addPerformanceNavigationTiming], [addRequest], ...).

    JavaScript objects that the file mutates ([this], the transaction,
    the observers' record buffers, the registered listeners) are threaded
    explicitly as state. *)

From Stdlib Require Import QArith Qcanon.
From stdpp Require Import base numbers strings list gmap.

(** ** JavaScript numbers

    Timestamps are JavaScript numbers.  The finite ones are modelled as
    exact rationals (rounding of doubles is not modelled); [Infinity]
    and [NaN] are kept because the source uses [Infinity] as the
    "never hidden" timestamp and arithmetic on a missing field gives
    [NaN]. *)
Module Num.

Inductive number : Type :=
| NaN
| NegInf
| Fin (q : Qc)
| PosInf.

Definition of_Z (z : Z) : number := Fin (Q2Qc (inject_Z z)).
Definition zero : number := of_Z 0.

Definition Qc_ltb (a b : Qc) : bool :=
  match (a ?= b)%Qc with Lt => true | _ => false end.

Definition Qc_eqb (a b : Qc) : bool :=
  match (a ?= b)%Qc with Eq => true | _ => false end.

(** [a + b] *)
Definition add (a b : number) : number :=
  match a, b with
  | NaN, _ | _, NaN => NaN
  | PosInf, NegInf | NegInf, PosInf => NaN
  | PosInf, _ | _, PosInf => PosInf
  | NegInf, _ | _, NegInf => NegInf
  | Fin x, Fin y => Fin (x + y)%Qc
  end.

(** unary minus *)
Definition neg (a : number) : number :=
  match a with
  | NaN => NaN
  | NegInf => PosInf
  | PosInf => NegInf
  | Fin x => Fin (- x)%Qc
  end.

(** [a - b] *)
Definition sub (a b : number) : number := add a (neg b).

(** [a < b]; false as soon as one side is [NaN] *)
Definition lt (a b : number) : bool :=
  match a, b with
  | NaN, _ | _, NaN => false
  | _, NegInf => false
  | NegInf, _ => true
  | PosInf, _ => false
  | Fin _, PosInf => true
  | Fin x, Fin y => Qc_ltb x y
  end.

(** [a > b] *)
Definition gt (a b : number) : bool := lt b a.

(** [a >= b] *)
Definition ge (a b : number) : bool :=
  match a, b with
  | NaN, _ | _, NaN => false
  | _, _ => negb (lt a b)
  end.

(** [Math.min(a, b)] *)
Definition min (a b : number) : number :=
  match a, b with
  | NaN, _ | _, NaN => NaN
  | _, _ => if lt b a then b else a
  end.

(** ToBoolean on a number: [0] and [NaN] are falsy *)
Definition truthy (a : number) : bool :=
  match a with
  | NaN => false
  | Fin x => negb (Qc_eqb x 0)
  | _ => true
  end.

(** [a / 1000] *)
Definition div1000 (a : number) : number :=
  match a with
  | Fin x => Fin (x / Q2Qc (inject_Z 1000))%Qc
  | other => other
  end.

(** a decimal literal [n / d] *)
Definition frac (n : Z) (d : positive) : number := Fin (Q2Qc (n # d)).

End Num.

Import Num.

(** ** JavaScript strings *)

(** [s.replace(pat, r)] for a string pattern: the first occurrence of
    [pat] is replaced ([r] holds no [$] pattern in the source, it is
    the empty string). *)
Definition replace (s pat r : string) : string :=
  match String.index 0 pat s with
  | Some i =>
      String.substring 0 i s +:+ r +:+
      String.substring (i + String.length pat) (String.length s - (i + String.length pat)) s
  | None => s
  end.

(** [s.indexOf(t) > -1] *)
Definition indexOf_found (s t : string) : bool :=
  match String.index 0 t s with Some _ => true | None => false end.

(** ToBoolean on a string: only the empty string is falsy *)
Definition nonempty (s : string) : bool :=
  match s with EmptyString => false | _ => true end.

(** ** Data model *)

(** [{ value: number }], the value type of [Measurements] *)
Record Measurement : Type := { value : number }.

(** A performance entry ([Record<string, any>] in the source).  The four
    attributes of the [PerformanceEntry] interface are always there; the
    attributes of the subtypes (navigation phases, body sizes,
    [processingStart]) are looked up by key in [props] and may be
    missing. *)
Record PerformanceEntry : Type := {
  name : string;
  entryType : string;
  startTime : number;
  duration : number;
  initiatorType : option string;
  props : gmap string number;
}.

(** [entry[key]] for a numeric attribute; [None] is [undefined] *)
Definition prop (entry : PerformanceEntry) (key : string) : option number :=
  props entry !! key.

(** ToNumber of [entry[key]]: an [undefined] attribute becomes [NaN] once
    arithmetic is done on it *)
Definition prop_number (entry : PerformanceEntry) (key : string) : number :=
  default NaN (prop entry key).

(** ToBoolean of [number | undefined] *)
Definition truthy_opt (x : option number) : bool :=
  match x with Some n => truthy n | None => false end.

(** [SpanContext] from [@sentry/types], restricted to the attributes
    this file sets; every attribute is optional there. *)
Record SpanContext : Type := {
  description : option string;
  op : option string;
  startTimestamp : option number;
  endTimestamp : option number;
  data : option (gmap string number);
}.

(** Modelled from the spec: the [Transaction] class ([../transaction]) is
    not part of the sources.  It owns a mutable start timestamp, an
    operation tag, the list of child spans and the attached
    measurements. *)
Record Transaction : Type := {
  tx_op : option string;
  tx_startTimestamp : number;
  tx_spans : list SpanContext;
  tx_measurements : option (gmap string Measurement);
}.

(** [x === s] for [x : string | undefined] *)
Definition str_is (x : option string) (s : string) : bool :=
  match x with
  | Some o => String.eqb o s
  | None => false
  end.

(** Modelled from the spec: [transaction.startChild(ctx)] creates a child
    span from the context and adds it to the child-span list. *)
Definition startChild (transaction : Transaction) (ctx : SpanContext) : Transaction :=
  {| tx_op := tx_op transaction;
     tx_startTimestamp := tx_startTimestamp transaction;
     tx_spans := tx_spans transaction ++ [ctx];
     tx_measurements := tx_measurements transaction |}.

(** Modelled from the spec: [transaction.setMeasurements(m)] attaches the
    measurement store to the transaction. *)
Definition setMeasurements (transaction : Transaction)
    (m : gmap string Measurement) : Transaction :=
  {| tx_op := tx_op transaction;
     tx_startTimestamp := tx_startTimestamp transaction;
     tx_spans := tx_spans transaction;
     tx_measurements := Some m |}.

(** Modelled from the spec: [msToSec] ([../utils]) converts milliseconds
    to seconds. *)
Definition msToSec (time : number) : number := div1000 time.

(** ** Span synthesis *)

(** [_startChild(transaction, { startTimestamp, ...ctx })] *)
Definition _startChild (transaction : Transaction) (ctx : SpanContext) : Transaction :=
  let transaction :=
    match startTimestamp ctx with
    | Some ts =>
        if truthy ts && gt (tx_startTimestamp transaction) ts
        then {| tx_op := tx_op transaction;
                tx_startTimestamp := ts;
                tx_spans := tx_spans transaction;
                tx_measurements := tx_measurements transaction |}
        else transaction
    | None => transaction
    end in
  startChild transaction ctx.

(** [addMeasureSpans]: returns the transaction and [measureStartTimestamp] *)
Definition addMeasureSpans (transaction : Transaction) (entry : PerformanceEntry)
    (startTime duration timeOrigin : number) : Transaction * number :=
  let measureStartTimestamp := add timeOrigin startTime in
  let measureEndTimestamp := add measureStartTimestamp duration in
  (_startChild transaction
     {| description := Some (name entry);
        endTimestamp := Some measureEndTimestamp;
        op := Some (entryType entry);
        startTimestamp := Some measureStartTimestamp;
        data := None |},
   measureStartTimestamp).

(** [if (key in entry) data[label] = entry[key]] *)
Definition copy_size (entry : PerformanceEntry) (key label : string)
    (data : gmap string number) : gmap string number :=
  match prop entry key with
  | Some v => <[label := v]> data
  | None => data
  end.

(** [addResourceSpans]: returns the transaction and the end timestamp,
    [None] for [undefined] *)
Definition addResourceSpans (transaction : Transaction) (entry : PerformanceEntry)
    (resourceName : string) (startTime duration timeOrigin : number)
    : Transaction * option number :=
  if str_is (initiatorType entry) "xmlhttprequest" || str_is (initiatorType entry) "fetch"
  then (transaction, None)
  else
    let data := copy_size entry "transferSize" "Transfer Size" ∅ in
    let data := copy_size entry "encodedBodySize" "Encoded Body Size" data in
    let data := copy_size entry "decodedBodySize" "Decoded Body Size" data in
    let startTimestamp := add timeOrigin startTime in
    let endTimestamp := add startTimestamp duration in
    (_startChild transaction
       {| description := Some resourceName;
          endTimestamp := Some endTimestamp;
          op := Some match initiatorType entry with
                     | Some t => if nonempty t then "resource." +:+ t else "resource"
                     | None => "resource"
                     end;
          startTimestamp := Some startTimestamp;
          data := Some data |},
     Some endTimestamp).

(** [addPerformanceNavigationTiming] *)
Definition addPerformanceNavigationTiming (transaction : Transaction)
    (entry : PerformanceEntry) (event : string) (timeOrigin : number) : Transaction :=
  let end_ := prop entry (event +:+ "End") in
  let start := prop entry (event +:+ "Start") in
  if negb (truthy_opt start) || negb (truthy_opt end_) then transaction
  else
    _startChild transaction
      {| description := Some event;
         endTimestamp := Some (add timeOrigin (msToSec (default NaN end_)));
         op := Some "browser";
         startTimestamp := Some (add timeOrigin (msToSec (default NaN start)));
         data := None |}.

(** [addRequest] *)
Definition addRequest (transaction : Transaction) (entry : PerformanceEntry)
    (timeOrigin : number) : Transaction :=
  let transaction :=
    _startChild transaction
      {| description := Some "request";
         endTimestamp := Some (add timeOrigin (msToSec (prop_number entry "responseEnd")));
         op := Some "browser";
         startTimestamp := Some (add timeOrigin (msToSec (prop_number entry "requestStart")));
         data := None |} in
  _startChild transaction
    {| description := Some "response";
       endTimestamp := Some (add timeOrigin (msToSec (prop_number entry "responseEnd")));
       op := Some "browser";
       startTimestamp := Some (add timeOrigin (msToSec (prop_number entry "responseStart")));
       data := None |}.

(** [addNavigationSpans] *)
Definition addNavigationSpans (transaction : Transaction) (entry : PerformanceEntry)
    (timeOrigin : number) : Transaction :=
  let transaction := addPerformanceNavigationTiming transaction entry "unloadEvent" timeOrigin in
  let transaction := addPerformanceNavigationTiming transaction entry "domContentLoadedEvent" timeOrigin in
  let transaction := addPerformanceNavigationTiming transaction entry "loadEvent" timeOrigin in
  let transaction := addPerformanceNavigationTiming transaction entry "connect" timeOrigin in
  let transaction := addPerformanceNavigationTiming transaction entry "domainLookup" timeOrigin in
  addRequest transaction entry timeOrigin.

(** ** The instrumentation and its host *)

(** [_forceLCP] holds one of two closures: the initial no-op, or the one
    [_trackLCP] installs, which drains the observer's records. *)
Inductive ForceLCP : Type := ForceNoop | ForceTakeRecords.

(** The fields of [class MetricsInstrumentation].  The cursor is an index
    into an array, kept as a natural number. *)
Record MetricsInstrumentation : Type := {
  _firstHiddenTime : number;
  _lcpFinal : bool;
  _measurements : gmap string Measurement;
  _performanceCursor : nat;
  _forceLCP : ForceLCP;
}.

(** A [<script>] element: [dataset.entry] and [src] *)
Record Script : Type := {
  dataset_entry : option string;
  src : string;
}.

(** What the page offers and does not change during a session. *)
Record Env : Type := {
  (* global && global.performance *)
  hasPerformance : bool;
  (* global.performance.mark *)
  hasMark : bool;
  (* global.performance.getEntries *)
  hasGetEntries : bool;
  (* performance.timeOrigin, in milliseconds *)
  timeOrigin : number;
  (* document.scripts; None when there is no global.document *)
  scripts : option (list Script);
  (* window.location.origin *)
  location_origin : string;
  (* PerformanceObserver.supportedEntryTypes.includes(type), and
     constructing and observing does not throw *)
  lcpSupported : bool;
  fidSupported : bool;
  (* po.takeRecords *)
  hasTakeRecords : bool;
}.

(** The part of the browser that changes: the performance timeline, the
    document's visibility, the records queued for the two observers and
    the listeners and observers that are registered. *)
Record Host : Type := {
  (* performance.getEntries() *)
  timeline : list PerformanceEntry;
  (* document.visibilityState *)
  visibilityState : string;
  (* records queued for each observer and not yet delivered *)
  lcpRecords : list PerformanceEntry;
  fidRecords : list PerformanceEntry;
  (* whether each observer is observing *)
  lcpObserving : bool;
  fidObserving : bool;
  (* the two [once] listeners for visibilitychange, while registered *)
  firstHiddenListener : bool;
  lcpListener : bool;
}.

Definition set_timeline (v : list PerformanceEntry) (h : Host) :=
  {| timeline := v; visibilityState := visibilityState h;
     lcpRecords := lcpRecords h; fidRecords := fidRecords h;
     lcpObserving := lcpObserving h; fidObserving := fidObserving h;
     firstHiddenListener := firstHiddenListener h; lcpListener := lcpListener h |}.

Definition set_visibilityState (v : string) (h : Host) :=
  {| timeline := timeline h; visibilityState := v;
     lcpRecords := lcpRecords h; fidRecords := fidRecords h;
     lcpObserving := lcpObserving h; fidObserving := fidObserving h;
     firstHiddenListener := firstHiddenListener h; lcpListener := lcpListener h |}.

Definition set_lcpRecords (v : list PerformanceEntry) (h : Host) :=
  {| timeline := timeline h; visibilityState := visibilityState h;
     lcpRecords := v; fidRecords := fidRecords h;
     lcpObserving := lcpObserving h; fidObserving := fidObserving h;
     firstHiddenListener := firstHiddenListener h; lcpListener := lcpListener h |}.

Definition set_fidRecords (v : list PerformanceEntry) (h : Host) :=
  {| timeline := timeline h; visibilityState := visibilityState h;
     lcpRecords := lcpRecords h; fidRecords := v;
     lcpObserving := lcpObserving h; fidObserving := fidObserving h;
     firstHiddenListener := firstHiddenListener h; lcpListener := lcpListener h |}.

Definition set_lcpObserving (v : bool) (h : Host) :=
  {| timeline := timeline h; visibilityState := visibilityState h;
     lcpRecords := lcpRecords h; fidRecords := fidRecords h;
     lcpObserving := v; fidObserving := fidObserving h;
     firstHiddenListener := firstHiddenListener h; lcpListener := lcpListener h |}.

Definition set_fidObserving (v : bool) (h : Host) :=
  {| timeline := timeline h; visibilityState := visibilityState h;
     lcpRecords := lcpRecords h; fidRecords := fidRecords h;
     lcpObserving := lcpObserving h; fidObserving := v;
     firstHiddenListener := firstHiddenListener h; lcpListener := lcpListener h |}.

Definition set_firstHiddenListener (v : bool) (h : Host) :=
  {| timeline := timeline h; visibilityState := visibilityState h;
     lcpRecords := lcpRecords h; fidRecords := fidRecords h;
     lcpObserving := lcpObserving h; fidObserving := fidObserving h;
     firstHiddenListener := v; lcpListener := lcpListener h |}.

Definition set_lcpListener (v : bool) (h : Host) :=
  {| timeline := timeline h; visibilityState := visibilityState h;
     lcpRecords := lcpRecords h; fidRecords := fidRecords h;
     lcpObserving := lcpObserving h; fidObserving := fidObserving h;
     firstHiddenListener := firstHiddenListener h; lcpListener := v |}.

Definition set_firstHiddenTime (v : number) (mi : MetricsInstrumentation) :=
  {| _firstHiddenTime := v; _lcpFinal := _lcpFinal mi;
     _measurements := _measurements mi;
     _performanceCursor := _performanceCursor mi; _forceLCP := _forceLCP mi |}.

Definition set_lcpFinal (v : bool) (mi : MetricsInstrumentation) :=
  {| _firstHiddenTime := _firstHiddenTime mi; _lcpFinal := v;
     _measurements := _measurements mi;
     _performanceCursor := _performanceCursor mi; _forceLCP := _forceLCP mi |}.

Definition set_measurements (v : gmap string Measurement) (mi : MetricsInstrumentation) :=
  {| _firstHiddenTime := _firstHiddenTime mi; _lcpFinal := _lcpFinal mi;
     _measurements := v;
     _performanceCursor := _performanceCursor mi; _forceLCP := _forceLCP mi |}.

Definition set_performanceCursor (v : nat) (mi : MetricsInstrumentation) :=
  {| _firstHiddenTime := _firstHiddenTime mi; _lcpFinal := _lcpFinal mi;
     _measurements := _measurements mi;
     _performanceCursor := v; _forceLCP := _forceLCP mi |}.

Definition set_forceLCP (v : ForceLCP) (mi : MetricsInstrumentation) :=
  {| _firstHiddenTime := _firstHiddenTime mi; _lcpFinal := _lcpFinal mi;
     _measurements := _measurements mi;
     _performanceCursor := _performanceCursor mi; _forceLCP := v |}.

(** [this._measurements[key] = { value: v }] *)
Definition measure (key : string) (v : number) (mi : MetricsInstrumentation) :=
  set_measurements (<[key := {| value := v |}]> (_measurements mi)) mi.

(** *** The LCP observer *)

(** [updateLCP(entry)] *)
Definition updateLCP (timeOrigin_ms : number) (mi : MetricsInstrumentation)
    (entry : PerformanceEntry) : MetricsInstrumentation :=
  if lt (startTime entry) (_firstHiddenTime mi) then
    let timeOrigin := msToSec timeOrigin_ms in
    let startTime_ := msToSec (startTime entry) in
    let mi := measure "lcp" (startTime entry) mi in
    measure "mark.lcp" (add timeOrigin startTime_) mi
  else set_lcpFinal true mi.

(** [po.takeRecords().forEach(updateLCP)]: the queued records are handed
    over and the queue is emptied. *)
Definition drainLCP (env : Env) (mi : MetricsInstrumentation) (h : Host)
    : MetricsInstrumentation * Host :=
  (fold_left (updateLCP (timeOrigin env)) (lcpRecords h) mi, set_lcpRecords [] h).

(** The observer's callback, [entryList.getEntries().forEach(updateLCP)],
    run by the browser on the records queued so far. *)
Definition lcpCallback (env : Env) (mi : MetricsInstrumentation) (h : Host)
    : MetricsInstrumentation * Host :=
  if lcpObserving h then drainLCP env mi h else (mi, h).

(** [this._forceLCP()] *)
Definition forceLCP (env : Env) (mi : MetricsInstrumentation) (h : Host)
    : MetricsInstrumentation * Host :=
  match _forceLCP mi with
  | ForceNoop => (mi, h)
  | ForceTakeRecords =>
      if hasTakeRecords env then drainLCP env mi h else (mi, h)
  end.

(** The visibilitychange listener registered by [_trackLCP] *)
Definition lcpVisibilityListener (env : Env) (mi : MetricsInstrumentation) (h : Host)
    : MetricsInstrumentation * Host :=
  if _lcpFinal mi then (mi, h)
  else if String.eqb (visibilityState h) "hidden" then
    if hasTakeRecords env then
      let '(mi, h) := drainLCP env mi h in
      (set_lcpFinal true mi, h)
    else (mi, h)
  else (mi, h).

(** The visibilitychange listener registered by the constructor *)
Definition firstHiddenVisibilityListener (timeStamp : number)
    (mi : MetricsInstrumentation) : MetricsInstrumentation :=
  set_firstHiddenTime (min (_firstHiddenTime mi) timeStamp) mi.

(** *** The FID observer *)

(** [po.disconnect()]: the observer stops observing and its queue is
    emptied. *)
Definition disconnectFID (h : Host) : Host :=
  set_fidObserving false (set_fidRecords [] h).

(** [updateFID(entry, po)] *)
Definition updateFID (timeOrigin_ms : number)
    (st : MetricsInstrumentation * Host) (entry : PerformanceEntry)
    : MetricsInstrumentation * Host :=
  let '(mi, h) := st in
  if lt (startTime entry) (_firstHiddenTime mi) then
    let fidValue := sub (prop_number entry "processingStart") (startTime entry) in
    let timeOrigin := msToSec timeOrigin_ms in
    let startTime_ := msToSec (startTime entry) in
    let mi := measure "fid" fidValue mi in
    let mi := measure "mark.fid" (add timeOrigin startTime_) mi in
    (mi, disconnectFID h)
  else (mi, h).

(** The observer's callback,
    [entryList.getEntries().forEach(entry => updateFID(entry, po))], run
    by the browser on the records queued so far. *)
Definition fidCallback (env : Env) (mi : MetricsInstrumentation) (h : Host)
    : MetricsInstrumentation * Host :=
  if fidObserving h then
    fold_left (updateFID (timeOrigin env)) (fidRecords h) (mi, set_fidRecords [] h)
  else (mi, h).

(** *** The constructor *)

(** [_trackLCP()]: when the entry type is supported the observer is
    created and observes (records buffered before are already in its
    queue), [_forceLCP] is replaced and the listener is registered;
    otherwise nothing happens. *)
Definition _trackLCP (env : Env) (mi : MetricsInstrumentation) (h : Host)
    : MetricsInstrumentation * Host :=
  if lcpSupported env then
    (set_forceLCP ForceTakeRecords mi, set_lcpListener true (set_lcpObserving true h))
  else (mi, h).

(** [_trackFID()] *)
Definition _trackFID (env : Env) (mi : MetricsInstrumentation) (h : Host)
    : MetricsInstrumentation * Host :=
  if fidSupported env then (mi, set_fidObserving true h) else (mi, h).

(** The entry that [performance.mark('sentry-tracing-init')] appends at
    time [now] *)
Definition tracing_init_mark (now : number) : PerformanceEntry :=
  {| name := "sentry-tracing-init"; entryType := "mark";
     startTime := now; duration := zero;
     initiatorType := None; props := ∅ |}.

(** [new MetricsInstrumentation()], run at time [now] in a page whose
    state is [h] *)
Definition constructor (env : Env) (now : number) (h : Host)
    : MetricsInstrumentation * Host :=
  let mi :=
    {| _firstHiddenTime := zero; _lcpFinal := false; _measurements := ∅;
       _performanceCursor := 0; _forceLCP := ForceNoop |} in
  if hasPerformance env then
    let h :=
      if hasMark env then set_timeline (timeline h ++ [tracing_init_mark now]) h
      else h in
    let mi :=
      set_firstHiddenTime
        (if String.eqb (visibilityState h) "hidden" then zero else PosInf) mi in
    let h := set_firstHiddenListener true h in
    let '(mi, h) := _trackLCP env mi h in
    _trackFID env mi h
  else (mi, h).

(** *** The entry-stream processor *)

(** The variables the [forEach] callback of [addPerformanceEntries]
    reads and writes: the transaction, [this._measurements] and the two
    locals. *)
Record Pass : Type := {
  transaction_ : Transaction;
  measurements_ : gmap string Measurement;
  entryScriptStartTimestamp : option number;
  tracingInitMarkStartTime : option number;
}.

(** The [switch (entry.entryType)] of the callback *)
Definition dispatch (env : Env) (timeOrigin_ : number) (entryScriptSrc : option string)
    (p : Pass) (entry : PerformanceEntry) (startTime_ duration_ : number) : Pass :=
  let t := entryType entry in
  if String.eqb t "navigation" then
    {| transaction_ := addNavigationSpans (transaction_ p) entry timeOrigin_;
       measurements_ := measurements_ p;
       entryScriptStartTimestamp := entryScriptStartTimestamp p;
       tracingInitMarkStartTime := tracingInitMarkStartTime p |}
  else if String.eqb t "mark" || String.eqb t "paint" || String.eqb t "measure" then
    let '(transaction, startTimestamp_) :=
      addMeasureSpans (transaction_ p) entry startTime_ duration_ timeOrigin_ in
    let tracingInit :=
      match tracingInitMarkStartTime p with
      | None =>
          if String.eqb (name entry) "sentry-tracing-init" then Some startTimestamp_
          else None
      | Some v => Some v
      end in
    let m := measurements_ p in
    let m :=
      if String.eqb (name entry) "first-paint" then
        <["mark.fp" := {| value := startTimestamp_ |}]>
          (<["fp" := {| value := startTime entry |}]> m)
      else m in
    let m :=
      if String.eqb (name entry) "first-contentful-paint" then
        <["mark.fcp" := {| value := startTimestamp_ |}]>
          (<["fcp" := {| value := startTime entry |}]> m)
      else m in
    {| transaction_ := transaction;
       measurements_ := m;
       entryScriptStartTimestamp := entryScriptStartTimestamp p;
       tracingInitMarkStartTime := tracingInit |}
  else if String.eqb t "resource" then
    let resourceName := replace (name entry) (location_origin env) "" in
    let '(transaction, endTimestamp_) :=
      addResourceSpans (transaction_ p) entry resourceName startTime_ duration_ timeOrigin_ in
    let entryScript :=
      match entryScriptStartTimestamp p with
      | None =>
          if indexOf_found (default "" entryScriptSrc) resourceName then endTimestamp_
          else None
      | Some v => Some v
      end in
    {| transaction_ := transaction;
       measurements_ := measurements_ p;
       entryScriptStartTimestamp := entryScript;
       tracingInitMarkStartTime := tracingInitMarkStartTime p |}
  else p.

(** The callback passed to [forEach] *)
Definition perEntry (env : Env) (timeOrigin_ : number) (entryScriptSrc : option string)
    (p : Pass) (entry : PerformanceEntry) : Pass :=
  let startTime_ := msToSec (startTime entry) in
  let duration_ := msToSec (duration entry) in
  if str_is (tx_op (transaction_ p)) "navigation"
     && lt (add timeOrigin_ startTime_) (tx_startTimestamp (transaction_ p))
  then p
  else dispatch env timeOrigin_ entryScriptSrc p entry startTime_ duration_.

(** The loop over [document.scripts]: the [src] of the first script
    whose [dataset.entry] is ['true'] *)
Fixpoint findEntryScript (l : list Script) : option string :=
  match l with
  | [] => None
  | sc :: l =>
      if str_is (dataset_entry sc) "true" then Some (src sc)
      else findEntryScript l
  end.

(** [Math.max(n - 1, 0)] on a length *)
Definition cursor_after (n : nat) : nat :=
  Z.to_nat (Z.max (Z.of_nat n - 1) 0).

(** [addPerformanceEntries(transaction)] *)
Definition addPerformanceEntries (env : Env) (mi : MetricsInstrumentation) (h : Host)
    (transaction : Transaction) : MetricsInstrumentation * Host * Transaction :=
  if negb (hasPerformance env) || negb (hasGetEntries env) then (mi, h, transaction)
  else
    let '(mi, h) :=
      if str_is (tx_op transaction) "pageload" then forceLCP env mi h else (mi, h) in
    let timeOrigin_ := msToSec (timeOrigin env) in
    let entryScriptSrc :=
      match scripts env with
      | Some l => findEntryScript l
      | None => None
      end in
    let p :=
      fold_left (perEntry env timeOrigin_ entryScriptSrc)
        (drop (_performanceCursor mi) (timeline h))
        {| transaction_ := transaction;
           measurements_ := _measurements mi;
           entryScriptStartTimestamp := None;
           tracingInitMarkStartTime := None |} in
    let transaction :=
      match entryScriptStartTimestamp p, tracingInitMarkStartTime p with
      | Some entryScriptStart, Some tracingInitMark =>
          _startChild (transaction_ p)
            {| description := Some "evaluation";
               endTimestamp := Some tracingInitMark;
               op := Some "script";
               startTimestamp := Some entryScriptStart;
               data := None |}
      | _, _ => transaction_ p
      end in
    let mi := set_measurements (measurements_ p) mi in
    let mi := set_performanceCursor (cursor_after (length (timeline h))) mi in
    let transaction :=
      if str_is (tx_op transaction) "pageload"
      then setMeasurements transaction (_measurements mi)
      else transaction in
    (mi, h, transaction).

(** ** A session

    The callbacks the constructor registers run to completion, one at a
    time, whenever the browser has something for them.  A session is
    the instrumentation together with the browser state; the events are
    what the browser or the caller can do next. *)

Inductive Event : Type :=
(* an entry is appended to the performance timeline *)
| Append (entry : PerformanceEntry)
(* a largest-contentful-paint candidate is queued for the observer *)
| LcpRecord (entry : PerformanceEntry)
(* the browser runs the LCP observer's callback on the queued records *)
| LcpDeliver
(* a first-input entry is queued for the observer *)
| FidRecord (entry : PerformanceEntry)
(* the browser runs the FID observer's callback on the queued records *)
| FidDeliver
(* the document dispatches visibilitychange *)
| VisibilityChange (timeStamp : number) (state : string)
(* the caller runs addPerformanceEntries(transaction) *)
| AddPerformanceEntries (transaction : Transaction).

Record Session : Type := {
  instr : MetricsInstrumentation;
  host : Host;
  (* the transactions handed to addPerformanceEntries, as it left them *)
  finished : list Transaction;
}.

(** The document dispatches visibilitychange: the listeners still
    registered run in the order of their registration, and being [once]
    listeners they are removed. *)
Definition visibilityChange (env : Env) (timeStamp : number) (state : string)
    (mi : MetricsInstrumentation) (h : Host) : MetricsInstrumentation * Host :=
  let h := set_visibilityState state h in
  let '(mi, h) :=
    if firstHiddenListener h
    then (firstHiddenVisibilityListener timeStamp mi, set_firstHiddenListener false h)
    else (mi, h) in
  if lcpListener h
  then lcpVisibilityListener env mi (set_lcpListener false h)
  else (mi, h).

Definition step (env : Env) (s : Session) (ev : Event) : Session :=
  let mi := instr s in
  let h := host s in
  match ev with
  | Append entry =>
      {| instr := mi; host := set_timeline (timeline h ++ [entry]) h;
         finished := finished s |}
  | LcpRecord entry =>
      {| instr := mi;
         host := if lcpObserving h then set_lcpRecords (lcpRecords h ++ [entry]) h else h;
         finished := finished s |}
  | LcpDeliver =>
      let '(mi, h) := lcpCallback env mi h in
      {| instr := mi; host := h; finished := finished s |}
  | FidRecord entry =>
      {| instr := mi;
         host := if fidObserving h then set_fidRecords (fidRecords h ++ [entry]) h else h;
         finished := finished s |}
  | FidDeliver =>
      let '(mi, h) := fidCallback env mi h in
      {| instr := mi; host := h; finished := finished s |}
  | VisibilityChange timeStamp state =>
      let '(mi, h) := visibilityChange env timeStamp state mi h in
      {| instr := mi; host := h; finished := finished s |}
  | AddPerformanceEntries transaction =>
      let '(mi, h, transaction) := addPerformanceEntries env mi h transaction in
      {| instr := mi; host := h; finished := finished s ++ [transaction] |}
  end.

Definition run (env : Env) (s : Session) (evs : list Event) : Session :=
  fold_left (step env) evs s.

(** The session right after [new MetricsInstrumentation()] *)
Definition start (env : Env) (now : number) (h : Host) : Session :=
  let '(mi, h) := constructor env now h in
  {| instr := mi; host := h; finished := [] |}.

(** A page before the instrumentation is constructed: nothing is
    registered yet; [buffered_lcp] and [buffered_fid] are the entries the
    browser buffered and will hand to an observer that asks for them. *)
Definition page (entries : list PerformanceEntry) (visibility : string)
    (buffered_lcp buffered_fid : list PerformanceEntry) : Host :=
  {| timeline := entries; visibilityState := visibility;
     lcpRecords := buffered_lcp; fidRecords := buffered_fid;
     lcpObserving := false; fidObserving := false;
     firstHiddenListener := false; lcpListener := false |}.

(** The cursor and the length of the timeline at the moment of each call
    of [addPerformanceEntries] in a run that gets past the gatekeeper:
    one pair [(cursor, length)] per call, in order, read off the states
    the run goes through. *)
Fixpoint calls (env : Env) (s : Session) (evs : list Event) : list (nat * nat) :=
  match evs with
  | [] => []
  | ev :: evs =>
      let here :=
        match ev with
        | AddPerformanceEntries _ =>
            if negb (hasPerformance env) || negb (hasGetEntries env) then []
            else [(_performanceCursor (instr s), length (timeline (host s)))]
        | _ => []
        end in
      here ++ calls env (step env s ev) evs
  end.

(** The indices from the cursor up to the length, for each call of a
    run, with repetitions *)
Definition dispatched (env : Env) (s : Session) (evs : list Event) : list nat :=
  flat_map (fun '(c, n) => seq c (n - c)) (calls env s evs).

(** ** Vocabulary of the properties *)

(** *** Spans, as the helpers build them *)

(** The span [addPerformanceNavigationTiming] emits for a phase *)
Definition phase_span (entry : PerformanceEntry) (timeOrigin_ : number)
    (event : string) : SpanContext :=
  {| description := Some event;
     endTimestamp :=
       Some (add timeOrigin_ (msToSec (prop_number entry (event +:+ "End"))));
     op := Some "browser";
     startTimestamp :=
       Some (add timeOrigin_ (msToSec (prop_number entry (event +:+ "Start"))));
     data := None |}.

(** In the words of the specification: the phase span is there exactly
    when both the phase's start and its end are truthy. *)
Definition phase_spans (entry : PerformanceEntry) (timeOrigin_ : number)
    (event : string) : list SpanContext :=
  if truthy_opt (prop entry (event +:+ "Start"))
     && truthy_opt (prop entry (event +:+ "End"))
  then [phase_span entry timeOrigin_ event]
  else [].

(** The two spans [addRequest] emits *)
Definition request_span (entry : PerformanceEntry) (timeOrigin_ : number) : SpanContext :=
  {| description := Some "request";
     endTimestamp := Some (add timeOrigin_ (msToSec (prop_number entry "responseEnd")));
     op := Some "browser";
     startTimestamp := Some (add timeOrigin_ (msToSec (prop_number entry "requestStart")));
     data := None |}.

Definition response_span (entry : PerformanceEntry) (timeOrigin_ : number) : SpanContext :=
  {| description := Some "response";
     endTimestamp := Some (add timeOrigin_ (msToSec (prop_number entry "responseEnd")));
     op := Some "browser";
     startTimestamp := Some (add timeOrigin_ (msToSec (prop_number entry "responseStart")));
     data := None |}.

Definition navigation_phases : list string :=
  ["unloadEvent"; "domContentLoadedEvent"; "loadEvent"; "connect"; "domainLookup"].

(** Both timestamps of a phase are truthy *)
Definition phase_occurred (entry : PerformanceEntry) (event : string) : bool :=
  truthy_opt (prop entry (event +:+ "Start")) && truthy_opt (prop entry (event +:+ "End")).

(** The span a resource entry gives, unless its initiator is
    [xmlhttprequest] or [fetch] *)
Definition resource_span (env : Env) (timeOrigin_ : number) (entry : PerformanceEntry)
    : SpanContext :=
  {| description := Some (replace (name entry) (location_origin env) "");
     endTimestamp :=
       Some (add (add timeOrigin_ (msToSec (startTime entry))) (msToSec (duration entry)));
     op := Some match initiatorType entry with
                | Some t => if nonempty t then "resource." +:+ t else "resource"
                | None => "resource"
                end;
     startTimestamp := Some (add timeOrigin_ (msToSec (startTime entry)));
     data :=
       Some (copy_size entry "decodedBodySize" "Decoded Body Size"
               (copy_size entry "encodedBodySize" "Encoded Body Size"
                  (copy_size entry "transferSize" "Transfer Size" ∅))) |}.

(** The span a mark, paint or measure entry gives *)
Definition measure_span (timeOrigin_ : number) (entry : PerformanceEntry) : SpanContext :=
  {| description := Some (name entry);
     endTimestamp :=
       Some (add (add timeOrigin_ (msToSec (startTime entry))) (msToSec (duration entry)));
     op := Some (entryType entry);
     startTimestamp := Some (add timeOrigin_ (msToSec (startTime entry)));
     data := None |}.

Definition is_measure (entry : PerformanceEntry) : Prop :=
  entryType entry = "mark" \/ entryType entry = "paint" \/ entryType entry = "measure".

(** The callback skips the entry: the transaction is a navigation that
    started after the entry *)
Definition skipped (timeOrigin_ : number) (transaction : Transaction)
    (entry : PerformanceEntry) : bool :=
  str_is (tx_op transaction) "navigation"
  && lt (add timeOrigin_ (msToSec (startTime entry))) (tx_startTimestamp transaction).

(** *** Scenarios *)

Definition empty_transaction (o : string) (start_ : number) : Transaction :=
  {| tx_op := Some o; tx_startTimestamp := start_; tx_spans := [];
     tx_measurements := None |}.

Definition pageload : Transaction := empty_transaction "pageload" (of_Z 1000).

(** The navigation entry of Scenario A: only the domain lookup has
    non-zero timestamps, and the request and response attributes are
    missing. *)
Definition scenario_A_entry : PerformanceEntry :=
  {| name := "https://example.com/"; entryType := "navigation";
     startTime := zero; duration := zero; initiatorType := None;
     props := {[ "domainLookupStart" := of_Z 1; "domainLookupEnd" := of_Z 5;
                 "connectStart" := of_Z 0; "connectEnd" := of_Z 0;
                 "loadEventStart" := of_Z 0 ]} |}.

(** The entry of Scenario B and the span it gives *)
Definition scenario_B_entry : PerformanceEntry :=
  {| name := "https://example.com/app.js"; entryType := "resource";
     startTime := of_Z 10; duration := of_Z 5;
     initiatorType := Some "script"; props := ∅ |}.

Definition scenario_B_span : SpanContext :=
  {| description := Some "/app.js";
     op := Some "resource.script";
     startTimestamp := Some (frac 100001 100);
     endTimestamp := Some (frac 200003 200);
     data := Some ∅ |}.

(** A browser that supports everything the instrumentation uses, with
    time origin 1000 s *)
Definition browser : Env :=
  {| hasPerformance := true; hasMark := true; hasGetEntries := true;
     timeOrigin := of_Z 1000000; scripts := Some [];
     location_origin := "https://example.com";
     lcpSupported := true; fidSupported := true; hasTakeRecords := true |}.

Definition first_input (start_ processingStart_ : Z) : PerformanceEntry :=
  {| name := "mousedown"; entryType := "first-input";
     startTime := of_Z start_; duration := of_Z 8; initiatorType := None;
     props := {[ "processingStart" := of_Z processingStart_ ]} |}.

Definition lcp_candidate (start_ : Z) : PerformanceEntry :=
  {| name := ""; entryType := "largest-contentful-paint";
     startTime := of_Z start_; duration := zero; initiatorType := None;
     props := ∅ |}.

(** *** Invariants of a session *)

(** Start times that are not negative *)
Definition nonneg (entry : PerformanceEntry) : Prop :=
  lt (startTime entry) zero = false.

(** A first-hidden timestamp that is not positive *)
Definition hidden_from_start (mi : MetricsInstrumentation) : Prop :=
  lt zero (_firstHiddenTime mi) = false.

(** None of the four LCP and FID measurements is there *)
Definition no_vitals (m : gmap string Measurement) : Prop :=
  m !! "lcp" = None /\ m !! "mark.lcp" = None
  /\ m !! "fid" = None /\ m !! "mark.fid" = None.

(** The invariant of a session that started hidden *)
Definition hidden_ok (mi : MetricsInstrumentation) (h : Host) : Prop :=
  hidden_from_start mi
  /\ no_vitals (_measurements mi)
  /\ Forall nonneg (lcpRecords h)
  /\ Forall nonneg (fidRecords h).

(** The start time of the entry an event queues for an observer is not
    negative *)
Definition event_nonneg (ev : Event) : Prop :=
  match ev with
  | LcpRecord entry | FidRecord entry => nonneg entry
  | _ => True
  end.

Definition cursor_of (s : Session) : nat := _performanceCursor (instr s).
Definition entries_of (s : Session) : nat := length (timeline (host s)).

(** The performance API [addPerformanceEntries] needs is there *)
Definition available (env : Env) : bool :=
  hasPerformance env && hasGetEntries env.

(** The cursor is [0] or points at an entry of the timeline *)
Definition cursor_inv (s : Session) : Prop :=
  cursor_of s <= Nat.pred (entries_of s).

(** *** Further vocabulary *)

(** A start timestamp that stayed or moved earlier *)
Definition not_later (new old : number) : Prop :=
  new = old \/ lt new old = true.

(** A child span with a truthy start timestamp does not start before
    the transaction *)
Definition starts_within (transaction : Transaction) (ctx : SpanContext) : Prop :=
  forall ts, startTimestamp ctx = Some ts -> truthy ts = true ->
             lt ts (tx_startTimestamp transaction) = false.

(** The keys of the measurement store, by who writes them *)
Definition paint_key (k : string) : Prop :=
  k = "fp" \/ k = "mark.fp" \/ k = "fcp" \/ k = "mark.fcp".

Definition lcp_key (k : string) : Prop := k = "lcp" \/ k = "mark.lcp".

Definition fid_key (k : string) : Prop := k = "fid" \/ k = "mark.fid".

(** Nothing of the LCP tracking is installed: no observer, no listener,
    and [_forceLCP] is the initial no-op *)
Definition lcp_inert (mi : MetricsInstrumentation) (h : Host) : Prop :=
  lcpObserving h = false /\ lcpListener h = false /\ _forceLCP mi = ForceNoop.

(** No code that can still run writes the key [k] *)
Definition frozen (mi : MetricsInstrumentation) (h : Host) (k : string) : Prop :=
  ~ paint_key k
  /\ (lcp_key k -> lcp_inert mi h)
  /\ (fid_key k -> fidObserving h = false).

(** The transactions the events of a run hand to [addPerformanceEntries] *)
Fixpoint passed (evs : list Event) : list Transaction :=
  match evs with
  | [] => []
  | AddPerformanceEntries transaction :: evs => transaction :: passed evs
  | _ :: evs => passed evs
  end.

(** The time stamp of the first visibilitychange event of a run *)
Fixpoint first_visibilityChange (evs : list Event) : option number :=
  match evs with
  | [] => None
  | VisibilityChange timeStamp _ :: _ => Some timeStamp
  | _ :: evs => first_visibilityChange evs
  end.

(** Nothing is registered with the browser: no observer observes and no
    listener waits *)
Definition unregistered (h : Host) : Prop :=
  lcpObserving h = false /\ fidObserving h = false
  /\ lcpListener h = false /\ firstHiddenListener h = false.

(** The fields of a new instrumentation before its constructor runs *)
Definition initial : MetricsInstrumentation :=
  {| _firstHiddenTime := zero; _lcpFinal := false; _measurements := ∅;
     _performanceCursor := 0; _forceLCP := ForceNoop |}.

(** A candidate that passes, respectively fails, the cutoff at the
    first-hidden timestamp [firstHidden] *)
Definition accepted (firstHidden : number) (entry : PerformanceEntry) : Prop :=
  lt (startTime entry) firstHidden = true.

Definition rejected (firstHidden : number) (entry : PerformanceEntry) : Prop :=
  lt (startTime entry) firstHidden = false.

(** The entry types the [switch] of the callback has a case for *)
Definition handled_type (t : string) : bool :=
  String.eqb t "navigation" || String.eqb t "mark" || String.eqb t "paint"
  || String.eqb t "measure" || String.eqb t "resource".

(** The callback does nothing with the entry: it skips it, or the
    [switch] has no case for its type *)
Definition passed_over (timeOrigin_ : number) (transaction : Transaction)
    (entry : PerformanceEntry) : Prop :=
  skipped timeOrigin_ transaction entry = true \/ handled_type (entryType entry) = false.

(** The entry is a mark, paint or measure named [sentry-tracing-init] *)
Definition is_tracing_init (entry : PerformanceEntry) : bool :=
  (String.eqb (entryType entry) "mark" || String.eqb (entryType entry) "paint"
   || String.eqb (entryType entry) "measure")
  && String.eqb (name entry) "sentry-tracing-init".

(** The entry is a resource that gets a span and whose name, the origin
    removed, occurs in the [src] of the entry script *)
Definition is_entry_script (env : Env) (entryScriptSrc : option string)
    (entry : PerformanceEntry) : bool :=
  String.eqb (entryType entry) "resource"
  && negb (str_is (initiatorType entry) "xmlhttprequest"
           || str_is (initiatorType entry) "fetch")
  && indexOf_found (default "" entryScriptSrc)
       (replace (name entry) (location_origin env) "").

(** In the words of the source's [switch]: the spans one entry gives
    when the callback does not skip it *)
Definition entry_spans (env : Env) (timeOrigin_ : number) (entry : PerformanceEntry)
    : list SpanContext :=
  let t := entryType entry in
  if String.eqb t "navigation" then
    flat_map (phase_spans entry timeOrigin_) navigation_phases
    ++ [request_span entry timeOrigin_; response_span entry timeOrigin_]
  else if String.eqb t "mark" || String.eqb t "paint" || String.eqb t "measure" then
    [measure_span timeOrigin_ entry]
  else if String.eqb t "resource" then
    if str_is (initiatorType entry) "xmlhttprequest" || str_is (initiatorType entry) "fetch"
    then []
    else [resource_span env timeOrigin_ entry]
  else [].

(** The "evaluation" span of a pass over [slice]: from the end of the
    first entry-script resource to the start of the first
    [sentry-tracing-init] mark, when both are there *)
Definition evaluation_spans (env : Env) (timeOrigin_ : number)
    (entryScriptSrc : option string) (slice : list PerformanceEntry) : list SpanContext :=
  match List.find (is_entry_script env entryScriptSrc) slice,
        List.find is_tracing_init slice with
  | Some resource, Some mark_ =>
      [ {| description := Some "evaluation";
           endTimestamp := Some (add timeOrigin_ (msToSec (startTime mark_)));
           op := Some "script";
           startTimestamp :=
             Some (add (add timeOrigin_ (msToSec (startTime resource)))
                       (msToSec (duration resource)));
           data := None |} ]
  | _, _ => []
  end.

(** [entryScriptSrc] as [addPerformanceEntries] finds it *)
Definition entryScriptSrc_of (env : Env) : option string :=
  match scripts env with
  | Some l => findEntryScript l
  | None => None
  end.

(** The entries of [l] at the indices [c, n), for [cn = (c, n)] *)
Definition between (cn : nat * nat) (l : list PerformanceEntry) : list PerformanceEntry :=
  take (snd cn - fst cn) (drop (fst cn) l).

(** The callback of [addPerformanceEntries] run on the entries of
    [slice], once each and in order, starting from [transaction], and
    then the "evaluation" span when both locals are set: the
    transaction this gives *)
Definition transaction_of_slice (env : Env) (transaction : Transaction)
    (slice : list PerformanceEntry) : Transaction :=
  let p :=
    fold_left (perEntry env (msToSec (timeOrigin env)) (entryScriptSrc_of env)) slice
      {| transaction_ := transaction;
         measurements_ := ∅;
         entryScriptStartTimestamp := None;
         tracingInitMarkStartTime := None |} in
  match entryScriptStartTimestamp p, tracingInitMarkStartTime p with
  | Some entryScriptStart, Some tracingInitMark =>
      _startChild (transaction_ p)
        {| description := Some "evaluation";
           endTimestamp := Some tracingInitMark;
           op := Some "script";
           startTimestamp := Some entryScriptStart;
           data := None |}
  | _, _ => transaction_ p
  end.

(** Two transactions with the same operation, start timestamp and child
    spans (their measurements may differ) *)
Definition same_outcome (a b : Transaction) : Prop :=
  tx_op a = tx_op b
  /\ tx_startTimestamp a = tx_startTimestamp b
  /\ tx_spans a = tx_spans b.

(** What a call that gets past the gatekeeper returns, against the
    cursor and length recorded for it: the callback was run on exactly
    the entries between the two *)
Definition ran_on (env : Env) (l : list PerformanceEntry)
    (returned : Transaction) (call : (nat * nat) * Transaction) : Prop :=
  same_outcome returned (transaction_of_slice env (snd call) (between (fst call) l)).

(** * Properties *)

(** ** Numbers *)

Lemma Qc_ltb_lt (a b : Qc) : Qc_ltb a b = true <-> (a < b)%Qc.
Proof.
  unfold Qc_ltb, Qclt, Qccompare. rewrite Qlt_alt.
  destruct (this a ?= this b)%Q; split; intros H; congruence.
Qed.

Lemma lt_asym (a b : number) : lt a b = true -> lt b a = false.
Proof.
  destruct a as [| |x|], b as [| |y|]; simpl; trivial; try discriminate.
  intros H. apply Qc_ltb_lt in H.
  destruct (Qc_ltb y x) eqn:E; trivial.
  apply Qc_ltb_lt in E. exfalso.
  exact (Qclt_not_eq _ _ (Qclt_trans _ _ _ H E) eq_refl).
Qed.

Lemma ge_not_lt (a b : number) : ge a b = true -> lt a b = false.
Proof.
  destruct a, b; simpl; try discriminate; trivial;
    intros H; apply negb_true_iff in H; exact H.
Qed.

(** ** The shared emission helper *)

Arguments _startChild : simpl never.

Lemma _startChild_spans (transaction : Transaction) (ctx : SpanContext) :
  tx_spans (_startChild transaction ctx) = tx_spans transaction ++ [ctx].
Proof.
  unfold _startChild. destruct (startTimestamp ctx) as [ts|]; [|reflexivity].
  destruct (truthy ts && gt (tx_startTimestamp transaction) ts); reflexivity.
Qed.

Lemma _startChild_op (transaction : Transaction) (ctx : SpanContext) :
  tx_op (_startChild transaction ctx) = tx_op transaction.
Proof.
  unfold _startChild. destruct (startTimestamp ctx) as [ts|]; [|reflexivity].
  destruct (truthy ts && gt (tx_startTimestamp transaction) ts); reflexivity.
Qed.

(** C4, as the claim states it, fails: a child whose start timestamp is
    [0] is earlier than a transaction started at [5], yet the
    transaction's start timestamp stays [5], because [0] is falsy in
    the guard [startTimestamp && ...]. *)
Lemma pull_back_fails_at_zero :
  ~ (forall (transaction : Transaction) (ctx : SpanContext) (ts : number),
       startTimestamp ctx = Some ts ->
       lt ts (tx_startTimestamp transaction) = true ->
       tx_startTimestamp (_startChild transaction ctx) = ts).
Proof.
  intros H.
  specialize (H {| tx_op := Some "pageload"; tx_startTimestamp := of_Z 5;
                   tx_spans := []; tx_measurements := None |}
                {| description := Some "child"; op := Some "mark";
                   startTimestamp := Some (of_Z 0); endTimestamp := Some (of_Z 1);
                   data := None |}
                (of_Z 0) eq_refl eq_refl).
  vm_compute in H. discriminate H.
Qed.

(** C4 (amended): when the context's start timestamp is truthy (present,
    not [0], not [NaN]) and earlier than the transaction's start
    timestamp, the transaction's start timestamp becomes the child's;
    when it is later, or falsy, the transaction's start timestamp is
    unchanged. *)
Theorem pull_back (transaction : Transaction) (ctx : SpanContext) (ts : number) :
  startTimestamp ctx = Some ts ->
  (truthy ts = true -> lt ts (tx_startTimestamp transaction) = true ->
   tx_startTimestamp (_startChild transaction ctx) = ts)
  /\ (lt (tx_startTimestamp transaction) ts = true ->
      tx_startTimestamp (_startChild transaction ctx) = tx_startTimestamp transaction)
  /\ (truthy ts = false ->
      tx_startTimestamp (_startChild transaction ctx) = tx_startTimestamp transaction).
Proof.
  intros Hts. unfold _startChild, gt. rewrite Hts. repeat split.
  - intros Ht Hlt. rewrite Ht, Hlt. reflexivity.
  - intros Hlt. rewrite (lt_asym _ _ Hlt), andb_false_r. reflexivity.
  - intros Ht. rewrite Ht. reflexivity.
Qed.

Lemma pull_back_witness :
  let transaction := {| tx_op := Some "pageload"; tx_startTimestamp := of_Z 5;
                        tx_spans := []; tx_measurements := None |} in
  let child (ts : Z) := {| description := Some "child"; op := Some "mark";
                           startTimestamp := Some (of_Z ts);
                           endTimestamp := None; data := None |} in
  tx_startTimestamp (_startChild transaction (child 3%Z)) = of_Z 3
  /\ tx_startTimestamp (_startChild transaction (child 7%Z)) = of_Z 5
  /\ tx_startTimestamp (_startChild transaction (child 0%Z)) = of_Z 5.
Proof.
  intros transaction child. split; [|split].
  - apply (proj1 (pull_back transaction (child 3%Z) (of_Z 3) eq_refl)); reflexivity.
  - apply (proj1 (proj2 (pull_back transaction (child 7%Z) (of_Z 7) eq_refl))); reflexivity.
  - apply (proj2 (proj2 (pull_back transaction (child 0%Z) (of_Z 0) eq_refl))); reflexivity.
Defined.

(** ** Resource spans *)

(** C7: a resource entry whose initiator is [xmlhttprequest] or [fetch]
    creates no span: [addResourceSpans] returns the transaction as it
    was and no end timestamp, so the child-span list is unchanged. *)
Theorem xhr_fetch_suppressed (transaction : Transaction) (entry : PerformanceEntry)
    (resourceName : string) (startTime_ duration_ timeOrigin_ : number) :
  initiatorType entry = Some "xmlhttprequest" \/ initiatorType entry = Some "fetch" ->
  addResourceSpans transaction entry resourceName startTime_ duration_ timeOrigin_
    = (transaction, None)
  /\ tx_spans (fst (addResourceSpans transaction entry resourceName
                      startTime_ duration_ timeOrigin_))
     = tx_spans transaction.
Proof.
  intros H. unfold addResourceSpans.
  destruct H as [-> | ->]; simpl; split; reflexivity.
Qed.

Lemma xhr_fetch_suppressed_witness :
  let transaction := {| tx_op := Some "pageload"; tx_startTimestamp := of_Z 1000;
                        tx_spans := []; tx_measurements := None |} in
  let entry := {| name := "https://example.com/api"; entryType := "resource";
                  startTime := of_Z 10; duration := of_Z 5;
                  initiatorType := Some "fetch"; props := ∅ |} in
  addResourceSpans transaction entry "/api" (frac 1 100) (frac 1 200) (of_Z 1000)
    = (transaction, None).
Proof.
  intros transaction entry.
  apply (proj1 (xhr_fetch_suppressed transaction entry "/api"
                  (frac 1 100) (frac 1 200) (of_Z 1000) (or_intror eq_refl))).
Defined.

(** ** The visibility cutoff *)

Lemma updateLCP_not_lt (t : number) (mi : MetricsInstrumentation) (entry : PerformanceEntry) :
  lt (startTime entry) (_firstHiddenTime mi) = false ->
  updateLCP t mi entry = set_lcpFinal true mi.
Proof. intros H. unfold updateLCP. rewrite H. reflexivity. Qed.

Lemma updateLCP_lt (t : number) (mi : MetricsInstrumentation) (entry : PerformanceEntry) :
  lt (startTime entry) (_firstHiddenTime mi) = true ->
  updateLCP t mi entry
  = measure "mark.lcp" (add (msToSec t) (msToSec (startTime entry)))
      (measure "lcp" (startTime entry) mi).
Proof. intros H. unfold updateLCP. rewrite H. reflexivity. Qed.

Lemma updateFID_not_lt (t : number) (mi : MetricsInstrumentation) (h : Host)
    (entry : PerformanceEntry) :
  lt (startTime entry) (_firstHiddenTime mi) = false ->
  updateFID t (mi, h) entry = (mi, h).
Proof. intros H. unfold updateFID. rewrite H. reflexivity. Qed.

Lemma updateFID_lt (t : number) (mi : MetricsInstrumentation) (h : Host)
    (entry : PerformanceEntry) :
  lt (startTime entry) (_firstHiddenTime mi) = true ->
  updateFID t (mi, h) entry
  = (measure "mark.fid" (add (msToSec t) (msToSec (startTime entry)))
       (measure "fid" (sub (prop_number entry "processingStart") (startTime entry)) mi),
     disconnectFID h).
Proof. intros H. unfold updateFID. rewrite H. reflexivity. Qed.

(** C5: a candidate whose start time is greater than or equal to the
    first-hidden timestamp leaves the measurements as they are, in
    [updateLCP] and in [updateFID]; one whose start time is strictly
    less writes [lcp] (the raw start time) and [mark.lcp], respectively
    [fid] (processingStart - startTime) and [mark.fid]. *)
Theorem visibility_cutoff (t : number) (mi : MetricsInstrumentation) (h : Host)
    (entry : PerformanceEntry) :
  (ge (startTime entry) (_firstHiddenTime mi) = true ->
   _measurements (updateLCP t mi entry) = _measurements mi
   /\ _measurements (fst (updateFID t (mi, h) entry)) = _measurements mi)
  /\ (lt (startTime entry) (_firstHiddenTime mi) = true ->
      _measurements (updateLCP t mi entry) !! "lcp" = Some {| value := startTime entry |}
      /\ _measurements (updateLCP t mi entry) !! "mark.lcp"
         = Some {| value := add (msToSec t) (msToSec (startTime entry)) |}
      /\ _measurements (fst (updateFID t (mi, h) entry)) !! "fid"
         = Some {| value := sub (prop_number entry "processingStart") (startTime entry) |}
      /\ _measurements (fst (updateFID t (mi, h) entry)) !! "mark.fid"
         = Some {| value := add (msToSec t) (msToSec (startTime entry)) |}).
Proof.
  split.
  - intros Hge. apply ge_not_lt in Hge.
    rewrite updateLCP_not_lt, updateFID_not_lt by exact Hge. split; reflexivity.
  - intros Hlt. rewrite updateLCP_lt, updateFID_lt by exact Hlt.
    unfold measure; simpl. split; [|split; [|split]].
    + rewrite lookup_insert_ne by discriminate. apply lookup_insert_eq.
    + apply lookup_insert_eq.
    + rewrite lookup_insert_ne by discriminate. apply lookup_insert_eq.
    + apply lookup_insert_eq.
Qed.

Lemma visibility_cutoff_witness :
  let mi := {| _firstHiddenTime := of_Z 500; _lcpFinal := false; _measurements := ∅;
               _performanceCursor := 0; _forceLCP := ForceTakeRecords |} in
  let h := page [] "hidden" [] [] in
  let candidate (start : Z) :=
    {| name := ""; entryType := "largest-contentful-paint";
       startTime := of_Z start; duration := zero; initiatorType := None;
       props := {[ "processingStart" := of_Z (start + 8) ]} |} in
  _measurements (updateLCP (of_Z 1000000) mi (candidate 800%Z)) = ∅
  /\ _measurements (updateLCP (of_Z 1000000) mi (candidate 300%Z)) !! "lcp"
     = Some {| value := of_Z 300 |}.
Proof.
  intros mi h candidate. split.
  - apply (proj1 (visibility_cutoff (of_Z 1000000) mi h (candidate 800%Z))). reflexivity.
  - apply (proj2 (visibility_cutoff (of_Z 1000000) mi h (candidate 300%Z))). reflexivity.
Defined.

(** ** Navigation spans *)

Lemma addPerformanceNavigationTiming_spans (transaction : Transaction)
    (entry : PerformanceEntry) (event : string) (timeOrigin_ : number) :
  tx_spans (addPerformanceNavigationTiming transaction entry event timeOrigin_)
  = tx_spans transaction ++ phase_spans entry timeOrigin_ event.
Proof.
  unfold addPerformanceNavigationTiming, phase_spans.
  destruct (truthy_opt (prop entry (event +:+ "Start"))),
    (truthy_opt (prop entry (event +:+ "End"))); cbn [negb orb andb].
  - apply _startChild_spans.
  - symmetry. apply app_nil_r.
  - symmetry. apply app_nil_r.
  - symmetry. apply app_nil_r.
Qed.

Lemma addRequest_spans (transaction : Transaction) (entry : PerformanceEntry)
    (timeOrigin_ : number) :
  tx_spans (addRequest transaction entry timeOrigin_)
  = tx_spans transaction ++ [request_span entry timeOrigin_; response_span entry timeOrigin_].
Proof.
  unfold addRequest. rewrite !_startChild_spans, <- app_assoc. reflexivity.
Qed.

Lemma addNavigationSpans_spans (transaction : Transaction) (entry : PerformanceEntry)
    (timeOrigin_ : number) :
  tx_spans (addNavigationSpans transaction entry timeOrigin_)
  = tx_spans transaction
    ++ flat_map (phase_spans entry timeOrigin_) navigation_phases
    ++ [request_span entry timeOrigin_; response_span entry timeOrigin_].
Proof.
  unfold addNavigationSpans, navigation_phases.
  rewrite addRequest_spans, !addPerformanceNavigationTiming_spans.
  simpl. rewrite app_nil_r, <- !app_assoc. reflexivity.
Qed.

(** C6, as the claim states it, fails: for the entry of Scenario A, which
    has none of [requestStart], [responseStart], [responseEnd], the
    "request" and "response" spans are emitted all the same. *)
Lemma request_spans_without_timestamps :
  ~ (forall (transaction : Transaction) (entry : PerformanceEntry)
       (timeOrigin_ : number) (span : SpanContext),
       tx_spans transaction = [] ->
       span ∈ tx_spans (addNavigationSpans transaction entry timeOrigin_) ->
       description span = Some "request" \/ description span = Some "response" ->
       is_Some (prop entry "requestStart")
       /\ is_Some (prop entry "responseStart")
       /\ is_Some (prop entry "responseEnd")).
Proof.
  intros H.
  destruct (H (empty_transaction "pageload" (of_Z 1000)) scenario_A_entry (of_Z 1000)
              (request_span scenario_A_entry (of_Z 1000)) eq_refl) as [[v Hv] _].
  - rewrite addNavigationSpans_spans, !elem_of_app.
    right. right. apply list_elem_of_here.
  - left. reflexivity.
  - vm_compute in Hv. discriminate Hv.
Qed.

(** C6 (amended): a navigation-phase span is emitted if and only if both
    the phase's start and its end timestamp are truthy; the "request"
    and "response" spans are emitted for every navigation entry, whether
    or not its request and response timestamps are present.  In
    Scenario A exactly one phase span, "domainLookup", is emitted, and
    none for the other phases. *)
Theorem navigation_spans (transaction : Transaction) (entry : PerformanceEntry)
    (timeOrigin_ : number) :
  (forall event,
      phase_occurred entry event = true ->
      tx_spans (addPerformanceNavigationTiming transaction entry event timeOrigin_)
      = tx_spans transaction ++ [phase_span entry timeOrigin_ event])
  /\ (forall event,
      phase_occurred entry event = false ->
      addPerformanceNavigationTiming transaction entry event timeOrigin_ = transaction)
  /\ tx_spans (addNavigationSpans transaction entry timeOrigin_)
     = tx_spans transaction
       ++ flat_map (phase_spans entry timeOrigin_) navigation_phases
       ++ [request_span entry timeOrigin_; response_span entry timeOrigin_]
  /\ (phase_occurred entry "domainLookup" = true ->
      (forall event,
          event ∈ ["unloadEvent"; "domContentLoadedEvent"; "loadEvent"; "connect"] ->
          phase_occurred entry event = false) ->
      tx_spans (addNavigationSpans transaction entry timeOrigin_)
      = tx_spans transaction
        ++ [phase_span entry timeOrigin_ "domainLookup";
            request_span entry timeOrigin_; response_span entry timeOrigin_]).
Proof.
  split; [|split; [|split]].
  - intros event H. rewrite addPerformanceNavigationTiming_spans.
    unfold phase_spans. fold (phase_occurred entry event). rewrite H. reflexivity.
  - intros event H. unfold addPerformanceNavigationTiming.
    fold (phase_occurred entry event) in H.
    unfold phase_occurred in H.
    destruct (truthy_opt (prop entry (event +:+ "Start"))),
      (truthy_opt (prop entry (event +:+ "End")));
      cbn [negb orb andb] in *; try reflexivity; discriminate H.
  - apply addNavigationSpans_spans.
  - intros Hdl Hother. rewrite addNavigationSpans_spans.
    unfold navigation_phases. cbn [flat_map]. unfold phase_spans.
    fold (phase_occurred entry "unloadEvent").
    fold (phase_occurred entry "domContentLoadedEvent").
    fold (phase_occurred entry "loadEvent").
    fold (phase_occurred entry "connect").
    fold (phase_occurred entry "domainLookup").
    rewrite Hdl, !Hother.
    + reflexivity.
    + do 3 apply list_elem_of_further. apply list_elem_of_here.
    + do 2 apply list_elem_of_further. apply list_elem_of_here.
    + do 1 apply list_elem_of_further. apply list_elem_of_here.
    + apply list_elem_of_here.
Qed.

Lemma navigation_spans_witness :
  let transaction := empty_transaction "pageload" (of_Z 1000) in
  tx_spans (addNavigationSpans transaction scenario_A_entry (of_Z 1000))
  = [ {| description := Some "domainLookup"; op := Some "browser";
         startTimestamp := Some (add (of_Z 1000) (msToSec (of_Z 1)));
         endTimestamp := Some (add (of_Z 1000) (msToSec (of_Z 5)));
         data := None |};
      {| description := Some "request"; op := Some "browser";
         startTimestamp := Some NaN; endTimestamp := Some NaN; data := None |};
      {| description := Some "response"; op := Some "browser";
         startTimestamp := Some NaN; endTimestamp := Some NaN; data := None |} ].
Proof.
  intros transaction.
  apply (proj2 (proj2 (proj2
           (navigation_spans transaction scenario_A_entry (of_Z 1000))))).
  - reflexivity.
  - intros event Hin.
    repeat (apply elem_of_cons in Hin; destruct Hin as [-> | Hin]; [reflexivity|]).
    apply elem_of_nil in Hin. destruct Hin.
Defined.

(** ** What the LCP callbacks leave alone *)

Lemma updateLCP_cursor (t : number) (mi : MetricsInstrumentation) (entry : PerformanceEntry) :
  _performanceCursor (updateLCP t mi entry) = _performanceCursor mi.
Proof. unfold updateLCP. destruct (lt _ _); reflexivity. Qed.

Lemma updateLCP_firstHiddenTime (t : number) (mi : MetricsInstrumentation)
    (entry : PerformanceEntry) :
  _firstHiddenTime (updateLCP t mi entry) = _firstHiddenTime mi.
Proof. unfold updateLCP. destruct (lt _ _); reflexivity. Qed.

Lemma forEach_updateLCP_cursor (t : number) (l : list PerformanceEntry)
    (mi : MetricsInstrumentation) :
  _performanceCursor (fold_left (updateLCP t) l mi) = _performanceCursor mi.
Proof.
  revert mi. induction l as [|e l IH]; intros mi; simpl; [reflexivity|].
  rewrite IH. apply updateLCP_cursor.
Qed.

Lemma forEach_updateLCP_firstHiddenTime (t : number) (l : list PerformanceEntry)
    (mi : MetricsInstrumentation) :
  _firstHiddenTime (fold_left (updateLCP t) l mi) = _firstHiddenTime mi.
Proof.
  revert mi. induction l as [|e l IH]; intros mi; simpl; [reflexivity|].
  rewrite IH. apply updateLCP_firstHiddenTime.
Qed.

Lemma forceLCP_cursor (env : Env) (mi : MetricsInstrumentation) (h : Host) :
  _performanceCursor (fst (forceLCP env mi h)) = _performanceCursor mi.
Proof.
  unfold forceLCP, drainLCP.
  destruct (_forceLCP mi); [reflexivity|].
  destruct (hasTakeRecords env); [|reflexivity].
  apply forEach_updateLCP_cursor.
Qed.

Lemma forceLCP_timeline (env : Env) (mi : MetricsInstrumentation) (h : Host) :
  timeline (snd (forceLCP env mi h)) = timeline h.
Proof.
  unfold forceLCP, drainLCP.
  destruct (_forceLCP mi); [reflexivity|].
  destruct (hasTakeRecords env); reflexivity.
Qed.

(** ** The entry-stream processor *)

(** What [addPerformanceEntries] does once the performance API is there,
    in terms of the state [forceLCP] leaves *)
Lemma addPerformanceEntries_spans (env : Env) (mi : MetricsInstrumentation) (h : Host)
    (transaction : Transaction) :
  hasPerformance env = true -> hasGetEntries env = true ->
  let p :=
    fold_left
      (perEntry env (msToSec (timeOrigin env))
         match scripts env with Some l => findEntryScript l | None => None end)
      (drop (_performanceCursor mi) (timeline h))
      {| transaction_ := transaction;
         measurements_ :=
           _measurements
             (if str_is (tx_op transaction) "pageload"
              then fst (forceLCP env mi h) else mi);
         entryScriptStartTimestamp := None;
         tracingInitMarkStartTime := None |} in
  tx_spans (snd (addPerformanceEntries env mi h transaction))
  = match entryScriptStartTimestamp p, tracingInitMarkStartTime p with
    | Some entryScriptStart, Some tracingInitMark =>
        tx_spans (transaction_ p)
        ++ [ {| description := Some "evaluation";
                endTimestamp := Some tracingInitMark;
                op := Some "script";
                startTimestamp := Some entryScriptStart;
                data := None |} ]
    | _, _ => tx_spans (transaction_ p)
    end.
Proof.
  intros Hp Hg p. unfold addPerformanceEntries. rewrite Hp, Hg.
  cbn [negb orb].
  assert (Hfold :
    fold_left
      (perEntry env (msToSec (timeOrigin env))
         match scripts env with Some l => findEntryScript l | None => None end)
      (drop
         (_performanceCursor
            (fst (if str_is (tx_op transaction) "pageload"
                  then forceLCP env mi h else (mi, h))))
         (timeline
            (snd (if str_is (tx_op transaction) "pageload"
                  then forceLCP env mi h else (mi, h)))))
      {| transaction_ := transaction;
         measurements_ :=
           _measurements
             (fst (if str_is (tx_op transaction) "pageload"
                   then forceLCP env mi h else (mi, h)));
         entryScriptStartTimestamp := None;
         tracingInitMarkStartTime := None |} = p).
  { subst p. destruct (str_is (tx_op transaction) "pageload"); [|reflexivity].
    rewrite forceLCP_cursor, forceLCP_timeline. reflexivity. }
  destruct (if str_is (tx_op transaction) "pageload"
            then forceLCP env mi h else (mi, h)) as [mi' h'].
  cbn [fst snd] in Hfold. rewrite Hfold.
  destruct (entryScriptStartTimestamp p), (tracingInitMarkStartTime p);
    match goal with |- context [if ?c then _ else _] => destruct c end;
    cbn [snd tx_spans setMeasurements];
    try reflexivity; apply _startChild_spans.
Qed.

Lemma dispatch_resource (env : Env) (timeOrigin_ : number) (entryScriptSrc : option string)
    (p : Pass) (entry : PerformanceEntry) (startTime_ duration_ : number) :
  entryType entry = "resource" ->
  dispatch env timeOrigin_ entryScriptSrc p entry startTime_ duration_
  = let resourceName := replace (name entry) (location_origin env) "" in
    let r := addResourceSpans (transaction_ p) entry resourceName
               startTime_ duration_ timeOrigin_ in
    {| transaction_ := fst r;
       measurements_ := measurements_ p;
       entryScriptStartTimestamp :=
         match entryScriptStartTimestamp p with
         | None =>
             if indexOf_found (default "" entryScriptSrc) resourceName then snd r
             else None
         | Some v => Some v
         end;
       tracingInitMarkStartTime := tracingInitMarkStartTime p |}.
Proof.
  intros H. unfold dispatch. rewrite H. cbv zeta.
  destruct (addResourceSpans _ _ _ _ _ _). reflexivity.
Qed.

Lemma addResourceSpans_emits (transaction : Transaction) (entry : PerformanceEntry)
    (resourceName : string) (startTime_ duration_ timeOrigin_ : number) :
  str_is (initiatorType entry) "xmlhttprequest" || str_is (initiatorType entry) "fetch"
    = false ->
  addResourceSpans transaction entry resourceName startTime_ duration_ timeOrigin_
  = (_startChild transaction
       {| description := Some resourceName;
          endTimestamp := Some (add (add timeOrigin_ startTime_) duration_);
          op := Some match initiatorType entry with
                     | Some t => if nonempty t then "resource." +:+ t else "resource"
                     | None => "resource"
                     end;
          startTimestamp := Some (add timeOrigin_ startTime_);
          data :=
            Some (copy_size entry "decodedBodySize" "Decoded Body Size"
                    (copy_size entry "encodedBodySize" "Encoded Body Size"
                       (copy_size entry "transferSize" "Transfer Size" ∅))) |},
     Some (add (add timeOrigin_ startTime_) duration_)).
Proof. intros H. unfold addResourceSpans. rewrite H. reflexivity. Qed.

Lemma perEntry_resource (env : Env) (timeOrigin_ : number) (entryScriptSrc : option string)
    (p : Pass) (entry : PerformanceEntry) :
  entryType entry = "resource" ->
  skipped timeOrigin_ (transaction_ p) entry = false ->
  str_is (initiatorType entry) "xmlhttprequest" || str_is (initiatorType entry) "fetch"
    = false ->
  perEntry env timeOrigin_ entryScriptSrc p entry
  = {| transaction_ := _startChild (transaction_ p) (resource_span env timeOrigin_ entry);
       measurements_ := measurements_ p;
       entryScriptStartTimestamp :=
         match entryScriptStartTimestamp p with
         | None =>
             if indexOf_found (default "" entryScriptSrc)
                  (replace (name entry) (location_origin env) "")
             then endTimestamp (resource_span env timeOrigin_ entry)
             else None
         | Some v => Some v
         end;
       tracingInitMarkStartTime := tracingInitMarkStartTime p |}.
Proof.
  intros Ht Hs Hi. unfold perEntry. fold (skipped timeOrigin_ (transaction_ p) entry).
  rewrite Hs, dispatch_resource by exact Ht. cbv zeta.
  rewrite addResourceSpans_emits by exact Hi. reflexivity.
Qed.

Lemma scenario_B_start :
  add (msToSec (of_Z 1000000)) (msToSec (of_Z 10)) = frac 100001 100.
Proof.
  unfold add, msToSec, div1000, of_Z, frac.
  apply (f_equal Fin), Qc_is_canon. reflexivity.
Qed.

Lemma scenario_B_end :
  add (frac 100001 100) (msToSec (of_Z 5)) = frac 200003 200.
Proof.
  unfold add, msToSec, div1000, of_Z, frac.
  apply (f_equal Fin), Qc_is_canon. reflexivity.
Qed.

Lemma scenario_B_resource_span (env : Env) :
  location_origin env = "https://example.com" ->
  resource_span env (msToSec (of_Z 1000000)) scenario_B_entry = scenario_B_span.
Proof.
  intros Ho. unfold resource_span, scenario_B_span. rewrite Ho.
  change (startTime scenario_B_entry) with (of_Z 10).
  change (duration scenario_B_entry) with (of_Z 5).
  rewrite scenario_B_start, scenario_B_end. reflexivity.
Qed.

(** C8 (Scenario B): with time origin 1000 s and origin
    [https://example.com], a pass whose only unprocessed entry is the
    script resource [https://example.com/app.js] (start 10 ms, duration
    5 ms) adds exactly one span to the transaction: description
    [/app.js], operation [resource.script], start 1000.010 s and end
    1000.015 s.  (A navigation transaction that started after the entry
    skips it; any other transaction does not.) *)
Theorem scenario_B (env : Env) (mi : MetricsInstrumentation) (h : Host)
    (transaction : Transaction) :
  hasPerformance env = true ->
  hasGetEntries env = true ->
  timeOrigin env = of_Z 1000000 ->
  location_origin env = "https://example.com" ->
  drop (_performanceCursor mi) (timeline h) = [scenario_B_entry] ->
  str_is (tx_op transaction) "navigation"
    && lt (frac 100001 100) (tx_startTimestamp transaction) = false ->
  tx_spans (snd (addPerformanceEntries env mi h transaction))
  = tx_spans transaction ++ [scenario_B_span].
Proof.
  intros Hp Hg Ht Ho Hdrop Hskip.
  rewrite addPerformanceEntries_spans by assumption.
  rewrite Hdrop, Ht. cbn [fold_left].
  rewrite perEntry_resource.
  - cbn [transaction_ entryScriptStartTimestamp tracingInitMarkStartTime].
    rewrite scenario_B_resource_span by exact Ho.
    destruct (if indexOf_found _ _ then _ else _); apply _startChild_spans.
  - reflexivity.
  - unfold skipped. cbn [transaction_].
    change (startTime scenario_B_entry) with (of_Z 10).
    rewrite scenario_B_start. exact Hskip.
  - reflexivity.
Qed.

Lemma scenario_B_witness :
  let env := {| hasPerformance := true; hasMark := true; hasGetEntries := true;
                timeOrigin := of_Z 1000000; scripts := Some [];
                location_origin := "https://example.com";
                lcpSupported := true; fidSupported := true; hasTakeRecords := true |} in
  let mi := {| _firstHiddenTime := PosInf; _lcpFinal := false; _measurements := ∅;
               _performanceCursor := 0; _forceLCP := ForceTakeRecords |} in
  let h := page [scenario_B_entry] "visible" [] [] in
  tx_spans (snd (addPerformanceEntries env mi h (empty_transaction "pageload" (of_Z 1000))))
  = [ {| description := Some "/app.js"; op := Some "resource.script";
         startTimestamp := Some (frac 100001 100);
         endTimestamp := Some (frac 200003 200);
         data := Some ∅ |} ].
Proof.
  intros env mi h.
  apply (scenario_B env mi h (empty_transaction "pageload" (of_Z 1000)));
    reflexivity.
Defined.

(** ** Paint measurements *)





(** ** Concrete sessions *)

(** ** First input delay *)

Lemma fidCallback_disconnected (env : Env) (mi : MetricsInstrumentation) (h : Host) :
  fidObserving h = false -> fidCallback env mi h = (mi, h).
Proof. intros H. unfold fidCallback. rewrite H. reflexivity. Qed.

(** C3: the code at a batch of two qualifying first-input entries.  The
    page is visible, so both entries precede the first-hidden timestamp.
    Delivered alone, the first entry records [fid = 15 - 10 = 5] and
    disconnects the observer; delivered in one batch with a second
    entry, the [forEach] goes on after [po.disconnect()] and the second
    entry overwrites the measurement: [fid = 40 - 20 = 20]. *)
Theorem fid_overwritten_within_batch :
  let s0 := start browser zero (page [] "visible" [] []) in
  let alone := run browser s0 [FidRecord (first_input 10 15); FidDeliver] in
  let batch := run browser s0 [FidRecord (first_input 10 15);
                               FidRecord (first_input 20 40); FidDeliver] in
  _measurements (instr alone) !! "fid" = Some {| value := of_Z 5 |}
  /\ fidObserving (host alone) = false
  /\ _measurements (instr batch) !! "fid" = Some {| value := of_Z 20 |}
  /\ _measurements (instr batch) !! "mark.fid" = Some {| value := frac 50001 50 |}.
Proof.
  intros s0 alone batch.
  split; [|split; [|split]]; vm_compute;
    try reflexivity;
    apply (f_equal Some), (f_equal Build_Measurement), (f_equal Fin), Qc_is_canon;
    reflexivity.
Qed.

(** ** Largest contentful paint *)

Lemma lcpVisibilityListener_final (env : Env) (mi : MetricsInstrumentation) (h : Host) :
  _lcpFinal mi = true -> lcpVisibilityListener env mi h = (mi, h).
Proof. intros H. unfold lcpVisibilityListener. rewrite H. reflexivity. Qed.

(** C2: the code at a force-flush after the final flag is set.  The page
    goes hidden at 500 ms; a candidate with start time 800 ms is
    delivered and writes nothing, and the final flag is set.  A later
    candidate whose start time is 300 ms is queued; the force-flush of
    the next page-load pass hands it to [updateLCP], which does not look
    at the flag and writes [lcp = 300] and [mark.lcp]. *)
Theorem forceLCP_writes_after_final :
  let s0 := start browser zero (page [] "visible" [] []) in
  let s1 := run browser s0 [VisibilityChange (of_Z 500) "hidden";
                            LcpRecord (lcp_candidate 800); LcpDeliver] in
  let s2 := run browser s1 [LcpRecord (lcp_candidate 300);
                            AddPerformanceEntries (empty_transaction "pageload" (of_Z 1000))] in
  _firstHiddenTime (instr s1) = of_Z 500
  /\ _lcpFinal (instr s1) = true
  /\ _measurements (instr s1) !! "lcp" = None
  /\ _measurements (instr s2) !! "lcp" = Some {| value := of_Z 300 |}
  /\ _measurements (instr s2) !! "mark.lcp" = Some {| value := frac 10003 10 |}.
Proof.
  intros s0 s1 s2.
  split; [|split; [|split; [|split]]]; vm_compute;
    try reflexivity;
    try (apply (f_equal Fin), Qc_is_canon; reflexivity);
    apply (f_equal Some), (f_equal Build_Measurement), (f_equal Fin), Qc_is_canon;
    reflexivity.
Qed.

(** ** A page that is hidden from the start *)

Lemma lt_trans (a b c : number) : lt a b = true -> lt b c = true -> lt a c = true.
Proof.
  destruct a as [| |x|], b as [| |y|], c as [| |z|]; simpl;
    trivial; try discriminate.
  intros H1 H2. apply Qc_ltb_lt in H1, H2. apply Qc_ltb_lt.
  exact (Qclt_trans _ _ _ H1 H2).
Qed.

Lemma lt_total_fin (x y : Qc) :
  Qc_ltb x y = false -> Qc_ltb y x = false -> x = y.
Proof.
  intros H1 H2.
  destruct (Qc_dec x y) as [[H | H] | H]; [| |exact H].
  - apply Qc_ltb_lt in H. congruence.
  - apply Qc_ltb_lt in H. congruence.
Qed.

Lemma never_before_hidden (mi : MetricsInstrumentation) (entry : PerformanceEntry) :
  hidden_from_start mi -> nonneg entry ->
  lt (startTime entry) (_firstHiddenTime mi) = false.
Proof.
  unfold hidden_from_start, nonneg. intros Hh Hn.
  destruct (lt (startTime entry) (_firstHiddenTime mi)) eqn:E; [|reflexivity].
  destruct (lt zero (startTime entry)) eqn:E0.
  - rewrite (lt_trans _ _ _ E0 E) in Hh. discriminate Hh.
  - destruct (startTime entry) as [| |x|], (_firstHiddenTime mi) as [| |y|];
      simpl in *; try discriminate.
    unfold zero, of_Z in *.
    rewrite <- (lt_total_fin _ _ Hn E0) in Hh. congruence.
Qed.

Lemma min_hidden (a t : number) : lt zero a = false -> lt zero (min a t) = false.
Proof.
  intros Ha.
  assert (H : lt zero (if lt t a then t else a) = false).
  { destruct (lt t a) eqn:E; [|exact Ha].
    destruct (lt zero t) eqn:E0; [|reflexivity].
    rewrite (lt_trans _ _ _ E0 E) in Ha. discriminate Ha. }
  destruct a, t; try reflexivity; exact H.
Qed.

Lemma forEach_updateLCP_hidden (t : number) (l : list PerformanceEntry)
    (mi : MetricsInstrumentation) :
  hidden_from_start mi -> Forall nonneg l ->
  _measurements (fold_left (updateLCP t) l mi) = _measurements mi.
Proof.
  intros Hh Hl. revert mi Hh.
  induction Hl as [|e l He Hl IH]; intros mi Hh; cbn [fold_left]; [reflexivity|].
  rewrite updateLCP_not_lt by (apply never_before_hidden; assumption).
  rewrite IH; [reflexivity | exact Hh].
Qed.

Lemma forEach_updateFID_hidden (t : number) (l : list PerformanceEntry)
    (mi : MetricsInstrumentation) (h : Host) :
  hidden_from_start mi -> Forall nonneg l ->
  fold_left (updateFID t) l (mi, h) = (mi, h).
Proof.
  intros Hh Hl. induction Hl as [|e l He Hl IH]; cbn [fold_left]; [reflexivity|].
  rewrite updateFID_not_lt by (apply never_before_hidden; assumption).
  exact IH.
Qed.

Section HiddenFromStart.

Context (env : Env).

Lemma drainLCP_hidden (mi : MetricsInstrumentation) (h : Host) :
  hidden_ok mi h -> hidden_ok (fst (drainLCP env mi h)) (snd (drainLCP env mi h)).
Proof.
  intros (Hh & Hv & Hl & Hf). unfold drainLCP, hidden_ok, hidden_from_start. cbn [fst snd].
  rewrite forEach_updateLCP_firstHiddenTime, forEach_updateLCP_hidden by assumption.
  repeat split; try apply Hv; try assumption. constructor.
Qed.

Lemma lcpCallback_hidden (mi : MetricsInstrumentation) (h : Host) :
  hidden_ok mi h -> hidden_ok (fst (lcpCallback env mi h)) (snd (lcpCallback env mi h)).
Proof.
  intros H. unfold lcpCallback. destruct (lcpObserving h); [|exact H].
  apply drainLCP_hidden, H.
Qed.

Lemma forceLCP_hidden (mi : MetricsInstrumentation) (h : Host) :
  hidden_ok mi h -> hidden_ok (fst (forceLCP env mi h)) (snd (forceLCP env mi h)).
Proof.
  intros H. unfold forceLCP. destruct (_forceLCP mi); [exact H|].
  destruct (hasTakeRecords env); [|exact H].
  apply drainLCP_hidden, H.
Qed.

Lemma lcpVisibilityListener_hidden (mi : MetricsInstrumentation) (h : Host) :
  hidden_ok mi h ->
  hidden_ok (fst (lcpVisibilityListener env mi h)) (snd (lcpVisibilityListener env mi h)).
Proof.
  intros H. unfold lcpVisibilityListener.
  destruct (_lcpFinal mi); [exact H|].
  destruct (String.eqb (visibilityState h) "hidden"); [|exact H].
  destruct (hasTakeRecords env); [|exact H].
  pose proof (drainLCP_hidden mi h H) as H'.
  destruct (drainLCP env mi h) as [mi' h']. exact H'.
Qed.

Lemma visibilityChange_hidden (timeStamp : number) (state : string)
    (mi : MetricsInstrumentation) (h : Host) :
  hidden_ok mi h ->
  hidden_ok (fst (visibilityChange env timeStamp state mi h))
            (snd (visibilityChange env timeStamp state mi h)).
Proof.
  intros (Hh & Hv & Hl & Hf). unfold visibilityChange.
  cbn [firstHiddenListener set_visibilityState].
  assert (H1 : hidden_ok (firstHiddenVisibilityListener timeStamp mi)
                 (set_firstHiddenListener false (set_visibilityState state h))).
  { repeat split; try apply Hv; try assumption. apply min_hidden, Hh. }
  assert (H0 : hidden_ok mi (set_visibilityState state h)).
  { repeat split; try apply Hv; assumption. }
  destruct (firstHiddenListener h); cbn [lcpListener set_firstHiddenListener set_visibilityState].
  - destruct (lcpListener h); [|exact H1].
    apply lcpVisibilityListener_hidden. exact H1.
  - destruct (lcpListener h); [|exact H0].
    apply lcpVisibilityListener_hidden. exact H0.
Qed.

Lemma fidCallback_hidden (mi : MetricsInstrumentation) (h : Host) :
  hidden_ok mi h -> hidden_ok (fst (fidCallback env mi h)) (snd (fidCallback env mi h)).
Proof.
  intros (Hh & Hv & Hl & Hf). unfold fidCallback.
  destruct (fidObserving h); [|repeat split; try apply Hv; assumption].
  rewrite forEach_updateFID_hidden by assumption.
  repeat split; try apply Hv; try assumption. constructor.
Qed.

(** The callback of the pass writes no key other than the four paint
    measurements. *)
Lemma perEntry_measurements_other (timeOrigin_ : number)
    (entryScriptSrc : option string) (p : Pass) (entry : PerformanceEntry) (k : string) :
  k <> "fp" -> k <> "mark.fp" -> k <> "fcp" -> k <> "mark.fcp" ->
  measurements_ (perEntry env timeOrigin_ entryScriptSrc p entry) !! k
  = measurements_ p !! k.
Proof.
  intros H1 H2 H3 H4. unfold perEntry, dispatch.
  destruct (addMeasureSpans _ _ _ _ _) as [t1 ts1].
  destruct (addResourceSpans _ _ _ _ _ _) as [t2 ts2].
  repeat match goal with
         | |- context [if ?c then _ else _] => destruct c
         end;
    cbn [measurements_]; rewrite ?lookup_insert_ne by congruence; reflexivity.
Qed.

Lemma forEach_perEntry_measurements_other (timeOrigin_ : number)
    (entryScriptSrc : option string) (l : list PerformanceEntry) (p : Pass) (k : string) :
  k <> "fp" -> k <> "mark.fp" -> k <> "fcp" -> k <> "mark.fcp" ->
  measurements_ (fold_left (perEntry env timeOrigin_ entryScriptSrc) l p) !! k
  = measurements_ p !! k.
Proof.
  intros H1 H2 H3 H4. revert p.
  induction l as [|e l IH]; intros p; cbn [fold_left]; [reflexivity|].
  rewrite IH. apply perEntry_measurements_other; assumption.
Qed.

Lemma addPerformanceEntries_hidden (mi : MetricsInstrumentation) (h : Host)
    (transaction : Transaction) :
  hidden_ok mi h ->
  hidden_ok (fst (fst (addPerformanceEntries env mi h transaction)))
            (snd (fst (addPerformanceEntries env mi h transaction))).
Proof.
  intros H. unfold addPerformanceEntries.
  destruct (negb (hasPerformance env) || negb (hasGetEntries env)); [exact H|].
  assert (Hf : hidden_ok
                 (fst (if str_is (tx_op transaction) "pageload"
                       then forceLCP env mi h else (mi, h)))
                 (snd (if str_is (tx_op transaction) "pageload"
                       then forceLCP env mi h else (mi, h)))).
  { destruct (str_is (tx_op transaction) "pageload"); [apply forceLCP_hidden|]; exact H. }
  destruct (if str_is (tx_op transaction) "pageload"
            then forceLCP env mi h else (mi, h)) as [mi' h'].
  destruct Hf as (Hh & Hv & Hl & Hr). cbn [fst snd] in *.
  unfold hidden_ok, hidden_from_start, no_vitals.
  cbn [_firstHiddenTime _measurements set_performanceCursor set_measurements].
  rewrite !forEach_perEntry_measurements_other by discriminate.
  repeat split; try apply Hv; assumption.
Qed.

Lemma step_hidden (s : Session) (ev : Event) :
  hidden_ok (instr s) (host s) -> event_nonneg ev ->
  hidden_ok (instr (step env s ev)) (host (step env s ev)).
Proof.
  intros H Hev. pose proof H as (Hh & Hv & Hl & Hf).
  destruct ev as [e | e | | e | | t st | tx]; cbn [step].
  - exact H.
  - destruct (lcpObserving (host s)); [|exact H].
    repeat split; try apply Hv; try assumption.
    cbn [lcpRecords set_lcpRecords]. apply Forall_app. split; [exact Hl|].
    constructor; [exact Hev | constructor].
  - pose proof (lcpCallback_hidden _ _ H) as H'.
    destruct (lcpCallback env (instr s) (host s)). exact H'.
  - destruct (fidObserving (host s)); [|exact H].
    repeat split; try apply Hv; try assumption.
    cbn [fidRecords set_fidRecords]. apply Forall_app. split; [exact Hf|].
    constructor; [exact Hev | constructor].
  - pose proof (fidCallback_hidden _ _ H) as H'.
    destruct (fidCallback env (instr s) (host s)). exact H'.
  - pose proof (visibilityChange_hidden t st _ _ H) as H'.
    destruct (visibilityChange env t st (instr s) (host s)). exact H'.
  - pose proof (addPerformanceEntries_hidden _ _ tx H) as H'.
    destruct (addPerformanceEntries env (instr s) (host s) tx) as [[mi' h'] tx'].
    exact H'.
Qed.

Lemma run_hidden (evs : list Event) (s : Session) :
  hidden_ok (instr s) (host s) -> Forall event_nonneg evs ->
  hidden_ok (instr (run env s evs)) (host (run env s evs)).
Proof.
  intros H Hevs. revert s H.
  induction Hevs as [|ev evs Hev Hevs IH]; intros s H; [exact H|].
  apply IH. apply step_hidden; assumption.
Qed.

Lemma start_hidden (now : number)
    (entries buffered_lcp buffered_fid : list PerformanceEntry) :
  Forall nonneg buffered_lcp -> Forall nonneg buffered_fid ->
  let s := start env now (page entries "hidden" buffered_lcp buffered_fid) in
  _firstHiddenTime (instr s) = zero /\ hidden_ok (instr s) (host s).
Proof.
  intros Hl Hf. unfold start, constructor, _trackLCP, _trackFID.
  destruct (hasPerformance env), (hasMark env), (lcpSupported env), (fidSupported env);
    (split; [reflexivity|]); repeat split; assumption.
Qed.

(** C10: when the document is hidden at the time the instrumentation is
    constructed, the first-hidden timestamp starts as [0]; and then,
    whatever the browser and the caller do afterwards, as long as the
    candidates' start times are not negative, none of [lcp],
    [mark.lcp], [fid] and [mark.fid] is ever written. *)
Theorem hidden_at_construction (now : number)
    (entries buffered_lcp buffered_fid : list PerformanceEntry) (evs : list Event) :
  Forall nonneg buffered_lcp ->
  Forall nonneg buffered_fid ->
  Forall event_nonneg evs ->
  let s0 := start env now (page entries "hidden" buffered_lcp buffered_fid) in
  _firstHiddenTime (instr s0) = zero
  /\ no_vitals (_measurements (instr (run env s0 evs))).
Proof.
  intros Hl Hf Hevs s0.
  destruct (start_hidden now entries buffered_lcp buffered_fid Hl Hf) as [H0 Hok].
  split; [exact H0|].
  apply (run_hidden evs s0 Hok Hevs).
Qed.

End HiddenFromStart.

Lemma hidden_at_construction_witness :
  let evs := [LcpDeliver; FidRecord (first_input 10 15); FidDeliver;
              VisibilityChange (of_Z 500) "visible";
              LcpRecord (lcp_candidate 800);
              AddPerformanceEntries (empty_transaction "pageload" (of_Z 1000))] in
  let s0 := start browser zero (page [] "hidden" [lcp_candidate 100] []) in
  _firstHiddenTime (instr s0) = zero
  /\ no_vitals (_measurements (instr (run browser s0 evs))).
Proof.
  intros evs.
  apply (hidden_at_construction browser zero [] [lcp_candidate 100] [] evs).
  - repeat constructor.
  - constructor.
  - repeat constructor.
Defined.

(** ** The cursor *)

Section Cursor.

Context (env : Env).

Lemma available_negb :
  negb (hasPerformance env) || negb (hasGetEntries env) = negb (available env).
Proof. unfold available. destruct (hasPerformance env), (hasGetEntries env); reflexivity. Qed.

Lemma cursor_after_pred (n : nat) : cursor_after n = Nat.pred n.
Proof. unfold cursor_after. lia. Qed.

Lemma updateFID_cursor_timeline (t : number) (st : MetricsInstrumentation * Host)
    (entry : PerformanceEntry) :
  _performanceCursor (fst (updateFID t st entry)) = _performanceCursor (fst st)
  /\ timeline (snd (updateFID t st entry)) = timeline (snd st).
Proof.
  destruct st as [mi h]. unfold updateFID.
  destruct (lt _ _); split; reflexivity.
Qed.

Lemma forEach_updateFID_cursor_timeline (t : number) (l : list PerformanceEntry)
    (st : MetricsInstrumentation * Host) :
  _performanceCursor (fst (fold_left (updateFID t) l st)) = _performanceCursor (fst st)
  /\ timeline (snd (fold_left (updateFID t) l st)) = timeline (snd st).
Proof.
  revert st. induction l as [|e l IH]; intros st; cbn [fold_left]; [split; reflexivity|].
  destruct (IH (updateFID t st e)) as [-> ->]. apply updateFID_cursor_timeline.
Qed.

Lemma lcpVisibilityListener_cursor_timeline (mi : MetricsInstrumentation)
    (h : Host) :
  _performanceCursor (fst (lcpVisibilityListener env mi h)) = _performanceCursor mi
  /\ timeline (snd (lcpVisibilityListener env mi h)) = timeline h.
Proof.
  unfold lcpVisibilityListener, drainLCP.
  destruct (_lcpFinal mi); [split; reflexivity|].
  destruct (String.eqb _ _); [|split; reflexivity].
  destruct (hasTakeRecords env); [|split; reflexivity].
  cbn [fst snd _performanceCursor set_lcpFinal timeline set_lcpRecords].
  split; [apply forEach_updateLCP_cursor | reflexivity].
Qed.

(** What an event does to the cursor and to the length of the timeline *)
Lemma step_cursor_entries (s : Session) (ev : Event) :
  match ev with
  | Append _ =>
      cursor_of (step env s ev) = cursor_of s
      /\ entries_of (step env s ev) = S (entries_of s)
  | AddPerformanceEntries _ =>
      cursor_of (step env s ev)
      = (if available env then Nat.pred (entries_of s) else cursor_of s)
      /\ entries_of (step env s ev) = entries_of s
  | _ =>
      cursor_of (step env s ev) = cursor_of s
      /\ entries_of (step env s ev) = entries_of s
  end.
Proof.
  unfold cursor_of, entries_of.
  destruct ev as [e | e | | e | | t st | tx]; cbn [step].
  - cbn [instr host timeline set_timeline]. rewrite length_app. cbn [length]. lia.
  - destruct (lcpObserving (host s)); split; reflexivity.
  - unfold lcpCallback, drainLCP. destruct (lcpObserving (host s)); [|split; reflexivity].
    cbn [instr host timeline set_lcpRecords].
    split; [apply forEach_updateLCP_cursor | reflexivity].
  - destruct (fidObserving (host s)); split; reflexivity.
  - unfold fidCallback. destruct (fidObserving (host s)); [|split; reflexivity].
    pose proof (forEach_updateFID_cursor_timeline (timeOrigin env) (fidRecords (host s))
                  (instr s, set_fidRecords [] (host s))) as [H1 H2].
    destruct (fold_left _ _ _) as [mi' h']. cbn [instr host fst snd] in *.
    rewrite H1, H2. split; reflexivity.
  - unfold visibilityChange.
    cbn [firstHiddenListener set_visibilityState].
    destruct (firstHiddenListener (host s));
      cbn [lcpListener set_firstHiddenListener set_visibilityState];
      destruct (lcpListener (host s)).
    + pose proof (lcpVisibilityListener_cursor_timeline
                    (firstHiddenVisibilityListener t (instr s))
                    (set_lcpListener false (set_firstHiddenListener false
                       (set_visibilityState st (host s))))) as [H1 H2].
      destruct (lcpVisibilityListener _ _ _) as [mi' h']. cbn [instr host fst snd] in *.
      rewrite H1, H2. split; reflexivity.
    + split; reflexivity.
    + pose proof (lcpVisibilityListener_cursor_timeline (instr s)
                    (set_lcpListener false (set_visibilityState st (host s)))) as [H1 H2].
      destruct (lcpVisibilityListener _ _ _) as [mi' h']. cbn [instr host fst snd] in *.
      rewrite H1, H2. split; reflexivity.
    + split; reflexivity.
  - unfold addPerformanceEntries. rewrite available_negb.
    destruct (available env); cbn [negb]; [|split; reflexivity].
    pose proof (forceLCP_timeline env (instr s) (host s)) as Hf.
    destruct (if str_is (tx_op tx) "pageload" then forceLCP env (instr s) (host s)
              else (instr s, host s)) as [mi' h'] eqn:E.
    assert (Ht : timeline h' = timeline (host s)).
    { destruct (str_is (tx_op tx) "pageload").
      - rewrite E in Hf. exact Hf.
      - injection E as <- <-. reflexivity. }
    cbn [instr host _performanceCursor set_performanceCursor].
    rewrite Ht, cursor_after_pred. split; reflexivity.
Qed.

Lemma step_cursor_inv (s : Session) (ev : Event) :
  cursor_inv s ->
  cursor_inv (step env s ev)
  /\ cursor_of s <= cursor_of (step env s ev)
  /\ entries_of s <= entries_of (step env s ev).
Proof.
  unfold cursor_inv. intros H.
  pose proof (step_cursor_entries s ev) as Hs.
  destruct ev; try (destruct Hs as [-> ->]; lia).
  destruct Hs as [-> ->]. destruct (available env); lia.
Qed.

Lemma run_cursor_inv (evs : list Event) (s : Session) :
  cursor_inv s -> cursor_inv (run env s evs).
Proof.
  revert s. induction evs as [|ev evs IH]; intros s H; [exact H|].
  apply IH, step_cursor_inv, H.
Qed.

Lemma start_cursor_inv (now : number) (h : Host) :
  cursor_inv (start env now h).
Proof.
  unfold cursor_inv, cursor_of, start, constructor, _trackLCP, _trackFID.
  destruct (hasPerformance env), (hasMark env), (lcpSupported env), (fidSupported env);
    cbn; lia.
Qed.

Lemma calls_cons (s : Session) (ev : Event) (evs : list Event) :
  calls env s (ev :: evs)
  = match ev with
    | AddPerformanceEntries _ =>
        if available env
        then (cursor_of s, entries_of s) :: calls env (step env s ev) evs
        else calls env (step env s ev) evs
    | _ => calls env (step env s ev) evs
    end.
Proof.
  cbn [calls]. destruct ev; try reflexivity.
  rewrite available_negb. destruct (available env); reflexivity.
Qed.

(** Every call of a run starts at or after the current cursor and sees
    at least the entries there are now. *)
Lemma calls_lower (evs : list Event) (s : Session) :
  cursor_inv s ->
  Forall (fun cn => cursor_of s <= fst cn /\ fst cn <= Nat.pred (snd cn)
                    /\ entries_of s <= snd cn)
         (calls env s evs).
Proof.
  revert s. induction evs as [|ev evs IH]; intros s H; [constructor|].
  destruct (step_cursor_inv s ev H) as (H' & Hc & Hn).
  assert (Hrest : Forall (fun cn => cursor_of s <= fst cn /\ fst cn <= Nat.pred (snd cn)
                                    /\ entries_of s <= snd cn)
                         (calls env (step env s ev) evs)).
  { eapply Forall_impl; [apply (IH _ H')|].
    intros [c n] (H1 & H2 & H3). cbn [fst snd] in *. lia. }
  rewrite calls_cons. destruct ev; try exact Hrest.
  destruct (available env); [|exact Hrest].
  constructor; [|exact Hrest]. cbn [fst snd]. unfold cursor_inv in H. lia.
Qed.

(** A later call starts at or after the last entry an earlier call saw. *)
Lemma calls_ordered (evs : list Event) (s : Session) :
  cursor_inv s ->
  ForallOrdPairs (fun a b => Nat.pred (snd a) <= fst b /\ snd a <= snd b)
                 (calls env s evs).
Proof.
  revert s. induction evs as [|ev evs IH]; intros s H; [constructor|].
  destruct (step_cursor_inv s ev H) as (H' & Hc & Hn).
  rewrite calls_cons. destruct ev; try exact (IH _ H').
  destruct (available env) eqn:Ha; [|exact (IH _ H')].
  constructor; [|exact (IH _ H')].
  eapply Forall_impl; [apply (calls_lower evs _ H')|].
  intros [c n] (H1 & H2 & H3). cbn [fst snd] in *.
  pose proof (step_cursor_entries s (AddPerformanceEntries transaction)) as Hs.
  cbv beta iota in Hs. rewrite Ha in Hs. destruct Hs as [Hs1 Hs2]. lia.
Qed.

(** The first call of a run starts at the current cursor. *)
Lemma calls_head (evs : list Event) (s : Session) (cn : nat * nat) :
  calls env s evs !! 0 = Some cn -> fst cn = cursor_of s.
Proof.
  revert s. induction evs as [|ev evs IH]; intros s; [discriminate|].
  rewrite calls_cons.
  pose proof (step_cursor_entries s ev) as Hs.
  destruct ev; try (destruct Hs as [<- _]; apply IH).
  destruct (available env).
  - intros [= <-]. reflexivity.
  - destruct Hs as [<- _]. apply IH.
Qed.

(** Each call starts at the last entry the call before it saw. *)
Lemma calls_consecutive (evs : list Event) (s : Session)
    (j : nat) (a b : nat * nat) :
  calls env s evs !! j = Some a ->
  calls env s evs !! S j = Some b ->
  fst b = Nat.pred (snd a).
Proof.
  revert s j. induction evs as [|ev evs IH]; intros s j; [discriminate|].
  rewrite calls_cons.
  destruct ev; try apply IH.
  destruct (available env) eqn:Ha; [|apply IH].
  destruct j as [|j].
  - intros [= <-] Hb. cbn [lookup list_lookup] in Hb.
    rewrite (calls_head _ _ _ Hb).
    pose proof (step_cursor_entries s (AddPerformanceEntries transaction)) as Hs.
    cbv beta iota in Hs. rewrite Ha in Hs. destruct Hs as [-> _]. reflexivity.
  - intros Hj Hk. exact (IH _ _ Hj Hk).
Qed.

Lemma ForallOrdPairs_lookup {A : Type} (R : A -> A -> Prop) (l : list A) :
  ForallOrdPairs R l ->
  forall j k x y, j < k -> l !! j = Some x -> l !! k = Some y -> R x y.
Proof.
  induction 1 as [|a l Ha Hl IH]; intros j k x y Hjk Hj Hk; [discriminate|].
  destruct k as [|k]; [lia|]. destruct j as [|j].
  - injection Hj as <-. exact (proj1 (Forall_lookup _ _) Ha k y Hk).
  - apply (IH j k); [lia | exact Hj | exact Hk].
Qed.

(** ** Every entry from the cursor on is considered *)

Lemma addPerformanceNavigationTiming_op (transaction : Transaction)
    (entry : PerformanceEntry) (event : string) (timeOrigin_ : number) :
  tx_op (addPerformanceNavigationTiming transaction entry event timeOrigin_)
  = tx_op transaction.
Proof.
  unfold addPerformanceNavigationTiming.
  destruct (negb _ || negb _); [reflexivity | apply _startChild_op].
Qed.

Lemma addNavigationSpans_op (transaction : Transaction) (entry : PerformanceEntry)
    (timeOrigin_ : number) :
  tx_op (addNavigationSpans transaction entry timeOrigin_) = tx_op transaction.
Proof.
  unfold addNavigationSpans, addRequest.
  rewrite !_startChild_op, !addPerformanceNavigationTiming_op. reflexivity.
Qed.

Lemma addResourceSpans_op (transaction : Transaction) (entry : PerformanceEntry)
    (resourceName : string) (startTime_ duration_ timeOrigin_ : number) :
  tx_op (fst (addResourceSpans transaction entry resourceName
                startTime_ duration_ timeOrigin_))
  = tx_op transaction.
Proof.
  unfold addResourceSpans.
  destruct (str_is _ _ || str_is _ _); [reflexivity | apply _startChild_op].
Qed.

Lemma addResourceSpans_spans (transaction : Transaction) (entry : PerformanceEntry)
    (resourceName : string) (startTime_ duration_ timeOrigin_ : number) :
  exists added,
    tx_spans (fst (addResourceSpans transaction entry resourceName
                     startTime_ duration_ timeOrigin_))
    = tx_spans transaction ++ added.
Proof.
  unfold addResourceSpans.
  destruct (str_is _ _ || str_is _ _); cbn [fst].
  - exists []. symmetry. apply app_nil_r.
  - eexists. apply _startChild_spans.
Qed.

(** The callback keeps the transaction's operation and only adds spans. *)
Lemma perEntry_transaction (timeOrigin_ : number)
    (entryScriptSrc : option string) (p : Pass) (entry : PerformanceEntry) :
  tx_op (transaction_ (perEntry env timeOrigin_ entryScriptSrc p entry))
  = tx_op (transaction_ p)
  /\ exists added,
      tx_spans (transaction_ (perEntry env timeOrigin_ entryScriptSrc p entry))
      = tx_spans (transaction_ p) ++ added.
Proof.
  assert (Hsame : tx_op (transaction_ p) = tx_op (transaction_ p)
                  /\ exists added, tx_spans (transaction_ p)
                                   = tx_spans (transaction_ p) ++ added).
  { split; [reflexivity|]. exists []. symmetry. apply app_nil_r. }
  unfold perEntry. destruct (str_is _ _ && lt _ _); [exact Hsame|].
  unfold dispatch, addMeasureSpans.
  pose proof (addResourceSpans_op (transaction_ p) entry
                (replace (name entry) (location_origin env) "")
                (msToSec (startTime entry)) (msToSec (duration entry)) timeOrigin_) as Hop.
  pose proof (addResourceSpans_spans (transaction_ p) entry
                (replace (name entry) (location_origin env) "")
                (msToSec (startTime entry)) (msToSec (duration entry)) timeOrigin_) as Hsp.
  destruct (addResourceSpans _ _ _ _ _ _) as [t2 ts2]. cbn [fst] in Hop, Hsp.
  destruct (String.eqb (entryType entry) "navigation"); cbn [transaction_].
  { split; [apply addNavigationSpans_op|]. eexists. apply addNavigationSpans_spans. }
  destruct (String.eqb _ "mark" || String.eqb _ "paint" || String.eqb _ "measure");
    cbn [transaction_].
  { split; [apply _startChild_op|]. eexists. apply _startChild_spans. }
  destruct (String.eqb (entryType entry) "resource"); cbn [transaction_].
  { split; assumption. }
  exact Hsame.
Qed.

Lemma forEach_perEntry_transaction (timeOrigin_ : number)
    (entryScriptSrc : option string) (l : list PerformanceEntry) (p : Pass) :
  tx_op (transaction_ (fold_left (perEntry env timeOrigin_ entryScriptSrc) l p))
  = tx_op (transaction_ p)
  /\ exists added,
      tx_spans (transaction_ (fold_left (perEntry env timeOrigin_ entryScriptSrc) l p))
      = tx_spans (transaction_ p) ++ added.
Proof.
  revert p. induction l as [|e l IH]; intros p; cbn [fold_left].
  - split; [reflexivity|]. exists []. symmetry. apply app_nil_r.
  - destruct (IH (perEntry env timeOrigin_ entryScriptSrc p e)) as [-> [a2 ->]].
    destruct (perEntry_transaction timeOrigin_ entryScriptSrc p e) as [-> [a1 ->]].
    split; [reflexivity|]. exists (a1 ++ a2). symmetry. apply app_assoc.
Qed.

Lemma perEntry_measure (timeOrigin_ : number)
    (entryScriptSrc : option string) (p : Pass) (entry : PerformanceEntry) :
  is_measure entry ->
  str_is (tx_op (transaction_ p)) "navigation" = false ->
  tx_spans (transaction_ (perEntry env timeOrigin_ entryScriptSrc p entry))
  = tx_spans (transaction_ p) ++ [measure_span timeOrigin_ entry].
Proof.
  intros Ht Hop. unfold perEntry. rewrite Hop. cbn [andb].
  unfold dispatch, addMeasureSpans.
  destruct Ht as [Ht | [Ht | Ht]]; rewrite Ht; cbn [String.eqb Ascii.eqb Bool.eqb orb];
    cbn [transaction_]; rewrite _startChild_spans, <- Ht; reflexivity.
Qed.

Lemma forEach_perEntry_measure (timeOrigin_ : number)
    (entryScriptSrc : option string) (l : list PerformanceEntry) (p : Pass)
    (entry : PerformanceEntry) :
  entry ∈ l -> is_measure entry ->
  str_is (tx_op (transaction_ p)) "navigation" = false ->
  measure_span timeOrigin_ entry
    ∈ tx_spans (transaction_ (fold_left (perEntry env timeOrigin_ entryScriptSrc) l p)).
Proof.
  intros Hin Ht. revert p.
  induction l as [|e l IH]; intros p Hop; [apply elem_of_nil in Hin; destruct Hin|].
  cbn [fold_left]. apply elem_of_cons in Hin. destruct Hin as [<- | Hin].
  - destruct (forEach_perEntry_transaction timeOrigin_ entryScriptSrc l
                (perEntry env timeOrigin_ entryScriptSrc p entry)) as [_ [added ->]].
    rewrite perEntry_measure by assumption.
    rewrite !elem_of_app. left. right. apply list_elem_of_here.
  - apply IH; [exact Hin|].
    destruct (perEntry_transaction timeOrigin_ entryScriptSrc p e) as [-> _].
    exact Hop.
Qed.

(** A pass for a transaction that is not a navigation turns every mark,
    paint and measure entry at an index from the cursor on into a span. *)
Lemma addPerformanceEntries_considers (mi : MetricsInstrumentation) (h : Host)
    (transaction : Transaction) (i : nat) (entry : PerformanceEntry) :
  available env = true ->
  str_is (tx_op transaction) "navigation" = false ->
  _performanceCursor mi <= i ->
  timeline h !! i = Some entry ->
  is_measure entry ->
  measure_span (msToSec (timeOrigin env)) entry
    ∈ tx_spans (snd (addPerformanceEntries env mi h transaction)).
Proof.
  intros Ha Hop Hi Hl Ht. unfold available in Ha. apply andb_prop in Ha as [Hp Hg].
  rewrite (addPerformanceEntries_spans env mi h transaction Hp Hg). cbv zeta.
  assert (Hin : entry ∈ drop (_performanceCursor mi) (timeline h)).
  { apply list_elem_of_lookup. exists (i - _performanceCursor mi).
    rewrite lookup_drop. replace (_ + _) with i by lia. exact Hl. }
  match goal with
  | |- context [fold_left (perEntry env ?t ?sc) ?l ?p] =>
      pose proof (forEach_perEntry_measure t sc l p entry Hin Ht Hop) as Hspan;
      destruct (entryScriptStartTimestamp (fold_left (perEntry env t sc) l p)),
               (tracingInitMarkStartTime (fold_left (perEntry env t sc) l p))
  end; try exact Hspan.
  apply elem_of_app. left. exact Hspan.
Qed.

(** ** Cursor monotonicity *)

(** The measurement store does not steer the callback: two passes that
    agree on the transaction and on the two locals still agree on them
    after the callback has run. *)
Lemma perEntry_store_irrelevant (timeOrigin_ : number) (entryScriptSrc : option string)
    (p q : Pass) (entry : PerformanceEntry) :
  transaction_ p = transaction_ q ->
  entryScriptStartTimestamp p = entryScriptStartTimestamp q ->
  tracingInitMarkStartTime p = tracingInitMarkStartTime q ->
  transaction_ (perEntry env timeOrigin_ entryScriptSrc p entry)
  = transaction_ (perEntry env timeOrigin_ entryScriptSrc q entry)
  /\ entryScriptStartTimestamp (perEntry env timeOrigin_ entryScriptSrc p entry)
     = entryScriptStartTimestamp (perEntry env timeOrigin_ entryScriptSrc q entry)
  /\ tracingInitMarkStartTime (perEntry env timeOrigin_ entryScriptSrc p entry)
     = tracingInitMarkStartTime (perEntry env timeOrigin_ entryScriptSrc q entry).
Proof.
  destruct p as [t m a b], q as [t' m' a' b']. cbn. intros <- <- <-.
  unfold perEntry, dispatch. cbn [transaction_ measurements_ entryScriptStartTimestamp
                                  tracingInitMarkStartTime].
  destruct (addMeasureSpans _ _ _ _ _) as [t1 ts1].
  destruct (addResourceSpans _ _ _ _ _ _) as [t2 ts2].
  repeat match goal with
         | |- context [if ?c then _ else _] => destruct c
         end;
    repeat split; reflexivity.
Qed.

Lemma forEach_perEntry_store_irrelevant (timeOrigin_ : number)
    (entryScriptSrc : option string) (l : list PerformanceEntry) (p q : Pass) :
  transaction_ p = transaction_ q ->
  entryScriptStartTimestamp p = entryScriptStartTimestamp q ->
  tracingInitMarkStartTime p = tracingInitMarkStartTime q ->
  transaction_ (fold_left (perEntry env timeOrigin_ entryScriptSrc) l p)
  = transaction_ (fold_left (perEntry env timeOrigin_ entryScriptSrc) l q)
  /\ entryScriptStartTimestamp (fold_left (perEntry env timeOrigin_ entryScriptSrc) l p)
     = entryScriptStartTimestamp (fold_left (perEntry env timeOrigin_ entryScriptSrc) l q)
  /\ tracingInitMarkStartTime (fold_left (perEntry env timeOrigin_ entryScriptSrc) l p)
     = tracingInitMarkStartTime (fold_left (perEntry env timeOrigin_ entryScriptSrc) l q).
Proof.
  revert p q. induction l as [|e l IH]; intros p q H1 H2 H3; cbn [fold_left].
  - repeat split; assumption.
  - destruct (perEntry_store_irrelevant timeOrigin_ entryScriptSrc p q e H1 H2 H3)
      as (G1 & G2 & G3).
    apply IH; assumption.
Qed.

(** A call that gets past the gatekeeper runs its callback on the entries
    from the cursor on, once each and in order, and on no other entry:
    what it returns is, up to the attached measurements, the
    transaction that this gives. *)
Lemma addPerformanceEntries_on_slice (mi : MetricsInstrumentation) (h : Host)
    (transaction : Transaction) :
  available env = true ->
  same_outcome (snd (addPerformanceEntries env mi h transaction))
    (transaction_of_slice env transaction (drop (_performanceCursor mi) (timeline h))).
Proof.
  intros Ha. unfold available in Ha. apply andb_prop in Ha as [Hp Hg].
  unfold addPerformanceEntries, transaction_of_slice.
  change (match scripts env with Some l => findEntryScript l | None => None end)
    with (entryScriptSrc_of env).
  rewrite Hp, Hg. cbn [negb orb].
  assert (Hf :
    _performanceCursor
      (fst (if str_is (tx_op transaction) "pageload"
            then forceLCP env mi h else (mi, h))) = _performanceCursor mi
    /\ timeline
         (snd (if str_is (tx_op transaction) "pageload"
               then forceLCP env mi h else (mi, h))) = timeline h).
  { destruct (str_is (tx_op transaction) "pageload"); [|split; reflexivity].
    split; [apply forceLCP_cursor | apply forceLCP_timeline]. }
  destruct (if str_is (tx_op transaction) "pageload"
            then forceLCP env mi h else (mi, h)) as [mi1 h1].
  cbn [fst snd] in Hf. destruct Hf as [-> ->]. cbv zeta.
  match goal with
  | |- context [fold_left ?f ?l {| transaction_ := transaction;
                                   measurements_ := _measurements mi1;
                                   entryScriptStartTimestamp := None;
                                   tracingInitMarkStartTime := None |}] =>
      destruct (forEach_perEntry_store_irrelevant
                  (msToSec (timeOrigin env))
                  (entryScriptSrc_of env)
                  l
                  {| transaction_ := transaction;
                     measurements_ := _measurements mi1;
                     entryScriptStartTimestamp := None;
                     tracingInitMarkStartTime := None |}
                  {| transaction_ := transaction;
                     measurements_ := ∅;
                     entryScriptStartTimestamp := None;
                     tracingInitMarkStartTime := None |})
        as (E1 & E2 & E3); [reflexivity | reflexivity | reflexivity |]
  end.
  rewrite E1, E2, E3. cbn [snd].
  match goal with
  | |- same_outcome (if ?c then _ else _) _ => destruct c
  end; unfold same_outcome; split; [|split| |split]; reflexivity.
Qed.

(** The timeline is append-only: an event leaves the entries that are
    there where they are. *)
Lemma step_timeline (s : Session) (ev : Event) :
  timeline (host (step env s ev))
  = timeline (host s) ++ match ev with Append entry => [entry] | _ => [] end.
Proof.
  destruct ev as [e | e | | e | | t st | tx]; cbn [step]; rewrite ?app_nil_r.
  - reflexivity.
  - destruct (lcpObserving (host s)); reflexivity.
  - unfold lcpCallback, drainLCP. destruct (lcpObserving (host s)); reflexivity.
  - destruct (fidObserving (host s)); reflexivity.
  - unfold fidCallback. destruct (fidObserving (host s)); [|reflexivity].
    pose proof (forEach_updateFID_cursor_timeline (timeOrigin env) (fidRecords (host s))
                  (instr s, set_fidRecords [] (host s))) as [_ H2].
    destruct (fold_left _ _ _) as [mi' h']. exact H2.
  - unfold visibilityChange.
    cbn [firstHiddenListener set_visibilityState].
    destruct (firstHiddenListener (host s));
      cbn [lcpListener set_firstHiddenListener set_visibilityState];
      destruct (lcpListener (host s)); try reflexivity.
    + pose proof (lcpVisibilityListener_cursor_timeline
                    (firstHiddenVisibilityListener t (instr s))
                    (set_lcpListener false (set_firstHiddenListener false
                       (set_visibilityState st (host s))))) as [_ H2].
      destruct (lcpVisibilityListener _ _ _) as [mi' h']. exact H2.
    + pose proof (lcpVisibilityListener_cursor_timeline (instr s)
                    (set_lcpListener false (set_visibilityState st (host s)))) as [_ H2].
      destruct (lcpVisibilityListener _ _ _) as [mi' h']. exact H2.
  - unfold addPerformanceEntries.
    destruct (negb (hasPerformance env) || negb (hasGetEntries env)); [reflexivity|].
    pose proof (forceLCP_timeline env (instr s) (host s)) as Hf.
    destruct (if str_is (tx_op tx) "pageload" then forceLCP env (instr s) (host s)
              else (instr s, host s)) as [mi' h'] eqn:E.
    cbn [host]. destruct (str_is (tx_op tx) "pageload").
    + rewrite E in Hf. exact Hf.
    + injection E as <- <-. reflexivity.
Qed.

Lemma run_timeline (evs : list Event) (s : Session) :
  exists added, timeline (host (run env s evs)) = timeline (host s) ++ added.
Proof.
  revert s. induction evs as [|ev evs IH]; intros s.
  - exists []. symmetry. apply app_nil_r.
  - destruct (IH (step env s ev)) as [added H].
    change (run env s (ev :: evs)) with (run env (step env s ev) evs).
    rewrite H, step_timeline, <- app_assoc. eexists. reflexivity.
Qed.

Lemma between_prefix (c : nat) (l added : list PerformanceEntry) :
  between (c, length l) (l ++ added) = drop c l.
Proof.
  unfold between. cbn [fst snd].
  destruct (decide (c <= length l)) as [H | H].
  - rewrite drop_app_le by exact H. apply take_app_length'. rewrite length_drop. reflexivity.
  - replace (length l - c) with 0 by lia. rewrite (drop_ge l c) by lia. reflexivity.
Qed.

(** A step returns a transaction only when it is a call of
    [addPerformanceEntries]. *)
Lemma step_finished (s : Session) (ev : Event) :
  finished (step env s ev)
  = finished s ++ match ev with
                  | AddPerformanceEntries transaction =>
                      [snd (addPerformanceEntries env (instr s) (host s) transaction)]
                  | _ => []
                  end.
Proof.
  destruct ev as [e | e | | e | | t st | tx]; cbn [step]; rewrite ?app_nil_r;
    try reflexivity.
  - destruct (lcpCallback env (instr s) (host s)); reflexivity.
  - destruct (fidCallback env (instr s) (host s)); reflexivity.
  - destruct (visibilityChange env t st (instr s) (host s)); reflexivity.
  - destruct (addPerformanceEntries env (instr s) (host s) tx) as [[mi' h'] tx'].
    reflexivity.
Qed.

(** The transactions a run returns, call by call: each one is what the
    callback gives on the entries between the cursor and the length
    recorded for that call. *)
Lemma run_ran_on (evs : list Event) (s : Session) :
  available env = true ->
  exists returned,
    finished (run env s evs) = finished s ++ returned
    /\ Forall2 (ran_on env (timeline (host (run env s evs)))) returned
               (zip (calls env s evs) (passed evs)).
Proof.
  intros Ha. revert s. induction evs as [|ev evs IH]; intros s.
  - exists []. split; [symmetry; apply app_nil_r | constructor].
  - destruct (IH (step env s ev)) as (returned & Hfin & Hall).
    change (run env s (ev :: evs)) with (run env (step env s ev) evs).
    rewrite step_finished in Hfin. rewrite calls_cons.
    destruct ev as [e | e | | e | | t st | tx]; cbn [passed]; cbv beta iota;
      cbv beta iota in Hfin; rewrite ?app_nil_r in Hfin;
      try (exists returned; split; [exact Hfin | exact Hall]).
    rewrite Ha. cbn [zip zip_with].
    pose proof (addPerformanceEntries_on_slice (instr s) (host s) tx Ha) as Hcall.
    destruct (run_timeline evs (step env s (AddPerformanceEntries tx))) as [added Hadded].
    rewrite step_timeline, app_nil_r in Hadded.
    exists (snd (addPerformanceEntries env (instr s) (host s) tx) :: returned). split.
    + rewrite Hfin, <- app_assoc. reflexivity.
    + constructor; [|exact Hall].
      unfold ran_on, cursor_of, entries_of. cbn [fst snd].
      rewrite Hadded, between_prefix. exact Hcall.
Qed.

(** Without the performance API no call gets past the gatekeeper: every
    transaction comes back as it was passed. *)
Lemma run_unavailable (evs : list Event) (s : Session) :
  available env = false ->
  calls env s evs = [] /\ finished (run env s evs) = finished s ++ passed evs.
Proof.
  intros Ha. revert s. induction evs as [|ev evs IH]; intros s.
  - split; [reflexivity | symmetry; apply app_nil_r].
  - destruct (IH (step env s ev)) as [Hc Hf].
    change (run env s (ev :: evs)) with (run env (step env s ev) evs).
    rewrite calls_cons, Hc, Hf, step_finished.
    destruct ev as [e | e | | e | | t st | tx]; cbn [passed]; cbv beta iota;
      rewrite ?app_nil_r; try (split; reflexivity).
    rewrite Ha. unfold addPerformanceEntries. rewrite available_negb, Ha.
    cbn [negb snd]. rewrite <- app_assoc. split; reflexivity.
Qed.

(** No call sees more entries than the run ends with. *)
Lemma calls_upper (evs : list Event) (s : Session) :
  Forall (fun cn => snd cn <= entries_of (run env s evs)) (calls env s evs).
Proof.
  revert s. induction evs as [|ev evs IH]; intros s; [constructor|].
  change (run env s (ev :: evs)) with (run env (step env s ev) evs).
  rewrite calls_cons. destruct ev as [e | e | | e | | t st | tx]; try apply IH.
  destruct (available env); [|apply IH]. constructor; [|apply IH].
  cbn [snd]. destruct (run_timeline evs (step env s (AddPerformanceEntries tx)))
    as [added H].
  unfold entries_of. rewrite H, step_timeline, app_nil_r, length_app. lia.
Qed.

Lemma start_finished (now : number) (h : Host) : finished (start env now h) = [].
Proof. unfold start. destruct (constructor env now h). reflexivity. Qed.

(** C1, as the claim states it, fails.  After construction the timeline
    holds the [sentry-tracing-init] mark; the page then adds a mark of
    its own.  The first pass runs on both entries and leaves the cursor
    at [max(2 - 1, 0) = 1]; the second pass runs on the entry at index
    [1] again: the page's mark is turned into a span twice, once on
    each of the two transactions. *)
Lemma last_entry_dispatched_twice :
  let mark_ := {| name := "app-ready"; entryType := "mark";
                  startTime := of_Z 30; duration := zero;
                  initiatorType := None; props := ∅ |} in
  let s0 := start browser (of_Z 20) (page [] "visible" [] []) in
  let evs := [Append mark_; AddPerformanceEntries pageload; AddPerformanceEntries pageload] in
  let init_span :=
    measure_span (msToSec (timeOrigin browser)) (tracing_init_mark (of_Z 20)) in
  let mark_span := measure_span (msToSec (timeOrigin browser)) mark_ in
  timeline (host (run browser s0 evs)) = [tracing_init_mark (of_Z 20); mark_]
  /\ calls browser s0 evs = [(0, 2); (1, 2)]
  /\ dispatched browser s0 evs = [0; 1; 1]
  /\ ~ NoDup (dispatched browser s0 evs)
  /\ map tx_spans (finished (run browser s0 evs)) = [[init_span; mark_span]; [mark_span]].
Proof.
  intros mark_ s0 evs init_span mark_span.
  assert (Hd : dispatched browser s0 evs = [0; 1; 1]) by reflexivity.
  split; [reflexivity|]. split; [reflexivity|]. split; [exact Hd|]. split; [|reflexivity].
  rewrite Hd. intros Hnd. apply NoDup_cons in Hnd as [_ Hnd].
  apply NoDup_cons in Hnd as [Hnotin _].
  apply Hnotin, list_elem_of_here.
Qed.

(** C1 (amended): in every session the cursor never exceeds the number
    of entries recorded.  Every call of [addPerformanceEntries] that
    gets past the gatekeeper runs its callback on exactly the timeline
    entries at the indices from its cursor up to the length of the
    timeline at that moment, once each and in order, and on no other
    entry: the transaction it returns is the one this gives (without
    the performance API every transaction comes back untouched).  Each
    call starts at the last entry the call before it saw, so that entry
    is processed again; and an index that lies in the range of two
    calls is the last index of the timeline at the earlier call: no
    other entry is processed again.  In particular every mark, paint
    or measure entry at an index from the cursor on becomes a span of
    a transaction that is not a navigation. *)
Theorem cursor_reprocesses_only_last (now : number) (h : Host)
    (evs : list Event) :
  let s0 := start env now h in
  let final := run env s0 evs in
  let cs := calls env s0 evs in
  cursor_of final <= entries_of final
  /\ (available env = true ->
      Forall2 (ran_on env (timeline (host final))) (finished final) (zip cs (passed evs)))
  /\ (available env = false -> finished final = passed evs)
  /\ Forall (fun cn => fst cn <= snd cn <= entries_of final) cs
  /\ (forall j a b,
         cs !! j = Some a -> cs !! S j = Some b -> fst b = Nat.pred (snd a))
  /\ (forall j k a b i,
         j < k -> cs !! j = Some a -> cs !! k = Some b ->
         fst a <= i < snd a -> fst b <= i < snd b ->
         S i = snd a)
  /\ (forall mi h transaction i entry,
         available env = true ->
         str_is (tx_op transaction) "navigation" = false ->
         _performanceCursor mi <= i ->
         timeline h !! i = Some entry ->
         is_measure entry ->
         measure_span (msToSec (timeOrigin env)) entry
         ∈ tx_spans (snd (addPerformanceEntries env mi h transaction))).
Proof.
  intros s0 final cs.
  pose proof (start_cursor_inv now h) as H0. fold s0 in H0.
  split; [|split; [|split; [|split; [|split; [|split]]]]].
  - pose proof (run_cursor_inv evs s0 H0) as H. fold final in H.
    unfold cursor_inv in H. lia.
  - intros Ha. destruct (run_ran_on evs s0 Ha) as (returned & Hfin & Hall).
    fold final in Hfin, Hall. subst s0. rewrite start_finished in Hfin.
    cbn [app] in Hfin. rewrite Hfin. exact Hall.
  - intros Ha. destruct (run_unavailable evs s0 Ha) as [_ Hfin].
    fold final in Hfin. subst s0. rewrite start_finished in Hfin. exact Hfin.
  - apply Forall_forall. intros cn Hin.
    pose proof (proj1 (Forall_forall _ _) (calls_lower evs s0 H0) cn Hin) as (_ & H1 & _).
    pose proof (proj1 (Forall_forall _ _) (calls_upper evs s0) cn Hin) as H2.
    cbv beta in H2. fold final in H2. lia.
  - intros j a b. apply calls_consecutive.
  - intros j k a b i Hjk Hj Hk Ha Hb.
    pose proof (ForallOrdPairs_lookup _ _ (calls_ordered evs s0 H0)
                  j k a b Hjk Hj Hk) as [H1 H2].
    lia.
  - intros mi h' transaction i entry. apply addPerformanceEntries_considers.
Qed.

End Cursor.

Lemma cursor_reprocesses_only_last_witness :
  let mark_ := {| name := "app-ready"; entryType := "mark";
                  startTime := of_Z 30; duration := zero;
                  initiatorType := None; props := ∅ |} in
  let paint_ := {| name := "first-paint"; entryType := "paint";
                   startTime := of_Z 40; duration := zero;
                   initiatorType := None; props := ∅ |} in
  let init_ := tracing_init_mark (of_Z 20) in
  let evs := [Append mark_; AddPerformanceEntries pageload;
              Append paint_; AddPerformanceEntries pageload] in
  let s0 := start browser (of_Z 20) (page [] "visible" [] []) in
  calls browser s0 evs = [(0, 2); (1, 3)]
  /\ Forall2 (ran_on browser [init_; mark_; paint_])
             (finished (run browser s0 evs))
             [((0, 2), pageload); ((1, 3), pageload)]
  /\ (forall i, 0 <= i < 2 -> 1 <= i < 3 -> S i = 2).
Proof.
  intros mark_ paint_ init_ evs s0.
  pose proof (cursor_reprocesses_only_last browser (of_Z 20)
                (page [] "visible" [] []) evs) as (_ & Hran & _ & _ & _ & Hshared & _).
  split; [reflexivity|]. split.
  - exact (Hran eq_refl).
  - intros i H1 H2.
    exact (Hshared 0 1 (0, 2) (1, 3) i (le_n 1) eq_refl eq_refl H1 H2).
Defined.

(** * Further properties of the code *)

(** ** What a pass does to the transaction *)

Section TransactionInvariant.

(** A property of transactions that [_startChild] keeps is kept by every
    span synthesis function, because they change the transaction through
    [_startChild] only. *)
Variable P : Transaction -> Prop.
Hypothesis P_startChild : forall transaction ctx, P transaction -> P (_startChild transaction ctx).

Lemma addPerformanceNavigationTiming_keeps (transaction : Transaction)
    (entry : PerformanceEntry) (event : string) (timeOrigin_ : number) :
  P transaction -> P (addPerformanceNavigationTiming transaction entry event timeOrigin_).
Proof.
  intros H. unfold addPerformanceNavigationTiming.
  destruct (negb _ || negb _); [exact H | apply P_startChild, H].
Qed.

Lemma addNavigationSpans_keeps (transaction : Transaction) (entry : PerformanceEntry)
    (timeOrigin_ : number) :
  P transaction -> P (addNavigationSpans transaction entry timeOrigin_).
Proof.
  intros H. unfold addNavigationSpans, addRequest.
  do 2 apply P_startChild. do 5 apply addPerformanceNavigationTiming_keeps. exact H.
Qed.

Lemma addResourceSpans_keeps (transaction : Transaction) (entry : PerformanceEntry)
    (resourceName : string) (startTime_ duration_ timeOrigin_ : number) :
  P transaction ->
  P (fst (addResourceSpans transaction entry resourceName startTime_ duration_ timeOrigin_)).
Proof.
  intros H. unfold addResourceSpans.
  destruct (str_is _ _ || str_is _ _); [exact H | apply P_startChild, H].
Qed.

Lemma perEntry_keeps (env : Env) (timeOrigin_ : number) (entryScriptSrc : option string)
    (p : Pass) (entry : PerformanceEntry) :
  P (transaction_ p) -> P (transaction_ (perEntry env timeOrigin_ entryScriptSrc p entry)).
Proof.
  intros H. unfold perEntry. destruct (str_is _ _ && lt _ _); [exact H|].
  unfold dispatch, addMeasureSpans.
  pose proof (addResourceSpans_keeps (transaction_ p) entry
                (replace (name entry) (location_origin env) "")
                (msToSec (startTime entry)) (msToSec (duration entry)) timeOrigin_ H) as Hr.
  destruct (addResourceSpans _ _ _ _ _ _) as [t2 ts2]. cbn [fst] in Hr.
  destruct (String.eqb (entryType entry) "navigation"); cbn [transaction_].
  { apply addNavigationSpans_keeps, H. }
  destruct (String.eqb _ "mark" || String.eqb _ "paint" || String.eqb _ "measure");
    cbn [transaction_].
  { apply P_startChild, H. }
  destruct (String.eqb (entryType entry) "resource"); cbn [transaction_]; assumption.
Qed.

Lemma forEach_perEntry_keeps (env : Env) (timeOrigin_ : number)
    (entryScriptSrc : option string) (l : list PerformanceEntry) (p : Pass) :
  P (transaction_ p) ->
  P (transaction_ (fold_left (perEntry env timeOrigin_ entryScriptSrc) l p)).
Proof.
  revert p. induction l as [|e l IH]; intros p H; cbn [fold_left]; [exact H|].
  apply IH, perEntry_keeps, H.
Qed.

(** The transaction a pass returns is one [P] holds of, with the
    measurement store attached when the performance API is there and
    the operation is [pageload]. *)
Lemma addPerformanceEntries_keeps (env : Env) (mi : MetricsInstrumentation) (h : Host)
    (transaction : Transaction) :
  P transaction ->
  exists t,
    P t
    /\ snd (addPerformanceEntries env mi h transaction)
       = if hasPerformance env && hasGetEntries env && str_is (tx_op t) "pageload"
         then setMeasurements t
                (_measurements (fst (fst (addPerformanceEntries env mi h transaction))))
         else t.
Proof.
  intros H. unfold addPerformanceEntries.
  destruct (hasPerformance env), (hasGetEntries env); cbn [negb orb andb];
    try (exists transaction; split; [exact H | reflexivity]).
  destruct (if str_is (tx_op transaction) "pageload"
            then forceLCP env mi h else (mi, h)) as [mi' h'].
  match goal with
  | |- context [fold_left (perEntry env ?t ?sc) ?l ?p] =>
      pose proof (forEach_perEntry_keeps env t sc l p H) as Hp;
      set (pass := fold_left (perEntry env t sc) l p) in *
  end.
  set (t := match entryScriptStartTimestamp pass, tracingInitMarkStartTime pass with
            | Some entryScriptStart, Some tracingInitMark =>
                _startChild (transaction_ pass)
                  {| description := Some "evaluation";
                     endTimestamp := Some tracingInitMark;
                     op := Some "script";
                     startTimestamp := Some entryScriptStart;
                     data := None |}
            | _, _ => transaction_ pass
            end).
  assert (Ht : P t).
  { subst t. destruct (entryScriptStartTimestamp pass), (tracingInitMarkStartTime pass);
      try exact Hp. apply P_startChild, Hp. }
  exists t. split; [exact Ht|].
  destruct (str_is (tx_op t) "pageload"); reflexivity.
Qed.

End TransactionInvariant.

(** ** The start timestamp of the transaction *)

Lemma not_later_trans (a b c : number) : not_later a b -> not_later b c -> not_later a c.
Proof.
  intros [-> | H1] [-> | H2].
  - left. reflexivity.
  - right. exact H2.
  - right. exact H1.
  - right. exact (lt_trans _ _ _ H1 H2).
Qed.

Lemma _startChild_not_later (transaction : Transaction) (ctx : SpanContext) :
  not_later (tx_startTimestamp (_startChild transaction ctx))
            (tx_startTimestamp transaction).
Proof.
  unfold _startChild. destruct (startTimestamp ctx) as [ts|]; [|left; reflexivity].
  destruct (truthy ts); cbn [andb]; [|left; reflexivity].
  unfold gt. destruct (lt ts (tx_startTimestamp transaction)) eqn:E.
  - right. exact E.
  - left. reflexivity.
Qed.

Lemma _startChild_starts_within (transaction : Transaction) (ctx : SpanContext) :
  starts_within (_startChild transaction ctx) ctx.
Proof.
  intros ts Hts Ht. unfold _startChild. rewrite Hts, Ht. cbn [andb]. unfold gt.
  destruct (lt ts (tx_startTimestamp transaction)) eqn:E; cbn [tx_startTimestamp startChild].
  - destruct (lt ts ts) eqn:E'; [|reflexivity].
    rewrite (lt_asym _ _ E') in E'. discriminate E'.
  - exact E.
Qed.

Lemma starts_within_earlier (transaction transaction' : Transaction) (ctx : SpanContext) :
  not_later (tx_startTimestamp transaction') (tx_startTimestamp transaction) ->
  starts_within transaction ctx -> starts_within transaction' ctx.
Proof.
  intros [Heq | Hlt] H ts Hts Ht.
  - rewrite Heq. exact (H ts Hts Ht).
  - destruct (lt ts (tx_startTimestamp transaction')) eqn:E; [|reflexivity].
    specialize (H ts Hts Ht). rewrite (lt_trans _ _ _ E Hlt) in H. discriminate H.
Qed.

Lemma _startChild_children (transaction : Transaction) (ctx : SpanContext) :
  Forall (starts_within transaction) (tx_spans transaction) ->
  Forall (starts_within (_startChild transaction ctx))
         (tx_spans (_startChild transaction ctx)).
Proof.
  intros H. rewrite _startChild_spans. apply Forall_app. split.
  - eapply Forall_impl; [exact H|]. intros c Hc.
    exact (starts_within_earlier _ _ c (_startChild_not_later transaction ctx) Hc).
  - constructor; [apply _startChild_starts_within | constructor].
Qed.

Lemma _startChild_extends (transaction0 transaction : Transaction) (ctx : SpanContext) :
  tx_op transaction = tx_op transaction0
  /\ (exists added, tx_spans transaction = tx_spans transaction0 ++ added) ->
  tx_op (_startChild transaction ctx) = tx_op transaction0
  /\ (exists added, tx_spans (_startChild transaction ctx) = tx_spans transaction0 ++ added).
Proof.
  intros [Hop [added Hsp]]. split.
  - rewrite _startChild_op. exact Hop.
  - exists (added ++ [ctx]). rewrite _startChild_spans, Hsp, app_assoc. reflexivity.
Qed.

(** X1: a pass never changes the operation of the transaction and never
    removes or reorders its child spans: the spans it returns are the
    spans it was given followed by the ones it added. *)
Theorem pass_keeps_op_and_spans (env : Env) (mi : MetricsInstrumentation) (h : Host)
    (transaction : Transaction) :
  let transaction' := snd (addPerformanceEntries env mi h transaction) in
  tx_op transaction' = tx_op transaction
  /\ exists added, tx_spans transaction' = tx_spans transaction ++ added.
Proof.
  intros transaction'. subst transaction'.
  destruct (addPerformanceEntries_keeps
              (fun t => tx_op t = tx_op transaction
                        /\ exists added, tx_spans t = tx_spans transaction ++ added)
              (_startChild_extends transaction)
              env mi h transaction
              (conj eq_refl (ex_intro _ [] (eq_sym (app_nil_r _)))))
    as (t & [Hop Hsp] & ->).
  destruct (_ && _ && _); exact (conj Hop Hsp).
Qed.

(** X2: a pass moves the start timestamp of the transaction earlier or
    leaves it where it is; it never moves it later. *)
Theorem pass_start_not_later (env : Env) (mi : MetricsInstrumentation) (h : Host)
    (transaction : Transaction) :
  not_later (tx_startTimestamp (snd (addPerformanceEntries env mi h transaction)))
            (tx_startTimestamp transaction).
Proof.
  destruct (addPerformanceEntries_keeps
              (fun t => not_later (tx_startTimestamp t) (tx_startTimestamp transaction))
              (fun t ctx Ht => not_later_trans _ _ _ (_startChild_not_later t ctx) Ht)
              env mi h transaction (or_introl eq_refl))
    as (t & Ht & ->).
  destruct (_ && _ && _); exact Ht.
Qed.

(** X3: children do not start before their parent.  If no child span of
    the transaction with a truthy start timestamp starts before the
    transaction, the same holds after a pass, for the spans it was given
    and for the spans the pass added. *)
Theorem pass_children_start_within (env : Env) (mi : MetricsInstrumentation) (h : Host)
    (transaction : Transaction) :
  Forall (starts_within transaction) (tx_spans transaction) ->
  let transaction' := snd (addPerformanceEntries env mi h transaction) in
  Forall (starts_within transaction') (tx_spans transaction').
Proof.
  intros H transaction'. subst transaction'.
  destruct (addPerformanceEntries_keeps
              (fun t => Forall (starts_within t) (tx_spans t))
              _startChild_children env mi h transaction H)
    as (t & Ht & ->).
  destruct (_ && _ && _); exact Ht.
Qed.

Lemma pass_children_start_within_witness :
  let s0 := start browser (of_Z 20) (page [scenario_B_entry] "visible" [] []) in
  let transaction := empty_transaction "pageload" (of_Z 2000) in
  let transaction' := snd (addPerformanceEntries browser (instr s0) (host s0) transaction) in
  Forall (starts_within transaction') (tx_spans transaction').
Proof.
  intros s0 transaction.
  apply (pass_children_start_within browser (instr s0) (host s0) transaction).
  constructor.
Defined.

Lemma setMeasurements_keeps (transaction0 transaction : Transaction) (ctx : SpanContext) :
  tx_measurements transaction = tx_measurements transaction0
  /\ tx_op transaction = tx_op transaction0 ->
  tx_measurements (_startChild transaction ctx) = tx_measurements transaction0
  /\ tx_op (_startChild transaction ctx) = tx_op transaction0.
Proof.
  intros [Hm Hop]. rewrite _startChild_op. split; [|exact Hop].
  unfold _startChild. destruct (startTimestamp ctx) as [ts|]; [|exact Hm].
  destruct (truthy ts && gt (tx_startTimestamp transaction) ts); exact Hm.
Qed.

(** X4: the measurement store is attached to page-load transactions
    only.  When the performance API is there and the operation is
    [pageload], the transaction receives the store as the pass leaves
    it (after the force-flush and the paint measurements of this pass);
    in every other case the measurements of the transaction are not
    touched. *)
Theorem measurements_attached_to_pageload (env : Env) (mi : MetricsInstrumentation)
    (h : Host) (transaction : Transaction) :
  let r := addPerformanceEntries env mi h transaction in
  tx_measurements (snd r)
  = if hasPerformance env && hasGetEntries env && str_is (tx_op transaction) "pageload"
    then Some (_measurements (fst (fst r)))
    else tx_measurements transaction.
Proof.
  intros r. subst r.
  destruct (addPerformanceEntries_keeps
              (fun t => tx_measurements t = tx_measurements transaction
                        /\ tx_op t = tx_op transaction)
              (setMeasurements_keeps transaction) env mi h transaction
              (conj eq_refl eq_refl))
    as (t & [Hm Hop] & ->).
  rewrite Hop. destruct (_ && _ && _); [reflexivity | exact Hm].
Qed.

(** ** What each callback leaves alone *)

Lemma measure_other (key k : string) (v : number) (mi : MetricsInstrumentation) :
  k <> key -> _measurements (measure key v mi) !! k = _measurements mi !! k.
Proof. intros H. unfold measure. cbn. apply lookup_insert_ne. congruence. Qed.

Lemma measure_is_Some (key k : string) (v : number) (mi : MetricsInstrumentation) :
  is_Some (_measurements mi !! k) -> is_Some (_measurements (measure key v mi) !! k).
Proof.
  intros H. unfold measure. cbn. rewrite lookup_insert_is_Some.
  destruct (decide (key = k)); [left; assumption | right; split; assumption].
Qed.

(** [updateLCP] writes the two LCP keys and sets the final flag, nothing
    else. *)
Lemma updateLCP_frame (t : number) (mi : MetricsInstrumentation) (entry : PerformanceEntry) :
  let mi' := updateLCP t mi entry in
  _forceLCP mi' = _forceLCP mi
  /\ (_lcpFinal mi = true -> _lcpFinal mi' = true)
  /\ (forall k, ~ lcp_key k -> _measurements mi' !! k = _measurements mi !! k)
  /\ (forall k, is_Some (_measurements mi !! k) -> is_Some (_measurements mi' !! k)).
Proof.
  unfold updateLCP, lcp_key. destruct (lt _ _); cbn zeta.
  - split; [reflexivity|]. split; [trivial|]. split.
    + intros k Hk. rewrite !measure_other; [reflexivity | tauto | tauto].
    + intros k Hk. do 2 apply measure_is_Some. exact Hk.
  - repeat split; trivial.
Qed.

Lemma forEach_updateLCP_frame (t : number) (l : list PerformanceEntry)
    (mi : MetricsInstrumentation) :
  let mi' := fold_left (updateLCP t) l mi in
  _forceLCP mi' = _forceLCP mi
  /\ (_lcpFinal mi = true -> _lcpFinal mi' = true)
  /\ (forall k, ~ lcp_key k -> _measurements mi' !! k = _measurements mi !! k)
  /\ (forall k, is_Some (_measurements mi !! k) -> is_Some (_measurements mi' !! k)).
Proof.
  revert mi. induction l as [|e l IH]; intros mi; cbn [fold_left].
  - repeat split; trivial.
  - destruct (IH (updateLCP t mi e)) as (H1 & H2 & H3 & H4).
    destruct (updateLCP_frame t mi e) as (G1 & G2 & G3 & G4).
    cbn zeta in *. split; [congruence|]. split; [auto|]. split.
    + intros k Hk. rewrite H3, G3 by exact Hk. reflexivity.
    + intros k Hk. auto.
Qed.

(** [updateFID] writes the two FID keys and disconnects its observer,
    nothing else. *)
Lemma updateFID_frame (t : number) (st : MetricsInstrumentation * Host)
    (entry : PerformanceEntry) :
  let st' := updateFID t st entry in
  _forceLCP (fst st') = _forceLCP (fst st)
  /\ _lcpFinal (fst st') = _lcpFinal (fst st)
  /\ _firstHiddenTime (fst st') = _firstHiddenTime (fst st)
  /\ lcpObserving (snd st') = lcpObserving (snd st)
  /\ lcpListener (snd st') = lcpListener (snd st)
  /\ firstHiddenListener (snd st') = firstHiddenListener (snd st)
  /\ (fidObserving (snd st) = false -> fidObserving (snd st') = false)
  /\ (forall k, ~ fid_key k ->
                _measurements (fst st') !! k = _measurements (fst st) !! k)
  /\ (forall k, is_Some (_measurements (fst st) !! k) ->
                is_Some (_measurements (fst st') !! k)).
Proof.
  destruct st as [mi h]. unfold updateFID, fid_key. destruct (lt _ _); cbn zeta; cbn [fst snd].
  - do 7 (split; [try reflexivity; trivial|]). split.
    + intros k Hk. rewrite !measure_other; [reflexivity | tauto | tauto].
    + intros k Hk. do 2 apply measure_is_Some. exact Hk.
  - repeat split; trivial.
Qed.

Lemma forEach_updateFID_frame (t : number) (l : list PerformanceEntry)
    (st : MetricsInstrumentation * Host) :
  let st' := fold_left (updateFID t) l st in
  _forceLCP (fst st') = _forceLCP (fst st)
  /\ _lcpFinal (fst st') = _lcpFinal (fst st)
  /\ _firstHiddenTime (fst st') = _firstHiddenTime (fst st)
  /\ lcpObserving (snd st') = lcpObserving (snd st)
  /\ lcpListener (snd st') = lcpListener (snd st)
  /\ firstHiddenListener (snd st') = firstHiddenListener (snd st)
  /\ (fidObserving (snd st) = false -> fidObserving (snd st') = false)
  /\ (forall k, ~ fid_key k ->
                _measurements (fst st') !! k = _measurements (fst st) !! k)
  /\ (forall k, is_Some (_measurements (fst st) !! k) ->
                is_Some (_measurements (fst st') !! k)).
Proof.
  revert st. induction l as [|e l IH]; intros st; cbn [fold_left].
  - repeat split; trivial.
  - destruct (IH (updateFID t st e)) as (H1 & H2 & H3 & H4 & H5 & H6 & H7 & H8 & H9).
    destruct (updateFID_frame t st e) as (G1 & G2 & G3 & G4 & G5 & G6 & G7 & G8 & G9).
    cbn zeta in *.
    do 6 (split; [congruence|]). split; [auto|]. split.
    + intros k Hk. rewrite H8, G8 by exact Hk. reflexivity.
    + intros k Hk. auto.
Qed.

(** The callback of a pass keeps the keys that are there. *)
Lemma perEntry_is_Some (env : Env) (timeOrigin_ : number) (entryScriptSrc : option string)
    (p : Pass) (entry : PerformanceEntry) (k : string) :
  is_Some (measurements_ p !! k) ->
  is_Some (measurements_ (perEntry env timeOrigin_ entryScriptSrc p entry) !! k).
Proof.
  intros H. unfold perEntry, dispatch.
  destruct (addMeasureSpans _ _ _ _ _) as [t1 ts1].
  destruct (addResourceSpans _ _ _ _ _ _) as [t2 ts2].
  repeat match goal with
         | |- context [if ?c then _ else _] => destruct c
         end;
    cbn [measurements_]; rewrite ?lookup_insert_is_Some';
    repeat (try exact H; right).
Qed.

Lemma forEach_perEntry_is_Some (env : Env) (timeOrigin_ : number)
    (entryScriptSrc : option string) (l : list PerformanceEntry) (p : Pass) (k : string) :
  is_Some (measurements_ p !! k) ->
  is_Some (measurements_ (fold_left (perEntry env timeOrigin_ entryScriptSrc) l p) !! k).
Proof.
  revert p. induction l as [|e l IH]; intros p H; cbn [fold_left]; [exact H|].
  apply IH, perEntry_is_Some, H.
Qed.

(** What a pass does to the instrumentation and to the browser: the
    cursor and the measurements change, and the queue of the LCP
    observer when [_forceLCP] drains it. *)
Lemma addPerformanceEntries_frame (env : Env) (mi : MetricsInstrumentation) (h : Host)
    (transaction : Transaction) :
  let mi' := fst (fst (addPerformanceEntries env mi h transaction)) in
  let h' := snd (fst (addPerformanceEntries env mi h transaction)) in
  _forceLCP mi' = _forceLCP mi
  /\ (_lcpFinal mi = true -> _lcpFinal mi' = true)
  /\ _firstHiddenTime mi' = _firstHiddenTime mi
  /\ lcpObserving h' = lcpObserving h
  /\ lcpListener h' = lcpListener h
  /\ fidObserving h' = fidObserving h
  /\ firstHiddenListener h' = firstHiddenListener h
  /\ (forall k, ~ paint_key k -> ~ lcp_key k \/ _forceLCP mi = ForceNoop ->
                _measurements mi' !! k = _measurements mi !! k)
  /\ (forall k, is_Some (_measurements mi !! k) -> is_Some (_measurements mi' !! k)).
Proof.
  unfold addPerformanceEntries.
  destruct (negb (hasPerformance env) || negb (hasGetEntries env)).
  { cbn. repeat split; trivial. }
  assert (Hf :
    let mi1 := fst (if str_is (tx_op transaction) "pageload"
                    then forceLCP env mi h else (mi, h)) in
    let h1 := snd (if str_is (tx_op transaction) "pageload"
                   then forceLCP env mi h else (mi, h)) in
    _forceLCP mi1 = _forceLCP mi
    /\ (_lcpFinal mi = true -> _lcpFinal mi1 = true)
    /\ _firstHiddenTime mi1 = _firstHiddenTime mi
    /\ lcpObserving h1 = lcpObserving h
    /\ lcpListener h1 = lcpListener h
    /\ fidObserving h1 = fidObserving h
    /\ firstHiddenListener h1 = firstHiddenListener h
    /\ (forall k, ~ lcp_key k \/ _forceLCP mi = ForceNoop ->
                  _measurements mi1 !! k = _measurements mi !! k)
    /\ (forall k, is_Some (_measurements mi !! k) -> is_Some (_measurements mi1 !! k))).
  { destruct (str_is (tx_op transaction) "pageload"); [|cbn; repeat split; trivial].
    unfold forceLCP. destruct (_forceLCP mi) eqn:EF; [cbn; repeat split; trivial|].
    destruct (hasTakeRecords env); [|cbn; repeat split; trivial].
    unfold drainLCP. cbn [fst snd]. cbn zeta.
    destruct (forEach_updateLCP_frame (timeOrigin env) (lcpRecords h) mi)
      as (H1 & H2 & H3 & H4). cbn zeta in *.
    split; [congruence|]. split; [exact H2|].
    split; [apply forEach_updateLCP_firstHiddenTime|].
    do 4 (split; [reflexivity|]). split; [|exact H4].
    intros k [Hk | Hk]; [apply H3, Hk | discriminate Hk]. }
  destruct (if str_is (tx_op transaction) "pageload"
            then forceLCP env mi h else (mi, h)) as [mi1 h1].
  cbn zeta in Hf. cbn [fst snd] in Hf.
  destruct Hf as (H1 & H2 & H3 & H4 & H5 & H6 & H7 & H8 & H9).
  cbn zeta. cbn [fst snd _forceLCP _lcpFinal _firstHiddenTime _measurements
                 set_performanceCursor set_measurements].
  do 7 (split; [assumption|]). split.
  - intros k Hp Hk. unfold paint_key in Hp.
    rewrite forEach_perEntry_measurements_other by tauto. cbn [measurements_].
    apply H8, Hk.
  - intros k Hk. apply forEach_perEntry_is_Some. cbn [measurements_]. apply H9, Hk.
Qed.

(** ** What an event leaves alone *)

Lemma frozen_lcp (mi : MetricsInstrumentation) (h : Host) (k : string) :
  frozen mi h k ->
  lcpObserving h = true \/ lcpListener h = true \/ _forceLCP mi = ForceTakeRecords ->
  ~ lcp_key k.
Proof.
  intros (_ & Hl & _) Hact Hk. destruct (Hl Hk) as (H1 & H2 & H3).
  destruct Hact as [H | [H | H]]; congruence.
Qed.

Lemma frozen_fid (mi : MetricsInstrumentation) (h : Host) (k : string) :
  frozen mi h k -> fidObserving h = true -> ~ fid_key k.
Proof. intros (_ & _ & Hf) Hact Hk. rewrite (Hf Hk) in Hact. discriminate Hact. Qed.

(** No event installs an observer, a listener or the draining
    [_forceLCP], and no event clears the final flag or removes a
    measurement; a frozen key keeps its value. *)
Lemma step_frame (env : Env) (s : Session) (ev : Event) :
  let s' := step env s ev in
  _forceLCP (instr s') = _forceLCP (instr s)
  /\ (_lcpFinal (instr s) = true -> _lcpFinal (instr s') = true)
  /\ lcpObserving (host s') = lcpObserving (host s)
  /\ (lcpListener (host s) = false -> lcpListener (host s') = false)
  /\ (fidObserving (host s) = false -> fidObserving (host s') = false)
  /\ (forall k, frozen (instr s) (host s) k ->
                _measurements (instr s') !! k = _measurements (instr s) !! k)
  /\ (forall k, is_Some (_measurements (instr s) !! k) ->
                is_Some (_measurements (instr s') !! k)).
Proof.
  destruct ev as [e | e | | e | | t st | tx]; cbn [step]; cbn zeta.
  - cbn. repeat split; trivial.
  - destruct (lcpObserving (host s)) eqn:E; cbn; rewrite ?E; repeat split; trivial.
  - unfold lcpCallback, drainLCP. destruct (lcpObserving (host s)) eqn:E.
    + destruct (forEach_updateLCP_frame (timeOrigin env) (lcpRecords (host s)) (instr s))
        as (H1 & H2 & H3 & H4). cbn zeta in *. cbn [instr host].
      split; [exact H1|]. split; [exact H2|]. split; [exact E|].
      split; [trivial|]. split; [trivial|]. split; [|exact H4].
      intros k Hk. apply H3. eapply frozen_lcp; [exact Hk | left; exact E].
    + cbn. rewrite E. repeat split; trivial.
  - destruct (fidObserving (host s)) eqn:E; cbn; rewrite ?E; repeat split; trivial.
  - unfold fidCallback. destruct (fidObserving (host s)) eqn:E.
    + destruct (forEach_updateFID_frame (timeOrigin env) (fidRecords (host s))
                  (instr s, set_fidRecords [] (host s)))
        as (H1 & H2 & H3 & H4 & H5 & H6 & H7 & H8 & H9).
      cbn zeta in *. cbn [fst snd] in *.
      destruct (fold_left _ _ _) as [mi' h']. cbn [instr host fst snd] in *.
      split; [exact H1|]. split; [congruence|]. split; [exact H4|].
      split; [intros G; rewrite H5; exact G|]. split; [discriminate|].
      split; [|exact H9].
      intros k Hk. apply H8. eapply frozen_fid; [exact Hk | exact E].
    + cbn. rewrite E. repeat split; trivial.
  - unfold visibilityChange. cbn [firstHiddenListener set_visibilityState].
    assert (Hl : forall mi h,
               let r := lcpVisibilityListener env mi (set_lcpListener false h) in
               _forceLCP (fst r) = _forceLCP mi
               /\ (_lcpFinal mi = true -> _lcpFinal (fst r) = true)
               /\ lcpObserving (snd r) = lcpObserving h
               /\ lcpListener (snd r) = false
               /\ fidObserving (snd r) = fidObserving h
               /\ (forall k, ~ lcp_key k ->
                             _measurements (fst r) !! k = _measurements mi !! k)
               /\ (forall k, is_Some (_measurements mi !! k) ->
                             is_Some (_measurements (fst r) !! k))).
    { intros mi h. unfold lcpVisibilityListener, drainLCP.
      destruct (_lcpFinal mi) eqn:EF; [cbn; repeat split; trivial|].
      destruct (String.eqb _ _); [|cbn; repeat split; trivial; discriminate].
      destruct (hasTakeRecords env); [|cbn; repeat split; trivial; discriminate].
      destruct (forEach_updateLCP_frame (timeOrigin env)
                  (lcpRecords (set_lcpListener false h)) mi) as (H1 & H2 & H3 & H4).
      cbn zeta in *. cbn [fst snd _forceLCP _lcpFinal _measurements set_lcpFinal].
      split; [exact H1|]. split; [reflexivity|]. repeat split; assumption. }
    destruct (firstHiddenListener (host s));
      cbn [lcpListener set_firstHiddenListener set_visibilityState];
      destruct (lcpListener (host s)) eqn:EL.
    + specialize (Hl (firstHiddenVisibilityListener t (instr s))
                     (set_firstHiddenListener false (set_visibilityState st (host s)))).
      cbn zeta in Hl. destruct (lcpVisibilityListener _ _ _) as [mi' h'].
      cbn [instr host fst snd] in *. destruct Hl as (H1 & H2 & H3 & H4 & H5 & H6 & H7).
      split; [exact H1|]. split; [exact H2|]. split; [exact H3|].
      split; [discriminate|]. split; [intros G; rewrite H5; exact G|].
      split; [|exact H7].
      intros k Hk. rewrite H6; [reflexivity|].
      eapply frozen_lcp; [exact Hk | right; left; exact EL].
    + cbn. rewrite EL. repeat split; trivial.
    + specialize (Hl (instr s) (set_visibilityState st (host s))).
      cbn zeta in Hl. destruct (lcpVisibilityListener _ _ _) as [mi' h'].
      cbn [instr host fst snd] in *. destruct Hl as (H1 & H2 & H3 & H4 & H5 & H6 & H7).
      split; [exact H1|]. split; [exact H2|]. split; [exact H3|].
      split; [discriminate|]. split; [intros G; rewrite H5; exact G|].
      split; [|exact H7].
      intros k Hk. rewrite H6; [reflexivity|].
      eapply frozen_lcp; [exact Hk | right; left; exact EL].
    + cbn. rewrite EL. repeat split; trivial.
  - destruct (addPerformanceEntries_frame env (instr s) (host s) tx)
      as (H1 & H2 & H3 & H4 & H5 & H6 & H7 & H8 & H9). cbn zeta in *.
    destruct (addPerformanceEntries env (instr s) (host s) tx) as [[mi' h'] tx'].
    cbn [instr host fst snd] in *.
    split; [exact H1|]. split; [exact H2|]. split; [exact H4|].
    split; [intros G; rewrite H5; exact G|]. split; [intros G; rewrite H6; exact G|].
    split; [|exact H9].
    intros k Hk. apply H8; [apply Hk|].
    destruct (_forceLCP (instr s)) eqn:EF; [right; reflexivity|].
    left. eapply frozen_lcp; [exact Hk | right; right; exact EF].
Qed.

Lemma step_frozen (env : Env) (s : Session) (ev : Event) (k : string) :
  frozen (instr s) (host s) k ->
  frozen (instr (step env s ev)) (host (step env s ev)) k
  /\ _measurements (instr (step env s ev)) !! k = _measurements (instr s) !! k.
Proof.
  intros Hk. destruct (step_frame env s ev) as (H1 & _ & H3 & H4 & H5 & H6 & _).
  cbn zeta in *. split; [|apply H6, Hk].
  destruct Hk as (Hp & Hl & Hf). split; [exact Hp|]. split.
  - intros G. destruct (Hl G) as (L1 & L2 & L3).
    split; [congruence|]. split; [auto | congruence].
  - intros G. auto.
Qed.

Lemma run_frozen (env : Env) (evs : list Event) (s : Session) (k : string) :
  frozen (instr s) (host s) k ->
  _measurements (instr (run env s evs)) !! k = _measurements (instr s) !! k.
Proof.
  revert s. induction evs as [|ev evs IH]; intros s Hk; [reflexivity|].
  destruct (step_frozen env s ev k Hk) as [Hk' <-]. apply IH, Hk'.
Qed.

Lemma start_measurements (env : Env) (now : number) (h : Host) :
  _measurements (instr (start env now h)) = ∅.
Proof.
  unfold start, constructor, _trackLCP, _trackFID.
  destruct (hasPerformance env), (lcpSupported env), (fidSupported env); reflexivity.
Qed.

(** ** The measurement store over a session *)

(** X5: the keys of the measurement store are fixed.  Whatever happens
    after the instrumentation is constructed, every key of
    [_measurements] is one of [fp], [mark.fp], [fcp], [mark.fcp], [lcp],
    [mark.lcp], [fid] and [mark.fid]. *)
Theorem measurement_keys_fixed (env : Env) (now : number) (h : Host)
    (evs : list Event) (k : string) :
  is_Some (_measurements (instr (run env (start env now h) evs)) !! k) ->
  paint_key k \/ lcp_key k \/ fid_key k.
Proof.
  intros H.
  destruct (decide (paint_key k \/ lcp_key k \/ fid_key k)) as [Hk | Hk]; [exact Hk|].
  exfalso. rewrite run_frozen, start_measurements, lookup_empty in H.
  - destruct H as [v Hv]. discriminate Hv.
  - split; [tauto|]. split; intros G; tauto.
Qed.

Lemma measurement_keys_fixed_witness :
  let evs := [Append (tracing_init_mark (of_Z 30)); LcpRecord (lcp_candidate 100);
              AddPerformanceEntries pageload] in
  let s := run browser (start browser (of_Z 20) (page [] "visible" [] [])) evs in
  is_Some (_measurements (instr s) !! "lcp")
  /\ (paint_key "lcp" \/ lcp_key "lcp" \/ fid_key "lcp").
Proof.
  intros evs s.
  assert (H : is_Some (_measurements (instr s) !! "lcp")).
  { vm_compute. eexists. reflexivity. }
  split; [exact H|].
  exact (measurement_keys_fixed browser (of_Z 20) (page [] "visible" [] []) evs "lcp" H).
Defined.

(** X6: no event removes a measurement: a key that is in the store stays
    in the store for the rest of the session. *)
Theorem measurements_never_removed (env : Env) (evs : list Event) (s : Session)
    (k : string) :
  is_Some (_measurements (instr s) !! k) ->
  is_Some (_measurements (instr (run env s evs)) !! k).
Proof.
  revert s. induction evs as [|ev evs IH]; intros s H; [exact H|].
  apply IH. destruct (step_frame env s ev) as (_ & _ & _ & _ & _ & _ & H7).
  apply H7, H.
Qed.

(** X7: the final flag is never cleared: once [_lcpFinal] is set it stays
    set for the rest of the session. *)
Theorem lcpFinal_never_cleared (env : Env) (evs : list Event) (s : Session) :
  _lcpFinal (instr s) = true -> _lcpFinal (instr (run env s evs)) = true.
Proof.
  revert s. induction evs as [|ev evs IH]; intros s H; [exact H|].
  apply IH. destruct (step_frame env s ev) as (_ & H2 & _). apply H2, H.
Qed.

Lemma measurements_never_removed_witness :
  let s := run browser (start browser (of_Z 20) (page [] "visible" [] []))
             [LcpRecord (lcp_candidate 100); LcpDeliver] in
  let evs := [VisibilityChange (of_Z 500) "hidden"; LcpRecord (lcp_candidate 800);
              LcpDeliver; AddPerformanceEntries pageload] in
  is_Some (_measurements (instr (run browser s evs)) !! "lcp").
Proof.
  intros s evs. apply (measurements_never_removed browser evs s "lcp").
  vm_compute. eexists. reflexivity.
Defined.

Lemma lcpFinal_never_cleared_witness :
  let s := run browser (start browser (of_Z 20) (page [] "hidden" [] []))
             [LcpRecord (lcp_candidate 100); LcpDeliver] in
  let evs := [VisibilityChange (of_Z 500) "visible"; LcpRecord (lcp_candidate 800);
              AddPerformanceEntries pageload] in
  _lcpFinal (instr (run browser s evs)) = true.
Proof.
  intros s evs. apply (lcpFinal_never_cleared browser evs s). reflexivity.
Defined.

(** ** The observers *)

Lemma forEach_updateFID_disconnects (t : number) (l : list PerformanceEntry)
    (mi : MetricsInstrumentation) (h : Host) (entry : PerformanceEntry) :
  entry ∈ l ->
  lt (startTime entry) (_firstHiddenTime mi) = true ->
  fidObserving (snd (fold_left (updateFID t) l (mi, h))) = false.
Proof.
  revert mi h. induction l as [|e l IH]; intros mi h Hin Hlt.
  - apply elem_of_nil in Hin. destruct Hin.
  - cbn [fold_left]. apply elem_of_cons in Hin. destruct Hin as [<- | Hin].
    + rewrite updateFID_lt by exact Hlt.
      destruct (forEach_updateFID_frame t l
                  (measure "mark.fid" (add (msToSec t) (msToSec (startTime entry)))
                     (measure "fid"
                        (sub (prop_number entry "processingStart") (startTime entry)) mi),
                   disconnectFID h)) as (_ & _ & _ & _ & _ & _ & H7 & _).
      apply H7. reflexivity.
    + destruct (updateFID_frame t (mi, h) e) as (_ & _ & H3 & _). cbn zeta in H3.
      destruct (updateFID t (mi, h) e) as [mi' h']. cbn [fst] in H3.
      apply IH; [exact Hin | rewrite H3; exact Hlt].
Qed.

(** X8: first input delay is written by one batch only.  When the
    observer's callback runs on a batch that holds an entry whose start
    time precedes the first-hidden timestamp, the observer is
    disconnected afterwards, and no later event of the session changes
    [fid] or [mark.fid]. *)
Theorem fid_fixed_after_first_batch (env : Env) (s : Session) (entry : PerformanceEntry) :
  fidObserving (host s) = true ->
  entry ∈ fidRecords (host s) ->
  lt (startTime entry) (_firstHiddenTime (instr s)) = true ->
  let s1 := step env s FidDeliver in
  fidObserving (host s1) = false
  /\ forall evs k, fid_key k ->
       _measurements (instr (run env s1 evs)) !! k = _measurements (instr s1) !! k.
Proof.
  intros Hobs Hin Hlt s1.
  assert (Hoff : fidObserving (host s1) = false).
  { subst s1. cbn [step]. unfold fidCallback. rewrite Hobs.
    pose proof (forEach_updateFID_disconnects (timeOrigin env) (fidRecords (host s))
                  (instr s) (set_fidRecords [] (host s)) entry Hin Hlt) as H.
    destruct (fold_left _ _ _) as [mi' h']. exact H. }
  split; [exact Hoff|].
  intros evs k Hk. apply run_frozen. unfold frozen, paint_key, lcp_key, fid_key in *.
  split; [|split].
  - intros G. destruct Hk as [-> | ->]; destruct G as [G | [G | [G | G]]]; discriminate G.
  - intros G. destruct Hk as [-> | ->]; destruct G as [G | G]; discriminate G.
  - intros _. exact Hoff.
Qed.

Lemma fid_fixed_after_first_batch_witness :
  let s := run browser (start browser (of_Z 20) (page [] "visible" [] []))
             [FidRecord (first_input 10 15)] in
  let s1 := step browser s FidDeliver in
  let evs := [FidRecord (first_input 20 40); FidDeliver; AddPerformanceEntries pageload] in
  fidObserving (host s1) = false
  /\ _measurements (instr (run browser s1 evs)) !! "fid"
     = _measurements (instr s1) !! "fid".
Proof.
  intros s s1 evs.
  destruct (fid_fixed_after_first_batch browser s (first_input 10 15)) as [H1 H2].
  - reflexivity.
  - apply list_elem_of_here.
  - reflexivity.
  - split; [exact H1|]. apply H2. left. reflexivity.
Defined.

Lemma start_lcp_unsupported (env : Env) (now : number)
    (entries buffered_lcp buffered_fid : list PerformanceEntry) (visibility : string) :
  lcpSupported env = false ->
  let s := start env now (page entries visibility buffered_lcp buffered_fid) in
  lcp_inert (instr s) (host s).
Proof.
  intros H. unfold start, constructor, _trackLCP, _trackFID. rewrite H.
  destruct (hasPerformance env), (hasMark env), (fidSupported env);
    repeat split; reflexivity.
Qed.

Lemma start_fid_unsupported (env : Env) (now : number)
    (entries buffered_lcp buffered_fid : list PerformanceEntry) (visibility : string) :
  fidSupported env = false ->
  let s := start env now (page entries visibility buffered_lcp buffered_fid) in
  fidObserving (host s) = false.
Proof.
  intros H. unfold start, constructor, _trackLCP, _trackFID. rewrite H.
  destruct (hasPerformance env), (hasMark env), (lcpSupported env); reflexivity.
Qed.

(** X9: when the browser does not support the
    [largest-contentful-paint] entry type, [_trackLCP] installs nothing:
    [lcp] and [mark.lcp] are never written in the session, whatever is
    queued, delivered or flushed. *)
Theorem lcp_unsupported_never_written (env : Env) (now : number)
    (entries buffered_lcp buffered_fid : list PerformanceEntry) (visibility : string)
    (evs : list Event) (k : string) :
  lcpSupported env = false ->
  lcp_key k ->
  let s := start env now (page entries visibility buffered_lcp buffered_fid) in
  _measurements (instr (run env s evs)) !! k = None.
Proof.
  intros H Hk s. rewrite run_frozen.
  - subst s. rewrite start_measurements. apply lookup_empty.
  - unfold frozen, paint_key, lcp_key, fid_key in *. split; [|split].
    + intros G. destruct Hk as [-> | ->]; destruct G as [G | [G | [G | G]]]; discriminate G.
    + intros _. apply start_lcp_unsupported, H.
    + intros G. destruct Hk as [-> | ->]; destruct G as [G | G]; discriminate G.
Qed.

Lemma lcp_unsupported_never_written_witness :
  let env := {| hasPerformance := true; hasMark := true; hasGetEntries := true;
                timeOrigin := of_Z 1000000; scripts := Some [];
                location_origin := "https://example.com";
                lcpSupported := false; fidSupported := true; hasTakeRecords := true |} in
  let evs := [LcpRecord (lcp_candidate 100); LcpDeliver;
              VisibilityChange (of_Z 500) "hidden"; AddPerformanceEntries pageload] in
  let s := start env (of_Z 20) (page [] "visible" [lcp_candidate 50] []) in
  _measurements (instr (run env s evs)) !! "lcp" = None.
Proof.
  intros env evs.
  apply (lcp_unsupported_never_written env (of_Z 20) [] [lcp_candidate 50] [] "visible"
           evs "lcp").
  - reflexivity.
  - left. reflexivity.
Defined.

(** X10: when the browser does not support the [first-input] entry
    type, [_trackFID] installs nothing: [fid] and [mark.fid] are never
    written in the session. *)
Theorem fid_unsupported_never_written (env : Env) (now : number)
    (entries buffered_lcp buffered_fid : list PerformanceEntry) (visibility : string)
    (evs : list Event) (k : string) :
  fidSupported env = false ->
  fid_key k ->
  let s := start env now (page entries visibility buffered_lcp buffered_fid) in
  _measurements (instr (run env s evs)) !! k = None.
Proof.
  intros H Hk s. rewrite run_frozen.
  - subst s. rewrite start_measurements. apply lookup_empty.
  - unfold frozen, paint_key, lcp_key, fid_key in *. split; [|split].
    + intros G. destruct Hk as [-> | ->]; destruct G as [G | [G | [G | G]]]; discriminate G.
    + intros G. destruct Hk as [-> | ->]; destruct G as [G | G]; discriminate G.
    + intros _. apply start_fid_unsupported, H.
Qed.

Lemma fid_unsupported_never_written_witness :
  let env := {| hasPerformance := true; hasMark := true; hasGetEntries := true;
                timeOrigin := of_Z 1000000; scripts := Some [];
                location_origin := "https://example.com";
                lcpSupported := true; fidSupported := false; hasTakeRecords := true |} in
  let evs := [FidRecord (first_input 10 15); FidDeliver; AddPerformanceEntries pageload] in
  let s := start env (of_Z 20) (page [] "visible" [] [first_input 5 9]) in
  _measurements (instr (run env s evs)) !! "fid" = None.
Proof.
  intros env evs.
  apply (fid_unsupported_never_written env (of_Z 20) [] [] [first_input 5 9] "visible"
           evs "fid").
  - reflexivity.
  - left. reflexivity.
Defined.

(** ** A browser without the performance API *)

Lemma step_unregistered (env : Env) (s : Session) (ev : Event) :
  hasPerformance env = false ->
  unregistered (host s) ->
  unregistered (host (step env s ev))
  /\ instr (step env s ev) = instr s
  /\ finished (step env s ev) = finished s ++ passed [ev].
Proof.
  intros Hp (H1 & H2 & H3 & H4).
  destruct ev as [e | e | | e | | t st | tx]; cbn [step passed].
  - rewrite app_nil_r. repeat split; assumption.
  - rewrite H1, app_nil_r. repeat split; assumption.
  - unfold lcpCallback. rewrite H1, app_nil_r. repeat split; assumption.
  - rewrite H2, app_nil_r. repeat split; assumption.
  - unfold fidCallback. rewrite H2, app_nil_r. repeat split; assumption.
  - unfold visibilityChange. cbn [firstHiddenListener set_visibilityState].
    rewrite H4. cbn [lcpListener set_visibilityState]. rewrite H3, app_nil_r.
    repeat split; assumption.
  - unfold addPerformanceEntries. rewrite Hp. cbn [negb orb].
    repeat split; assumption.
Qed.

(** X11: without [global.performance] the whole feature is off.  The
    constructor registers nothing and leaves the fields at their initial
    values, and for the rest of the session no event changes the
    instrumentation and every transaction handed to
    [addPerformanceEntries] comes back as it was. *)
Theorem no_performance_inert (env : Env) (now : number)
    (entries buffered_lcp buffered_fid : list PerformanceEntry) (visibility : string)
    (evs : list Event) :
  hasPerformance env = false ->
  let s := run env (start env now (page entries visibility buffered_lcp buffered_fid)) evs in
  instr s = initial /\ finished s = passed evs.
Proof.
  intros Hp s. subst s.
  assert (Hrun : forall evs s,
             unregistered (host s) ->
             instr (run env s evs) = instr s
             /\ finished (run env s evs) = finished s ++ passed evs).
  { clear evs. induction evs as [|ev evs IH]; intros s Hs.
    - cbn. rewrite app_nil_r. split; reflexivity.
    - destruct (step_unregistered env s ev Hp Hs) as (Hs' & Hi & Hf).
      destruct (IH _ Hs') as [Hi' Hf'].
      change (run env s (ev :: evs)) with (run env (step env s ev) evs).
      rewrite Hi', Hf', Hi, Hf. split; [reflexivity|].
      rewrite <- app_assoc. f_equal. destruct ev; reflexivity. }
  unfold start, constructor. rewrite Hp.
  apply (Hrun evs {| instr := initial; host := _; finished := [] |}).
  repeat split; reflexivity.
Qed.

Lemma no_performance_inert_witness :
  let env := {| hasPerformance := false; hasMark := false; hasGetEntries := false;
                timeOrigin := of_Z 1000000; scripts := None;
                location_origin := "https://example.com";
                lcpSupported := true; fidSupported := true; hasTakeRecords := true |} in
  let evs := [LcpRecord (lcp_candidate 100); VisibilityChange (of_Z 500) "hidden";
              FidRecord (first_input 10 15); FidDeliver;
              AddPerformanceEntries pageload] in
  let s := run env (start env (of_Z 20) (page [scenario_B_entry] "visible" [] [])) evs in
  instr s = initial /\ finished s = [pageload].
Proof.
  intros env evs.
  apply (no_performance_inert env (of_Z 20) [scenario_B_entry] [] [] "visible" evs).
  reflexivity.
Defined.

(** ** The first-hidden timestamp *)

Lemma lcpVisibilityListener_firstHidden (env : Env) (mi : MetricsInstrumentation)
    (h : Host) :
  _firstHiddenTime (fst (lcpVisibilityListener env mi h)) = _firstHiddenTime mi
  /\ firstHiddenListener (snd (lcpVisibilityListener env mi h)) = firstHiddenListener h.
Proof.
  unfold lcpVisibilityListener, drainLCP.
  destruct (_lcpFinal mi); [split; reflexivity|].
  destruct (String.eqb _ _); [|split; reflexivity].
  destruct (hasTakeRecords env); [|split; reflexivity].
  cbn [fst snd _firstHiddenTime set_lcpFinal]. split; [|reflexivity].
  apply forEach_updateLCP_firstHiddenTime.
Qed.

(** Only the visibilitychange event touches the first-hidden timestamp,
    and only while the constructor's listener is registered; the event
    removes the listener. *)
Lemma step_firstHidden (env : Env) (s : Session) (ev : Event) :
  match ev with
  | VisibilityChange timeStamp _ =>
      _firstHiddenTime (instr (step env s ev))
      = (if firstHiddenListener (host s)
         then min (_firstHiddenTime (instr s)) timeStamp
         else _firstHiddenTime (instr s))
      /\ firstHiddenListener (host (step env s ev)) = false
  | _ =>
      _firstHiddenTime (instr (step env s ev)) = _firstHiddenTime (instr s)
      /\ firstHiddenListener (host (step env s ev)) = firstHiddenListener (host s)
  end.
Proof.
  destruct ev as [e | e | | e | | t st | tx]; cbn [step].
  - split; reflexivity.
  - destruct (lcpObserving (host s)); split; reflexivity.
  - unfold lcpCallback, drainLCP. destruct (lcpObserving (host s)); [|split; reflexivity].
    cbn [instr host]. split; [apply forEach_updateLCP_firstHiddenTime | reflexivity].
  - destruct (fidObserving (host s)); split; reflexivity.
  - unfold fidCallback. destruct (fidObserving (host s)); [|split; reflexivity].
    destruct (forEach_updateFID_frame (timeOrigin env) (fidRecords (host s))
                (instr s, set_fidRecords [] (host s)))
      as (_ & _ & H3 & _ & _ & H6 & _).
    cbn zeta in *. destruct (fold_left _ _ _) as [mi' h'].
    cbn [instr host fst snd] in *. split; assumption.
  - unfold visibilityChange. cbn [firstHiddenListener set_visibilityState].
    destruct (firstHiddenListener (host s)) eqn:EL;
      cbn [lcpListener set_firstHiddenListener set_visibilityState];
      destruct (lcpListener (host s)).
    + pose proof (lcpVisibilityListener_firstHidden env
                    (firstHiddenVisibilityListener t (instr s))
                    (set_lcpListener false (set_firstHiddenListener false
                       (set_visibilityState st (host s))))) as [H1 H2].
      destruct (lcpVisibilityListener _ _ _) as [mi' h']. cbn [instr host fst snd] in *.
      rewrite H1, H2. split; reflexivity.
    + split; reflexivity.
    + pose proof (lcpVisibilityListener_firstHidden env (instr s)
                    (set_lcpListener false (set_visibilityState st (host s)))) as [H1 H2].
      destruct (lcpVisibilityListener _ _ _) as [mi' h']. cbn [instr host fst snd] in *.
      rewrite H1, H2. split; [reflexivity | exact EL].
    + split; [reflexivity | exact EL].
  - destruct (addPerformanceEntries_frame env (instr s) (host s) tx)
      as (_ & _ & H3 & _ & _ & _ & H7 & _). cbn zeta in *.
    destruct (addPerformanceEntries env (instr s) (host s) tx) as [[mi' h'] tx'].
    cbn [instr host fst snd] in *. split; assumption.
Qed.

Lemma run_firstHidden_unregistered (env : Env) (evs : list Event) (s : Session) :
  firstHiddenListener (host s) = false ->
  _firstHiddenTime (instr (run env s evs)) = _firstHiddenTime (instr s).
Proof.
  revert s. induction evs as [|ev evs IH]; intros s H; [reflexivity|].
  change (run env s (ev :: evs)) with (run env (step env s ev) evs).
  pose proof (step_firstHidden env s ev) as Hs.
  destruct ev; try (destruct Hs as [Hs1 Hs2]; rewrite IH; [exact Hs1 | congruence]).
  destruct Hs as [Hs1 Hs2]. rewrite H in Hs1. rewrite IH; [exact Hs1 | exact Hs2].
Qed.

(** X12: the first-hidden timestamp is updated at most once.  After
    construction with the performance API, it stays at its initial value
    ([0] or [Infinity]) until the first visibilitychange event, becomes
    the minimum of that value and the event's time stamp, and never
    changes again; later visibilitychange events are not seen. *)
Theorem firstHidden_set_once (env : Env) (now : number)
    (entries buffered_lcp buffered_fid : list PerformanceEntry) (visibility : string)
    (evs : list Event) :
  hasPerformance env = true ->
  let s0 := start env now (page entries visibility buffered_lcp buffered_fid) in
  _firstHiddenTime (instr s0)
  = (if String.eqb visibility "hidden" then zero else PosInf)
  /\ _firstHiddenTime (instr (run env s0 evs))
     = match first_visibilityChange evs with
       | Some timeStamp => min (_firstHiddenTime (instr s0)) timeStamp
       | None => _firstHiddenTime (instr s0)
       end.
Proof.
  intros Hp s0.
  assert (H0 : firstHiddenListener (host s0) = true
               /\ _firstHiddenTime (instr s0)
                  = (if String.eqb visibility "hidden" then zero else PosInf)).
  { subst s0. unfold start, constructor, _trackLCP, _trackFID. rewrite Hp.
    destruct (hasMark env), (lcpSupported env), (fidSupported env);
      split; reflexivity. }
  destruct H0 as [Harmed Hinit]. split; [exact Hinit|].
  clear Hinit. revert Harmed. generalize s0. clear s0.
  induction evs as [|ev evs IH]; intros s Harmed; [reflexivity|].
  change (run env s (ev :: evs)) with (run env (step env s ev) evs).
  pose proof (step_firstHidden env s ev) as Hs.
  destruct ev; cbn [first_visibilityChange];
    try (destruct Hs as [Hs1 Hs2]; rewrite IH by congruence; rewrite Hs1; reflexivity).
  destruct Hs as [Hs1 Hs2]. rewrite Harmed in Hs1.
  rewrite run_firstHidden_unregistered by exact Hs2. exact Hs1.
Qed.

Lemma firstHidden_set_once_witness :
  let evs := [LcpRecord (lcp_candidate 100); VisibilityChange (of_Z 500) "hidden";
              AddPerformanceEntries pageload; VisibilityChange (of_Z 200) "visible"] in
  let s0 := start browser (of_Z 20) (page [] "visible" [] []) in
  _firstHiddenTime (instr s0) = PosInf
  /\ _firstHiddenTime (instr (run browser s0 evs)) = min (_firstHiddenTime (instr s0)) (of_Z 500).
Proof.
  intros evs.
  apply (firstHidden_set_once browser (of_Z 20) [] [] [] "visible" evs).
  reflexivity.
Defined.

(** ** Largest contentful paint: the last accepted candidate *)

Lemma forEach_updateLCP_rejected (t : number) (l : list PerformanceEntry)
    (mi : MetricsInstrumentation) :
  Forall (rejected (_firstHiddenTime mi)) l ->
  _measurements (fold_left (updateLCP t) l mi) = _measurements mi.
Proof.
  intros Hl. revert mi Hl. induction l as [|e l IH]; intros mi Hl; [reflexivity|].
  cbn [fold_left]. inversion Hl as [|? ? He Hl']; subst.
  rewrite updateLCP_not_lt by exact He. rewrite IH; [reflexivity | exact Hl'].
Qed.

Lemma forEach_updateLCP_last (t : number) (l1 l2 : list PerformanceEntry)
    (entry : PerformanceEntry) (mi : MetricsInstrumentation) :
  accepted (_firstHiddenTime mi) entry ->
  Forall (rejected (_firstHiddenTime mi)) l2 ->
  let mi' := fold_left (updateLCP t) (l1 ++ entry :: l2) mi in
  _measurements mi' !! "lcp" = Some {| value := startTime entry |}
  /\ _measurements mi' !! "mark.lcp"
     = Some {| value := add (msToSec t) (msToSec (startTime entry)) |}.
Proof.
  intros Ha Hr mi'. subst mi'. rewrite fold_left_app. cbn [fold_left].
  pose proof (forEach_updateLCP_firstHiddenTime t l1 mi) as Hfh.
  set (mi1 := fold_left (updateLCP t) l1 mi) in *.
  unfold accepted in Ha. rewrite <- Hfh in Ha, Hr.
  rewrite forEach_updateLCP_rejected
    by (rewrite updateLCP_firstHiddenTime; exact Hr).
  rewrite updateLCP_lt by exact Ha. unfold measure. cbn. split.
  - rewrite lookup_insert_ne by discriminate. apply lookup_insert_eq.
  - apply lookup_insert_eq.
Qed.

(** X13: of the candidates in a delivered batch, the last one that
    starts before the first-hidden timestamp decides [lcp] and
    [mark.lcp]: it overwrites whatever earlier candidates wrote, and the
    candidates after it, which fail the cutoff, write nothing.  The
    queue of the observer is empty afterwards. *)
Theorem lcp_last_accepted_wins (env : Env) (s : Session)
    (l1 l2 : list PerformanceEntry) (entry : PerformanceEntry) :
  lcpObserving (host s) = true ->
  lcpRecords (host s) = l1 ++ entry :: l2 ->
  accepted (_firstHiddenTime (instr s)) entry ->
  Forall (rejected (_firstHiddenTime (instr s))) l2 ->
  let s' := step env s LcpDeliver in
  _measurements (instr s') !! "lcp" = Some {| value := startTime entry |}
  /\ _measurements (instr s') !! "mark.lcp"
     = Some {| value := add (msToSec (timeOrigin env)) (msToSec (startTime entry)) |}
  /\ lcpRecords (host s') = [].
Proof.
  intros Hobs Hrec Ha Hr s'. subst s'. cbn [step]. unfold lcpCallback, drainLCP.
  rewrite Hobs, Hrec. cbn [instr host lcpRecords set_lcpRecords].
  destruct (forEach_updateLCP_last (timeOrigin env) l1 l2 entry (instr s) Ha Hr) as [H1 H2].
  split; [exact H1|]. split; [exact H2 | reflexivity].
Qed.

Lemma lcp_last_accepted_wins_witness :
  let s := run browser (start browser (of_Z 20) (page [] "visible" [] []))
             [VisibilityChange (of_Z 500) "visible";
              LcpRecord (lcp_candidate 100); LcpRecord (lcp_candidate 300);
              LcpRecord (lcp_candidate 800)] in
  let s' := step browser s LcpDeliver in
  _measurements (instr s') !! "lcp" = Some {| value := of_Z 300 |}
  /\ _measurements (instr s') !! "mark.lcp"
     = Some {| value := add (msToSec (timeOrigin browser)) (msToSec (of_Z 300)) |}
  /\ lcpRecords (host s') = [].
Proof.
  intros s.
  apply (lcp_last_accepted_wins browser s [lcp_candidate 100] [lcp_candidate 800]
           (lcp_candidate 300)).
  - reflexivity.
  - reflexivity.
  - reflexivity.
  - repeat constructor.
Defined.

(** X14: when the page goes hidden, the records still queued for the LCP
    observer are drained and judged against the first-hidden timestamp
    this very event sets: the last queued candidate that starts before
    it is recorded as [lcp], the final flag is set, and both
    visibilitychange listeners are gone. *)
Theorem hide_drains_and_finalizes (env : Env) (s : Session) (timeStamp : number)
    (l1 l2 : list PerformanceEntry) (entry : PerformanceEntry) :
  firstHiddenListener (host s) = true ->
  lcpListener (host s) = true ->
  _lcpFinal (instr s) = false ->
  hasTakeRecords env = true ->
  lcpRecords (host s) = l1 ++ entry :: l2 ->
  let firstHidden := min (_firstHiddenTime (instr s)) timeStamp in
  accepted firstHidden entry ->
  Forall (rejected firstHidden) l2 ->
  let s' := step env s (VisibilityChange timeStamp "hidden") in
  _firstHiddenTime (instr s') = firstHidden
  /\ _measurements (instr s') !! "lcp" = Some {| value := startTime entry |}
  /\ _lcpFinal (instr s') = true
  /\ lcpRecords (host s') = []
  /\ lcpListener (host s') = false
  /\ firstHiddenListener (host s') = false.
Proof.
  intros HL1 HL2 Hfinal Htake Hrec firstHidden Ha Hr s'. subst s'.
  cbn [step]. unfold visibilityChange. cbn [firstHiddenListener set_visibilityState].
  rewrite HL1. cbn [lcpListener set_firstHiddenListener set_visibilityState].
  rewrite HL2. unfold lcpVisibilityListener, firstHiddenVisibilityListener.
  cbn [_lcpFinal set_firstHiddenTime]. rewrite Hfinal.
  cbn [visibilityState set_lcpListener set_firstHiddenListener set_visibilityState].
  cbn [String.eqb Ascii.eqb Bool.eqb]. rewrite Htake.
  unfold drainLCP.
  cbn [lcpRecords set_lcpListener set_firstHiddenListener set_visibilityState].
  rewrite Hrec. cbn [instr host].
  destruct (forEach_updateLCP_last (timeOrigin env) l1 l2 entry
              (set_firstHiddenTime firstHidden (instr s)) Ha Hr) as [H1 _].
  cbn zeta in H1. fold firstHidden.
  split; [apply forEach_updateLCP_firstHiddenTime|].
  split; [exact H1|]. repeat split; reflexivity.
Qed.

Lemma hide_drains_and_finalizes_witness :
  let s := run browser (start browser (of_Z 20) (page [] "visible" [] []))
             [LcpRecord (lcp_candidate 100); LcpRecord (lcp_candidate 300);
              LcpRecord (lcp_candidate 800)] in
  let s' := step browser s (VisibilityChange (of_Z 500) "hidden") in
  _firstHiddenTime (instr s') = min (_firstHiddenTime (instr s)) (of_Z 500)
  /\ _measurements (instr s') !! "lcp" = Some {| value := of_Z 300 |}
  /\ _lcpFinal (instr s') = true
  /\ lcpRecords (host s') = []
  /\ lcpListener (host s') = false
  /\ firstHiddenListener (host s') = false.
Proof.
  intros s.
  apply (hide_drains_and_finalizes browser s (of_Z 500)
           [lcp_candidate 100] [lcp_candidate 800] (lcp_candidate 300)).
  - reflexivity.
  - reflexivity.
  - reflexivity.
  - reflexivity.
  - reflexivity.
  - reflexivity.
  - repeat constructor.
Defined.

(** ** The force-flush of a page-load pass *)

Lemma addPerformanceEntries_state (env : Env) (mi : MetricsInstrumentation) (h : Host)
    (transaction : Transaction) :
  hasPerformance env = true -> hasGetEntries env = true ->
  let f := if str_is (tx_op transaction) "pageload" then forceLCP env mi h else (mi, h) in
  let r := addPerformanceEntries env mi h transaction in
  snd (fst r) = snd f
  /\ forall k, ~ paint_key k ->
               _measurements (fst (fst r)) !! k = _measurements (fst f) !! k.
Proof.
  intros Hp Hg f r. subst f r. unfold addPerformanceEntries. rewrite Hp, Hg.
  cbn [negb orb].
  destruct (if str_is (tx_op transaction) "pageload"
            then forceLCP env mi h else (mi, h)) as [mi1 h1].
  cbn [fst snd _measurements set_performanceCursor set_measurements].
  split; [reflexivity|]. intros k Hk. unfold paint_key in Hk.
  rewrite forEach_perEntry_measurements_other by tauto. reflexivity.
Qed.

Lemma tx_op_startChild (transaction0 transaction : Transaction) (ctx : SpanContext) :
  tx_op transaction = tx_op transaction0 ->
  tx_op (_startChild transaction ctx) = tx_op transaction0.
Proof. intros H. rewrite _startChild_op. exact H. Qed.

(** X15: a page-load pass folds the late LCP candidates in before it
    attaches the measurements.  When records are still queued for the
    LCP observer, the pass hands them to [updateLCP] first, so the
    measurements the transaction receives hold the last queued candidate
    that starts before the first-hidden timestamp, and the queue is
    empty afterwards. *)
Theorem pageload_pass_flushes_lcp (env : Env) (mi : MetricsInstrumentation) (h : Host)
    (transaction : Transaction) (l1 l2 : list PerformanceEntry) (entry : PerformanceEntry) :
  hasPerformance env = true ->
  hasGetEntries env = true ->
  str_is (tx_op transaction) "pageload" = true ->
  _forceLCP mi = ForceTakeRecords ->
  hasTakeRecords env = true ->
  lcpRecords h = l1 ++ entry :: l2 ->
  accepted (_firstHiddenTime mi) entry ->
  Forall (rejected (_firstHiddenTime mi)) l2 ->
  let r := addPerformanceEntries env mi h transaction in
  exists m,
    tx_measurements (snd r) = Some m
    /\ m !! "lcp" = Some {| value := startTime entry |}
    /\ m !! "mark.lcp"
       = Some {| value := add (msToSec (timeOrigin env)) (msToSec (startTime entry)) |}
    /\ lcpRecords (snd (fst r)) = [].
Proof.
  intros Hp Hg Hop Hforce Htake Hrec Ha Hr r. subst r.
  destruct (addPerformanceEntries_state env mi h transaction Hp Hg) as [Hh Hm].
  cbn zeta in Hh, Hm. rewrite Hop in Hh, Hm.
  unfold forceLCP in Hh, Hm. rewrite Hforce, Htake in Hh, Hm.
  unfold drainLCP in Hh, Hm. cbn [fst snd] in Hh, Hm. rewrite Hrec in Hm.
  destruct (forEach_updateLCP_last (timeOrigin env) l1 l2 entry mi Ha Hr) as [H1 H2].
  cbn zeta in H1, H2.
  destruct (addPerformanceEntries_keeps
              (fun t => tx_op t = tx_op transaction)
              (tx_op_startChild transaction) env mi h transaction eq_refl)
    as (t & Ht & Hsnd).
  rewrite Ht, Hp, Hg, Hop in Hsnd. cbn [andb] in Hsnd.
  exists (_measurements (fst (fst (addPerformanceEntries env mi h transaction)))).
  split; [rewrite Hsnd; reflexivity|].
  split; [|split].
  - rewrite Hm; [exact H1|]. unfold paint_key.
    intros [G | [G | [G | G]]]; discriminate G.
  - rewrite Hm; [exact H2|]. unfold paint_key.
    intros [G | [G | [G | G]]]; discriminate G.
  - rewrite Hh. reflexivity.
Qed.

Lemma pageload_pass_flushes_lcp_witness :
  let s := run browser (start browser (of_Z 20) (page [] "visible" [] []))
             [LcpRecord (lcp_candidate 100); LcpRecord (lcp_candidate 300)] in
  let r := addPerformanceEntries browser (instr s) (host s) pageload in
  exists m,
    tx_measurements (snd r) = Some m
    /\ m !! "lcp" = Some {| value := of_Z 300 |}
    /\ m !! "mark.lcp"
       = Some {| value := add (msToSec (timeOrigin browser)) (msToSec (of_Z 300)) |}
    /\ lcpRecords (snd (fst r)) = [].
Proof.
  intros s.
  apply (pageload_pass_flushes_lcp browser (instr s) (host s) pageload
           [lcp_candidate 100] [] (lcp_candidate 300)).
  - reflexivity.
  - reflexivity.
  - reflexivity.
  - reflexivity.
  - reflexivity.
  - reflexivity.
  - reflexivity.
  - constructor.
Defined.

(** ** Resource spans *)

Lemma string_length_app (a b : string) :
  String.length (a +:+ b) = String.length a + String.length b.
Proof. induction a as [|c a IH]; simpl; [reflexivity | rewrite IH; reflexivity]. Qed.

Lemma substring_all (s : string) : String.substring 0 (String.length s) s = s.
Proof. induction s as [|c s IH]; simpl; [reflexivity | rewrite IH; reflexivity]. Qed.

Lemma substring_app_l (a b : string) :
  String.substring 0 (String.length a) (a +:+ b) = a.
Proof.
  induction a as [|c a IH]; simpl.
  - destruct b; reflexivity.
  - rewrite IH. reflexivity.
Qed.

Lemma substring_app_r (a b : string) :
  String.substring (String.length a) (String.length b) (a +:+ b) = b.
Proof. induction a as [|c a IH]; simpl; [apply substring_all | exact IH]. Qed.

Lemma index_app_l (a b : string) : String.index 0 a (a +:+ b) = Some 0.
Proof.
  pose proof (proj2 (String.prefix_correct a (a +:+ b)) (substring_app_l a b)) as Hp.
  destruct (a +:+ b) as [|c s] eqn:E.
  - destruct a; [reflexivity | discriminate E].
  - cbn [String.index]. rewrite Hp. reflexivity.
Qed.

(** Removing the origin from a URL of that origin leaves the path. *)
Lemma replace_origin (origin path : string) : replace (origin +:+ path) origin "" = path.
Proof.
  unfold replace. rewrite index_app_l, string_length_app.
  assert (H0 : forall s, String.substring 0 0 s = "") by (intros [|c s]; reflexivity).
  rewrite H0. simpl.
  replace (String.length origin + String.length path - String.length origin)
    with (String.length path) by lia.
  apply substring_app_r.
Qed.

(** X16: the span of a same-origin resource is named by its path.  For a
    resource entry the callback does not skip, whose initiator is
    neither [xmlhttprequest] nor [fetch] and whose name is the page's
    origin followed by [path], exactly one span is added; its
    description is [path], and it runs from the entry's start to its
    start plus its duration, both shifted by the time origin. *)
Theorem same_origin_resource_span (env : Env) (timeOrigin_ : number)
    (entryScriptSrc : option string) (p : Pass) (entry : PerformanceEntry)
    (path : string) :
  entryType entry = "resource" ->
  name entry = location_origin env +:+ path ->
  str_is (initiatorType entry) "xmlhttprequest" || str_is (initiatorType entry) "fetch"
    = false ->
  skipped timeOrigin_ (transaction_ p) entry = false ->
  exists ctx,
    tx_spans (transaction_ (perEntry env timeOrigin_ entryScriptSrc p entry))
    = tx_spans (transaction_ p) ++ [ctx]
    /\ description ctx = Some path
    /\ startTimestamp ctx = Some (add timeOrigin_ (msToSec (startTime entry)))
    /\ endTimestamp ctx
       = Some (add (add timeOrigin_ (msToSec (startTime entry))) (msToSec (duration entry))).
Proof.
  intros Ht Hn Hi Hs. rewrite perEntry_resource by assumption. cbn [transaction_].
  exists (resource_span env timeOrigin_ entry). rewrite _startChild_spans.
  split; [reflexivity|]. unfold resource_span. cbn [description startTimestamp endTimestamp].
  rewrite Hn, replace_origin. repeat split; reflexivity.
Qed.

Lemma same_origin_resource_span_witness :
  let p := {| transaction_ := pageload; measurements_ := ∅;
              entryScriptStartTimestamp := None; tracingInitMarkStartTime := None |} in
  exists ctx,
    tx_spans (transaction_ (perEntry browser (of_Z 1000) None p scenario_B_entry)) = [ctx]
    /\ description ctx = Some "/app.js"
    /\ startTimestamp ctx = Some (add (of_Z 1000) (msToSec (of_Z 10)))
    /\ endTimestamp ctx
       = Some (add (add (of_Z 1000) (msToSec (of_Z 10))) (msToSec (of_Z 5))).
Proof.
  intros p.
  apply (same_origin_resource_span browser (of_Z 1000) None p scenario_B_entry "/app.js");
    reflexivity.
Defined.

(** X17: what [addResourceSpans] puts on the span of a resource that is
    not an XHR or fetch request.  The operation is [resource.<type>],
    or plain [resource] when the initiator type is missing or empty.
    The data holds ['Transfer Size'], ['Encoded Body Size'] and
    ['Decoded Body Size'] exactly for the sizes the entry has, with the
    entry's values, and no other key.  The end timestamp returned is the
    end timestamp of the span. *)
Theorem resource_span_contents (transaction : Transaction) (entry : PerformanceEntry)
    (resourceName : string) (startTime_ duration_ timeOrigin_ : number) :
  str_is (initiatorType entry) "xmlhttprequest" || str_is (initiatorType entry) "fetch"
    = false ->
  let r := addResourceSpans transaction entry resourceName startTime_ duration_ timeOrigin_ in
  exists ctx d,
    tx_spans (fst r) = tx_spans transaction ++ [ctx]
    /\ snd r = endTimestamp ctx
    /\ description ctx = Some resourceName
    /\ op ctx = Some match initiatorType entry with
                     | Some "" | None => "resource"
                     | Some t => "resource." +:+ t
                     end
    /\ data ctx = Some d
    /\ d !! "Transfer Size" = prop entry "transferSize"
    /\ d !! "Encoded Body Size" = prop entry "encodedBodySize"
    /\ d !! "Decoded Body Size" = prop entry "decodedBodySize"
    /\ (forall k, k <> "Transfer Size" -> k <> "Encoded Body Size" ->
                  k <> "Decoded Body Size" -> d !! k = None).
Proof.
  intros Hi r. subst r. rewrite addResourceSpans_emits by exact Hi. cbn [fst snd].
  eexists. eexists. rewrite _startChild_spans.
  split; [reflexivity|]. split; [reflexivity|]. split; [reflexivity|].
  split; [|split; [reflexivity|]].
  - cbn [op]. destruct (initiatorType entry) as [[|c t]|]; reflexivity.
  - unfold copy_size.
    destruct (prop entry "transferSize") as [a|],
             (prop entry "encodedBodySize") as [b|],
             (prop entry "decodedBodySize") as [c|];
      (split; [|split; [|split]]);
      try (intros k K1 K2 K3);
      rewrite ?lookup_insert_eq;
      repeat (rewrite lookup_insert_ne by congruence; rewrite ?lookup_insert_eq);
      rewrite ?lookup_empty; reflexivity.
Qed.

Lemma resource_span_contents_witness :
  let entry := {| name := "https://cdn.example.org/logo.png"; entryType := "resource";
                  startTime := of_Z 10; duration := of_Z 5; initiatorType := Some "img";
                  props := {[ "transferSize" := of_Z 300; "decodedBodySize" := of_Z 900 ]} |} in
  let r := addResourceSpans pageload entry "https://cdn.example.org/logo.png"
             (frac 1 100) (frac 1 200) (of_Z 1000) in
  exists ctx d,
    tx_spans (fst r) = [ctx]
    /\ snd r = endTimestamp ctx
    /\ description ctx = Some "https://cdn.example.org/logo.png"
    /\ op ctx = Some "resource.img"
    /\ data ctx = Some d
    /\ d !! "Transfer Size" = Some (of_Z 300)
    /\ d !! "Encoded Body Size" = None
    /\ d !! "Decoded Body Size" = Some (of_Z 900)
    /\ (forall k, k <> "Transfer Size" -> k <> "Encoded Body Size" ->
                  k <> "Decoded Body Size" -> d !! k = None).
Proof.
  intros entry.
  apply (resource_span_contents pageload entry "https://cdn.example.org/logo.png"
           (frac 1 100) (frac 1 200) (of_Z 1000)).
  reflexivity.
Defined.

(** ** Entries a pass does nothing with *)

Lemma perEntry_passed_over (env : Env) (timeOrigin_ : number)
    (entryScriptSrc : option string) (p : Pass) (entry : PerformanceEntry) :
  passed_over timeOrigin_ (transaction_ p) entry ->
  perEntry env timeOrigin_ entryScriptSrc p entry = p.
Proof.
  intros [H | H]; unfold perEntry.
  - fold (skipped timeOrigin_ (transaction_ p) entry). rewrite H. reflexivity.
  - destruct (str_is _ _ && lt _ _); [reflexivity|].
    unfold handled_type in H. unfold dispatch.
    destruct (String.eqb (entryType entry) "navigation"); [discriminate H|].
    destruct (String.eqb (entryType entry) "mark"); [discriminate H|].
    destruct (String.eqb (entryType entry) "paint"); [discriminate H|].
    destruct (String.eqb (entryType entry) "measure"); [discriminate H|].
    destruct (String.eqb (entryType entry) "resource"); [discriminate H|].
    reflexivity.
Qed.

Lemma forEach_perEntry_passed_over (env : Env) (timeOrigin_ : number)
    (entryScriptSrc : option string) (l : list PerformanceEntry) (p : Pass) :
  Forall (passed_over timeOrigin_ (transaction_ p)) l ->
  fold_left (perEntry env timeOrigin_ entryScriptSrc) l p = p.
Proof.
  induction 1 as [|e l He Hl IH]; cbn [fold_left]; [reflexivity|].
  rewrite perEntry_passed_over by exact He. exact IH.
Qed.

(** X18: a pass over entries it has nothing to do with.  When every
    entry from the cursor on is skipped (it started before a navigation
    transaction did) or has a type other than navigation, mark, paint,
    measure and resource, the pass adds no span, leaves the start
    timestamp of the transaction and the paint measurements alone, and
    still moves the cursor to the last entry. *)
Theorem pass_over_ignored_entries (env : Env) (mi : MetricsInstrumentation) (h : Host)
    (transaction : Transaction) :
  hasPerformance env = true ->
  hasGetEntries env = true ->
  Forall (passed_over (msToSec (timeOrigin env)) transaction)
         (drop (_performanceCursor mi) (timeline h)) ->
  let r := addPerformanceEntries env mi h transaction in
  tx_spans (snd r) = tx_spans transaction
  /\ tx_startTimestamp (snd r) = tx_startTimestamp transaction
  /\ _performanceCursor (fst (fst r)) = Nat.pred (length (timeline h))
  /\ forall k, paint_key k ->
       _measurements (fst (fst r)) !! k = _measurements mi !! k.
Proof.
  intros Hp Hg Hall r. subst r. unfold addPerformanceEntries. rewrite Hp, Hg.
  cbn [negb orb].
  assert (Hf :
    let f := if str_is (tx_op transaction) "pageload"
             then forceLCP env mi h else (mi, h) in
    _performanceCursor (fst f) = _performanceCursor mi
    /\ timeline (snd f) = timeline h
    /\ forall k, paint_key k -> _measurements (fst f) !! k = _measurements mi !! k).
  { destruct (str_is (tx_op transaction) "pageload"); cbn zeta; cbn [fst snd];
      [|repeat split; reflexivity].
    split; [apply forceLCP_cursor|]. split; [apply forceLCP_timeline|].
    intros k Hk. unfold forceLCP. destruct (_forceLCP mi); [reflexivity|].
    destruct (hasTakeRecords env); [|reflexivity].
    unfold drainLCP. cbn [fst].
    destruct (forEach_updateLCP_frame (timeOrigin env) (lcpRecords h) mi)
      as (_ & _ & H3 & _).
    apply H3. unfold paint_key, lcp_key in *.
    intros [G | G]; subst k; destruct Hk as [K | [K | [K | K]]]; discriminate K. }
  destruct (if str_is (tx_op transaction) "pageload"
            then forceLCP env mi h else (mi, h)) as [mi1 h1].
  cbn zeta in Hf. cbn [fst snd] in Hf. destruct Hf as (Hc & Ht & Hm).
  rewrite Hc, Ht, forEach_perEntry_passed_over by exact Hall.
  cbn [entryScriptStartTimestamp tracingInitMarkStartTime transaction_ measurements_].
  rewrite cursor_after_pred.
  destruct (str_is (tx_op transaction) "pageload");
    cbn [fst snd tx_spans tx_startTimestamp setMeasurements _performanceCursor
         _measurements set_performanceCursor set_measurements];
    repeat split; try reflexivity; exact Hm.
Qed.

Lemma pass_over_ignored_entries_witness :
  let old := {| name := "first-paint"; entryType := "paint";
                startTime := of_Z 40; duration := zero;
                initiatorType := None; props := ∅ |} in
  let task := {| name := "self"; entryType := "longtask";
                 startTime := of_Z 9000; duration := of_Z 60;
                 initiatorType := None; props := ∅ |} in
  let mi := {| _firstHiddenTime := PosInf; _lcpFinal := false; _measurements := ∅;
               _performanceCursor := 1; _forceLCP := ForceTakeRecords |} in
  let h := page [scenario_B_entry; old; task] "visible" [] [] in
  let transaction := empty_transaction "navigation" (of_Z 1005) in
  let r := addPerformanceEntries browser mi h transaction in
  tx_spans (snd r) = []
  /\ tx_startTimestamp (snd r) = of_Z 1005
  /\ _performanceCursor (fst (fst r)) = 2
  /\ forall k, paint_key k -> _measurements (fst (fst r)) !! k = None.
Proof.
  intros old task mi h transaction.
  apply (pass_over_ignored_entries browser mi h transaction).
  - reflexivity.
  - reflexivity.
  - constructor; [left; reflexivity|]. constructor; [right; reflexivity | constructor].
Defined.

(** ** The spans of a pass, as a function of the entries *)

Lemma perEntry_unfolded (env : Env) (timeOrigin_ : number)
    (entryScriptSrc : option string) (p : Pass) (entry : PerformanceEntry) :
  str_is (tx_op (transaction_ p)) "navigation" = false ->
  tx_spans (transaction_ (perEntry env timeOrigin_ entryScriptSrc p entry))
  = tx_spans (transaction_ p) ++ entry_spans env timeOrigin_ entry
  /\ tracingInitMarkStartTime (perEntry env timeOrigin_ entryScriptSrc p entry)
     = match tracingInitMarkStartTime p with
       | Some v => Some v
       | None =>
           if is_tracing_init entry
           then Some (add timeOrigin_ (msToSec (startTime entry)))
           else None
       end
  /\ entryScriptStartTimestamp (perEntry env timeOrigin_ entryScriptSrc p entry)
     = match entryScriptStartTimestamp p with
       | Some v => Some v
       | None =>
           if is_entry_script env entryScriptSrc entry
           then Some (add (add timeOrigin_ (msToSec (startTime entry)))
                          (msToSec (duration entry)))
           else None
       end.
Proof.
  intros Hop. unfold perEntry. rewrite Hop. cbn [andb].
  unfold dispatch, entry_spans, is_tracing_init, is_entry_script, addMeasureSpans,
    addResourceSpans.
  destruct (String.eqb (entryType entry) "navigation") eqn:En;
    destruct (String.eqb (entryType entry) "mark") eqn:Em;
    destruct (String.eqb (entryType entry) "paint") eqn:Ep;
    destruct (String.eqb (entryType entry) "measure") eqn:Es;
    destruct (String.eqb (entryType entry) "resource") eqn:Er;
    repeat match goal with
           | H : String.eqb _ _ = true |- _ => apply String.eqb_eq in H
           end;
    try congruence;
    cbn [andb orb negb];
    destruct (tracingInitMarkStartTime p) eqn:Et;
    destruct (entryScriptStartTimestamp p) eqn:Ee;
    try (destruct (str_is (initiatorType entry) "xmlhttprequest"
                   || str_is (initiatorType entry) "fetch"));
    try (destruct (indexOf_found _ _));
    cbn [andb orb negb transaction_ tracingInitMarkStartTime entryScriptStartTimestamp
         fst snd];
    rewrite ?Et, ?Ee, ?app_nil_r, ?_startChild_spans, ?addNavigationSpans_spans;
    repeat split; try reflexivity.
Qed.

Lemma forEach_perEntry_unfolded (env : Env) (timeOrigin_ : number)
    (entryScriptSrc : option string) (l : list PerformanceEntry) (p : Pass) :
  str_is (tx_op (transaction_ p)) "navigation" = false ->
  let p' := fold_left (perEntry env timeOrigin_ entryScriptSrc) l p in
  tx_spans (transaction_ p')
  = tx_spans (transaction_ p) ++ flat_map (entry_spans env timeOrigin_) l
  /\ tracingInitMarkStartTime p'
     = match tracingInitMarkStartTime p with
       | Some v => Some v
       | None =>
           (fun mark_ => add timeOrigin_ (msToSec (startTime mark_)))
             <$> List.find is_tracing_init l
       end
  /\ entryScriptStartTimestamp p'
     = match entryScriptStartTimestamp p with
       | Some v => Some v
       | None =>
           (fun resource => add (add timeOrigin_ (msToSec (startTime resource)))
                                (msToSec (duration resource)))
             <$> List.find (is_entry_script env entryScriptSrc) l
       end.
Proof.
  revert p. induction l as [|e l IH]; intros p Hop; cbn zeta; cbn [fold_left].
  - cbn [flat_map List.find]. rewrite app_nil_r.
    destruct (tracingInitMarkStartTime p), (entryScriptStartTimestamp p);
      repeat split; reflexivity.
  - destruct (perEntry_unfolded env timeOrigin_ entryScriptSrc p e Hop) as (H1 & H2 & H3).
    destruct (perEntry_transaction env timeOrigin_ entryScriptSrc p e) as [Hop' _].
    destruct (IH (perEntry env timeOrigin_ entryScriptSrc p e)) as (I1 & I2 & I3).
    { rewrite Hop'. exact Hop. }
    cbn zeta in I1, I2, I3. rewrite I1, I2, I3, H1, H2, H3.
    cbn [flat_map List.find]. rewrite <- app_assoc.
    split; [reflexivity|]. split.
    + destruct (tracingInitMarkStartTime p); [reflexivity|].
      destruct (is_tracing_init e); reflexivity.
    + destruct (entryScriptStartTimestamp p); [reflexivity|].
      destruct (is_entry_script env entryScriptSrc e); reflexivity.
Qed.

(** X19: the spans of a pass as a function of the entries.  For a
    transaction that is not a navigation (so that no entry is skipped),
    the pass adds, entry by entry from the cursor on, the spans of each
    entry, and then one "evaluation" span from the end of the first
    entry-script resource to the start of the first
    [sentry-tracing-init] mark when both are among the entries: later
    matches do not replace the first ones. *)
Theorem pass_spans (env : Env) (mi : MetricsInstrumentation) (h : Host)
    (transaction : Transaction) :
  hasPerformance env = true ->
  hasGetEntries env = true ->
  str_is (tx_op transaction) "navigation" = false ->
  let slice := drop (_performanceCursor mi) (timeline h) in
  let timeOrigin_ := msToSec (timeOrigin env) in
  tx_spans (snd (addPerformanceEntries env mi h transaction))
  = tx_spans transaction
    ++ flat_map (entry_spans env timeOrigin_) slice
    ++ evaluation_spans env timeOrigin_ (entryScriptSrc_of env) slice.
Proof.
  intros Hp Hg Hop slice timeOrigin_.
  rewrite (addPerformanceEntries_spans env mi h transaction Hp Hg). cbv zeta.
  fold (entryScriptSrc_of env). fold slice. fold timeOrigin_.
  match goal with
  | |- context [fold_left ?f slice ?p0] =>
      destruct (forEach_perEntry_unfolded env timeOrigin_ (entryScriptSrc_of env)
                  slice p0 Hop) as (H1 & H2 & H3)
  end.
  cbn zeta in H1, H2, H3. cbn [transaction_ entryScriptStartTimestamp
                               tracingInitMarkStartTime] in H1, H2, H3.
  rewrite H1, H2, H3. unfold evaluation_spans.
  destruct (List.find (is_entry_script env (entryScriptSrc_of env)) slice),
           (List.find is_tracing_init slice); cbn [fmap option_fmap option_map];
    rewrite <- ?app_assoc, ?app_nil_r; reflexivity.
Qed.

Lemma pass_spans_witness :
  let env := {| hasPerformance := true; hasMark := true; hasGetEntries := true;
                timeOrigin := of_Z 1000000;
                scripts := Some [ {| dataset_entry := None; src := "https://example.com/a.js" |};
                                  {| dataset_entry := Some "true";
                                     src := "https://example.com/app.js" |} ];
                location_origin := "https://example.com";
                lcpSupported := true; fidSupported := true; hasTakeRecords := true |} in
  let s := start env (of_Z 20) (page [scenario_B_entry] "visible" [] []) in
  let timeOrigin_ := msToSec (timeOrigin env) in
  tx_spans (snd (addPerformanceEntries env (instr s) (host s) pageload))
  = [ resource_span env timeOrigin_ scenario_B_entry;
      measure_span timeOrigin_ (tracing_init_mark (of_Z 20));
      {| description := Some "evaluation";
         endTimestamp := Some (add timeOrigin_ (msToSec (of_Z 20)));
         op := Some "script";
         startTimestamp :=
           Some (add (add timeOrigin_ (msToSec (of_Z 10))) (msToSec (of_Z 5)));
         data := None |} ].
Proof.
  intros env s timeOrigin_.
  apply (pass_spans env (instr s) (host s) pageload); reflexivity.
Defined.

(** ** The visibilitychange listeners *)

Lemma visibilityChange_listeners_gone (env : Env) (s : Session) (timeStamp : number)
    (state : string) :
  firstHiddenListener (host (step env s (VisibilityChange timeStamp state))) = false
  /\ lcpListener (host (step env s (VisibilityChange timeStamp state))) = false.
Proof.
  split; [exact (proj2 (step_firstHidden env s (VisibilityChange timeStamp state)))|].
  cbn [step]. unfold visibilityChange, lcpVisibilityListener, drainLCP.
  cbn [firstHiddenListener set_visibilityState].
  destruct (firstHiddenListener (host s));
    cbn [lcpListener set_firstHiddenListener set_visibilityState];
    destruct (lcpListener (host s)) eqn:EL; cbn [_lcpFinal firstHiddenVisibilityListener
                                                  set_firstHiddenTime];
    try (cbn; exact EL);
    destruct (_lcpFinal (instr s)); try reflexivity;
    destruct (String.eqb _ _); try reflexivity;
    destruct (hasTakeRecords env); reflexivity.
Qed.

Lemma run_listeners_gone (env : Env) (evs : list Event) (s : Session) :
  firstHiddenListener (host s) = false -> lcpListener (host s) = false ->
  firstHiddenListener (host (run env s evs)) = false
  /\ lcpListener (host (run env s evs)) = false.
Proof.
  revert s. induction evs as [|ev evs IH]; intros s H1 H2; [split; assumption|].
  change (run env s (ev :: evs)) with (run env (step env s ev) evs).
  destruct (step_frame env s ev) as (_ & _ & _ & H4 & _). cbn zeta in H4.
  pose proof (step_firstHidden env s ev) as Hs.
  apply IH; [|apply H4, H2].
  destruct ev; destruct Hs as [_ Hs]; congruence.
Qed.

(** X20: the visibilitychange listeners fire once.  After the first
    visibilitychange event of a session, whatever else happens, a
    further visibilitychange event changes no field of the
    instrumentation: not the first-hidden timestamp, not the final
    flag, not a measurement. *)
Theorem visibility_listeners_fire_once (env : Env) (s : Session)
    (timeStamp1 timeStamp2 : number) (state1 state2 : string) (evs : list Event) :
  let s1 := step env s (VisibilityChange timeStamp1 state1) in
  let s2 := run env s1 evs in
  instr (step env s2 (VisibilityChange timeStamp2 state2)) = instr s2.
Proof.
  intros s1 s2.
  destruct (visibilityChange_listeners_gone env s timeStamp1 state1) as [H1 H2].
  destruct (run_listeners_gone env evs s1 H1 H2) as [G1 G2]. fold s2 in G1, G2.
  cbn [step]. unfold visibilityChange. cbn [firstHiddenListener set_visibilityState].
  rewrite G1. cbn [lcpListener set_visibilityState]. rewrite G2. reflexivity.
Qed.
